(** * The content-generation pipeline: agents and orchestrator

    A shallow embedding of the Python sources
      - [src/agents/base_agent.py]      (module [BaseAgent])
      - [src/agents/research_agent.py]  (module [ResearchAgent])
      - [src/agents/script_agent.py]    (module [ScriptAgent])
      - [src/agents/voice_agent.py]     (module [VoiceAgent])
      - [src/agents/visual_agent.py]    (module [VisualAgent])
      - [src/agents/editor_agent.py]    (module [EditorAgent])
      - [src/main.py]                   (modules [ContentGenerator], [Main])
    followed by the theorems about them.

    Python values are an inductive type, dictionaries are insertion-ordered
    association lists, exceptions are an explicit result type, log records
    and orchestrator events are written to a trace. *)

From Stdlib Require Import List String Ascii ZArith Bool Lia PeanoNat.
From Stdlib Require Import Floats DecimalString DecimalNat.
From ExtLib Require Import Structures.Monad Structures.MonadExc.
Import ListNotations.
Import MonadNotation.
Local Open Scope monad_scope.
Local Open Scope list_scope.
Local Open Scope string_scope.

Set Implicit Arguments.
#[local] Set Warnings "-register-all".
#[local] Set Warnings "-abstract-large-number".

(* ===================================================================== *)
(** * Python values, exceptions and built-ins                             *)
(* ===================================================================== *)

Module Py.

(** Exceptions.  [KeyError] to [Exception] are classes derived from
    Python's [Exception]; [KeyboardInterrupt], [SystemExit],
    [GeneratorExit] and [asyncio.CancelledError] are derived from
    [BaseException] only. *)
Inductive exn : Type :=
| KeyError (key : string)
| TypeError (msg : string)
| AttributeError (msg : string)
| ZeroDivisionError (msg : string)
| OverflowError (msg : string)
| OSError (msg : string)
| Exception (msg : string)
| KeyboardInterrupt (msg : string)
| SystemExit (msg : string)
| GeneratorExit (msg : string)
| CancelledError (msg : string).

(** [isinstance(e, Exception)]: what a handler [except Exception]
    catches. *)
Definition is_Exception (e : exn) : bool :=
  match e with
  | KeyboardInterrupt _ | SystemExit _ | GeneratorExit _
  | CancelledError _ => false
  | _ => true
  end.
Arguments is_Exception !e.

(** The result of evaluating an expression or a call. *)
Inductive outcome (A : Type) : Type :=
| Return (a : A)
| Raise (e : exn).
Arguments Return {A} a.
Arguments Raise {A} e.

#[global] Instance Monad_outcome : Monad outcome :=
  {| ret := fun _ a => Return a;
     bind := fun _ _ m k =>
               match m with
               | Return a => k a
               | Raise e => Raise e
               end |}.

#[global] Instance Exc_outcome : MonadExc exn outcome :=
  {| raise := fun _ e => Raise e;
     catch := fun _ m h =>
                match m with
                | Return a => Return a
                | Raise e => h e
                end |}.

(** Values.  Dictionaries keep their insertion order and have string
    keys, which is all the pipeline uses. *)
Inductive value : Type :=
| PyNone
| PyBool (b : bool)
| PyInt (z : Z)
| PyFloat (f : float)
| PyStr (s : string)
| PyList (l : list value)
| PyDict (d : list (string * value)).

Definition dict : Type := list (string * value).

(** ** Strings

    A [string] is a sequence of code points below 256. *)

Definition LF : ascii := Ascii.ascii_of_nat 10.
Definition nl : string := String LF EmptyString.

(** [str.isspace] on one code point (the white space of [str.strip] and
    [str.split]): U+0009..U+000D, U+001C..U+001F, U+0020, U+0085,
    U+00A0. *)
Definition isspace (c : ascii) : bool :=
  let n := Ascii.nat_of_ascii c in
  ((9 <=? n)%nat && (n <=? 13)%nat) || ((28 <=? n)%nat && (n <=? 32)%nat)
  || (n =? 133)%nat || (n =? 160)%nat.

(** [s.lstrip()] *)
Fixpoint lstrip (s : string) : string :=
  match s with
  | EmptyString => EmptyString
  | String c s' => if isspace c then lstrip s' else s
  end.

(** [s.rstrip()] *)
Fixpoint rstrip (s : string) : string :=
  match s with
  | EmptyString => EmptyString
  | String c s' =>
      match rstrip s' with
      | EmptyString => if isspace c then EmptyString else String c EmptyString
      | r => String c r
      end
  end.

(** [s.strip()] *)
Definition strip (s : string) : string := rstrip (lstrip s).

(** [s.split(sep)] for a separator of one character. *)
Fixpoint split (sep : ascii) (s : string) : list string :=
  match s with
  | EmptyString => [EmptyString]
  | String c s' =>
      if Ascii.eqb c sep then EmptyString :: split sep s'
      else match split sep s' with
           | w :: ws => String c w :: ws
           | [] => [String c EmptyString]
           end
  end.

(** [s.split()]: the maximal runs of characters that are not white
    space. *)
Fixpoint split_whitespace (s : string) : list string :=
  match s with
  | EmptyString => []
  | String c s' =>
      if isspace c then split_whitespace s'
      else match s' with
           | EmptyString => [String c EmptyString]
           | String c' _ =>
               if isspace c' then String c EmptyString :: split_whitespace s'
               else match split_whitespace s' with
                    | w :: ws => String c w :: ws
                    | [] => [String c EmptyString]
                    end
           end
  end.

(** [s.startswith(p)] *)
Definition startswith (s p : string) : bool := String.prefix p s.

(** [s[n:]] for [n >= 0] *)
Fixpoint slice_from (n : nat) (s : string) : string :=
  match n, s with
  | O, _ => s
  | S _, EmptyString => EmptyString
  | S n', String _ s' => slice_from n' s'
  end.

(** [sep.join(l)] *)
Definition join (sep : string) (l : list string) : string :=
  String.concat sep l.

(** [c in s] for a character [c] *)
Definition mem_char (c : ascii) (s : string) : bool :=
  existsb (Ascii.eqb c) (list_ascii_of_string s).

(** [str.isprintable] on one code point: below 256 the code points that
    are not printable are the controls U+0000..U+001F and
    U+007F..U+009F, the no-break space U+00A0 and the soft hyphen
    U+00AD. *)
Definition isprintable (c : ascii) : bool :=
  let n := Ascii.nat_of_ascii c in
  ((32 <=? n)%nat && (n <=? 126)%nat)
  || ((161 <=? n)%nat && negb (n =? 173)%nat).

Definition apostrophe : ascii := Ascii.ascii_of_nat 39.
Definition quotation_mark : ascii := Ascii.ascii_of_nat 34.
Definition backslash : ascii := Ascii.ascii_of_nat 92.

Definition hex_digit (n : nat) : ascii :=
  nth n (list_ascii_of_string "0123456789abcdef") "0"%char.

(** One character of [repr(s)], written between the quotes [quote]. *)
Definition repr_char (quote c : ascii) : string :=
  let n := Ascii.nat_of_ascii c in
  if Ascii.eqb c quote || Ascii.eqb c backslash then
    String backslash (String c EmptyString)
  else if (n =? 9)%nat then String backslash "t"
  else if (n =? 10)%nat then String backslash "n"
  else if (n =? 13)%nat then String backslash "r"
  else if isprintable c then String c EmptyString
  else String backslash
         (String "x" (String (hex_digit (n / 16))
                             (String (hex_digit (n mod 16)) EmptyString))).

(** [repr(s)] of a string: in apostrophes, unless the string has an
    apostrophe and no quotation mark; the quote used, the backslash and
    the characters that are not printable are escaped. *)
Definition repr_str (s : string) : string :=
  let quote :=
    if mem_char apostrophe s && negb (mem_char quotation_mark s)
    then quotation_mark else apostrophe in
  String quote
         (String.concat "" (map (repr_char quote) (list_ascii_of_string s))
            ++ String quote EmptyString).

(** [str(e)]: the message, and for a [KeyError] the [repr] of the
    key. *)
Definition exn_str (e : exn) : string :=
  match e with
  | KeyError k => repr_str k
  | TypeError m | AttributeError m | ZeroDivisionError m
  | OverflowError m | OSError m | Exception m
  | KeyboardInterrupt m | SystemExit m | GeneratorExit m
  | CancelledError m => m
  end.

(** ** Truth value, length, iteration, subscription *)

(** [bool(v)] *)
Definition truthy (v : value) : bool :=
  match v with
  | PyNone => false
  | PyBool b => b
  | PyInt z => negb (z =? 0)%Z
  | PyFloat f => negb (PrimFloat.eqb f 0%float)
  | PyStr s => negb (String.eqb s "")
  | PyList l => match l with [] => false | _ => true end
  | PyDict d => match d with [] => false | _ => true end
  end.

Definition chars (s : string) : list value :=
  map (fun c => PyStr (String c EmptyString)) (list_ascii_of_string s).

(** [len(v)] *)
Definition len (v : value) : outcome nat :=
  match v with
  | PyStr s => Return (String.length s)
  | PyList l => Return (List.length l)
  | PyDict d => Return (List.length d)
  | _ => Raise (TypeError "object has no len()")
  end.

(** The items a [for] loop over [v] visits. *)
Definition iter (v : value) : outcome (list value) :=
  match v with
  | PyStr s => Return (chars s)
  | PyList l => Return l
  | PyDict d => Return (map (fun kv => PyStr (fst kv)) d)
  | _ => Raise (TypeError "object is not iterable")
  end.

(** [d.get(k)] on a dictionary: the first binding of [k]. *)
Fixpoint lookup (k : string) (d : dict) : option value :=
  match d with
  | [] => None
  | (k', v) :: d' => if String.eqb k k' then Some v else lookup k d'
  end.

(** [k in d] *)
Definition contains (d : dict) (k : string) : bool :=
  match lookup k d with Some _ => true | None => false end.

(** [d[k]] on a dictionary *)
Definition getitem (d : dict) (k : string) : outcome value :=
  match lookup k d with
  | Some v => Return v
  | None => Raise (KeyError k)
  end.

(** [v[k]] with a string key, on any value *)
Definition subscript (v : value) (k : string) : outcome value :=
  match v with
  | PyDict d => getitem d k
  | PyStr _ => Raise (TypeError "string indices must be integers")
  | PyList _ => Raise (TypeError "list indices must be integers or slices")
  | _ => Raise (TypeError "object is not subscriptable")
  end.

(** [all(key in d for key in keys)] *)
Definition has_keys (d : dict) (keys : list string) : bool :=
  forallb (contains d) keys.

(** [d[k] = v]: an existing key keeps its place. *)
Fixpoint setitem (d : dict) (k : string) (v : value) : dict :=
  match d with
  | [] => [(k, v)]
  | (k', v') :: d' =>
      if String.eqb k k' then (k, v) :: d' else (k', v') :: setitem d' k v
  end.

(** The receiver of a [str] method such as [split]: only a [str] has
    it. *)
Definition as_str (v : value) : outcome string :=
  match v with
  | PyStr s => Return s
  | _ => Raise (AttributeError "object has no attribute 'split'")
  end.

(** [v == s] for a string literal [s] *)
Definition eq_str (v : value) (s : string) : bool :=
  match v with
  | PyStr s' => String.eqb s' s
  | _ => false
  end.

(** [v <= 0] *)
Definition le_zero (v : value) : outcome bool :=
  match v with
  | PyFloat f => Return (PrimFloat.leb f 0%float)
  | PyInt z => Return (z <=? 0)%Z
  | PyBool b => Return (negb b)
  | _ => Raise (TypeError "'<=' not supported")
  end.

(** [str(n)] for a natural number *)
Definition str_of_nat (n : nat) : string :=
  NilEmpty.string_of_uint (Nat.to_uint n).

(** ** True division by a length

    [x / n] where [n] is the result of [len]: [ZeroDivisionError] when
    [n] is zero; otherwise the IEEE quotient for a float [x], and the
    correctly rounded quotient ([OverflowError] beyond the floats) for
    an int [x]. *)

Definition float_of_nat (n : nat) : float :=
  SF2Prim (binary_normalize prec emax (Z.of_nat n) 0 false).

Definition sf_of_Z (z : Z) : spec_float :=
  match z with
  | Z0 => S754_zero false
  | Zpos p => S754_finite false p 0
  | Zneg p => S754_finite true p 0
  end.

Definition int_truediv (z : Z) (n : nat) : outcome value :=
  match SFdiv prec emax (sf_of_Z z) (sf_of_Z (Z.of_nat n)) with
  | S754_infinity _ =>
      Raise (OverflowError "integer division result too large for a float")
  | q => Return (PyFloat (SF2Prim q))
  end.

Definition truediv (x : value) (n : nat) : outcome value :=
  match x with
  | PyFloat f =>
      if Nat.eqb n 0 then Raise (ZeroDivisionError "float division by zero")
      else Return (PyFloat (PrimFloat.div f (float_of_nat n)))
  | PyInt z =>
      if Nat.eqb n 0 then Raise (ZeroDivisionError "division by zero")
      else int_truediv z n
  | PyBool b =>
      if Nat.eqb n 0 then Raise (ZeroDivisionError "division by zero")
      else int_truediv (if b then 1 else 0) n
  | _ => Raise (TypeError "unsupported operand type(s) for /")
  end.

(** ** Effects: a trace of records beside the result

    [writer W A] is a computation that appends records of type [W] to a
    trace and returns an [A] or raises. *)

Definition writer (W A : Type) : Type := (list W * outcome A)%type.

#[global] Instance Monad_writer (W : Type) : Monad (writer W) :=
  {| ret := fun _ a => ([], Return a);
     bind := fun _ _ m k =>
               match m with
               | (w, Return a) => let (w', r) := k a in ((w ++ w')%list, r)
               | (w, Raise e) => (w, Raise e)
               end |}.

#[global] Instance Exc_writer (W : Type) : MonadExc exn (writer W) :=
  {| raise := fun _ e => ([], Raise e);
     catch := fun _ m h =>
                match m with
                | (w, Return a) => (w, Return a)
                | (w, Raise e) => let (w', r) := h e in ((w ++ w')%list, r)
                end |}.

Definition lift {W A : Type} (o : outcome A) : writer W A := ([], o).
Definition tell {W : Type} (w : W) : writer W unit := ([w], Return tt).

(** [try: body except Exception as e: handler]: an exception that is
    not derived from [Exception] passes through. *)
Definition except_Exception {W A : Type} (body : writer W A)
           (handler : exn -> writer W A) : writer W A :=
  match body with
  | (w, Return a) => (w, Return a)
  | (w, Raise e) =>
      if is_Exception e
      then let (w', r) := handler e in ((w ++ w')%list, r)
      else (w, Raise e)
  end.

(** What [o] raises, if it raises, is derived from [Exception]. *)
Definition fails_with_Exception {A : Type} (o : outcome A) : Prop :=
  forall e, o = Raise e -> is_Exception e = true.

Lemma Return_fails (A : Type) (a : A) : fails_with_Exception (Return a).
Proof. intros e He. discriminate He. Qed.

Lemma Raise_fails (A : Type) (e : exn) :
  is_Exception e = true -> fails_with_Exception (@Raise A e).
Proof. intros He e' Heq. injection Heq as <-. exact He. Qed.

Lemma OSError_fails (A : Type) (msg : string) :
  fails_with_Exception (@Raise A (OSError msg)).
Proof. apply Raise_fails. reflexivity. Qed.

Arguments Return_fails {A} a _ _.
Arguments Raise_fails {A e} _ _ _.
Arguments OSError_fails {A} msg _ _.

(** [a or b], evaluating [b] only when [a] is false *)
Definition orelse {m : Type -> Type} `{Monad m} (a b : m bool) : m bool :=
  x <- a ;; if x : bool then ret true else b.

(** A loop that appends one result per item. *)
Fixpoint for_each {m : Type -> Type} `{Monad m} {A B : Type}
         (f : A -> m B) (l : list A) : m (list B) :=
  match l with
  | [] => ret []
  | a :: l' => b <- f a ;; bs <- for_each f l' ;; ret (b :: bs)
  end.

Definition trace {W A : Type} (m : writer W A) : list W := fst m.
Definition result {W A : Type} (m : writer W A) : outcome A := snd m.

(** ** Logging *)

Inductive level : Type := INFO | ERROR.

Record log_record : Type :=
  { logger : string; levelname : level; message : string }.

Definition logged (A : Type) : Type := writer log_record A.

(** ** moviepy clips *)

Inductive effect : Type :=
| crossfadein (d : float)
| fadein (d : float)
| fadeout (d : float).

Record Clip : Type :=
  { source : value; duration : option value; effects : list effect }.

(** ** The world outside the agents

    The interpreter's [repr] and the external services and files the
    agents call; every theorem holds for all of them.  A service or a
    library that fails does so with an exception derived from
    [Exception]. *)

Class Environment : Type :=
  { (** [repr(v)] *)
    repr : value -> string;
    (** [ollama.generate(model, prompt)] *)
    ollama_generate : value -> string -> outcome value;
    (** [openai.ChatCompletion.acreate(model, messages, max_tokens,
        temperature)] followed by [.choices[0].message.content]; the
        arguments are the model, the system and the user message, the
        token limit and the temperature *)
    openai_ChatCompletion_acreate :
      value -> string -> string -> value -> value -> outcome value;
    (** [openai.Image.acreate], the download and [image.save] of
        [VisualAgent._generate_image]: prompt, size, output file *)
    openai_Image_acreate_save : string -> string -> string -> outcome unit;
    (** [os.path.exists(p)] *)
    os_path_exists : value -> outcome bool;
    (** [Image.open(p)] *)
    Image_open : value -> outcome unit;
    (** [ImageClip(p)]: reading the image *)
    ImageClip_read : value -> outcome unit;
    (** [VideoFileClip(p).duration] *)
    VideoFileClip_duration : value -> outcome value;
    (** [VideoFileClip(p).close()] *)
    VideoFileClip_close : value -> outcome unit;
    (** [concatenate_videoclips], [AudioFileClip], [set_audio],
        [os.makedirs] and [write_videofile] of [EditorAgent.process]:
        clips, audio path, output file *)
    write_videofile : list Clip -> value -> string -> outcome unit;
    ollama_generate_fails : forall model prompt,
      fails_with_Exception (ollama_generate model prompt);
    openai_ChatCompletion_acreate_fails :
      forall model system user max_tokens temperature,
        fails_with_Exception
          (openai_ChatCompletion_acreate model system user max_tokens
             temperature);
    openai_Image_acreate_save_fails : forall prompt size file,
      fails_with_Exception (openai_Image_acreate_save prompt size file);
    os_path_exists_fails : forall p, fails_with_Exception (os_path_exists p);
    Image_open_fails : forall p, fails_with_Exception (Image_open p);
    ImageClip_read_fails : forall p, fails_with_Exception (ImageClip_read p);
    VideoFileClip_duration_fails : forall p,
      fails_with_Exception (VideoFileClip_duration p);
    VideoFileClip_close_fails : forall p,
      fails_with_Exception (VideoFileClip_close p);
    write_videofile_fails : forall clips audio file,
      fails_with_Exception (write_videofile clips audio file) }.

(** What the construction of the generator touches: the configuration
    file and the log files. *)
Class Startup : Type :=
  { (** [open(config_path, 'r')] and [yaml.safe_load(f)] *)
    load_config : string -> outcome value;
    (** [setup_logging] of the agent called [name]: [mkdir] of the log
        directory and the [logging.FileHandler] of the agent's log
        file *)
    setup_logging : string -> outcome unit }.

(** [f"{v}"] *)
Definition fmt `{Environment} (v : value) : string :=
  match v with
  | PyStr s => s
  | _ => repr v
  end.

(** A triple-quoted template whose lines are indented by [indent]
    spaces: a line feed, the lines, and the indentation before the
    closing quotes. *)
Definition spaces (n : nat) : string :=
  string_of_list_ascii (repeat (Ascii.ascii_of_nat 32) n).

Definition template (indent : nat) (lines : list string) : string :=
  nl ++ String.concat "" (map (fun l => spaces indent ++ l ++ nl) lines)
     ++ spaces indent.

End Py.
Export Py.

(* ===================================================================== *)
(** * [base_agent.py]                                                     *)
(* ===================================================================== *)

Module BaseAgent.
Section BaseAgent.
Context `{Environment}.

(** An agent: its name and the two abstract methods. *)
Record Agent : Type :=
  { name : string;
    process : dict -> logged dict;
    validate_output : dict -> logged bool }.

(** [self.logger.info(msg)], [self.logger.error(msg)] of the agent
    called [name] *)
Definition info (name msg : string) : logged unit :=
  tell {| logger := "agent." ++ name; levelname := INFO; message := msg |}.

Definition error (name msg : string) : logged unit :=
  tell {| logger := "agent." ++ name; levelname := ERROR; message := msg |}.

(** [BaseAgent.__init__(config, name)]: the logger of the agent called
    [name] and, by [setup_logging], its log file. *)
Definition __init__ `{Startup} (name : string) : outcome unit :=
  setup_logging name.

Definition run (self : Agent) (input_data : dict) : logged value :=
  except_Exception
    (info (name self)
          ("Starting processing with input: " ++ fmt (PyDict input_data)) ;;
     output <- process self input_data ;;
     valid <- validate_output self output ;;
     if valid : bool then
       info (name self) "Processing completed successfully" ;;
       ret (PyDict output)
     else
       error (name self) "Output validation failed" ;;
       ret PyNone)
    (fun e =>
       error (name self) ("Error during processing: " ++ exn_str e) ;;
       ret PyNone).

End BaseAgent.
End BaseAgent.

(* ===================================================================== *)
(** * [research_agent.py]                                                 *)
(* ===================================================================== *)

Module ResearchAgent.
Section ResearchAgent.
Context `{Environment}.

Record t : Type :=
  { model : value; max_tokens : value; temperature : value }.

Definition name : string := "research_agent".

Definition __init__ `{Startup} (config : value) : outcome t :=
  BaseAgent.__init__ name ;;
  model <- subscript config "model" ;;
  max_tokens <- subscript config "max_tokens" ;;
  temperature <- subscript config "temperature" ;;
  ret {| model := model; max_tokens := max_tokens;
         temperature := temperature |}.

Definition validate_output (self : t) (output : dict) : logged bool :=
  let required_keys := ["facts"; "sources"; "metadata"] in
  if negb (has_keys output required_keys) then
    BaseAgent.error name "Missing required keys in output" ;;
    ret false
  else
    empty <- orelse (facts <- lift (getitem output "facts") ;;
                     ret (negb (truthy facts)))
                    (sources <- lift (getitem output "sources") ;;
                     ret (negb (truthy sources))) ;;
    if empty : bool then
      BaseAgent.error name "Empty facts or sources" ;;
      ret false
    else
      facts <- lift (getitem output "facts") ;;
      n_facts <- lift (len facts) ;;
      sources <- lift (getitem output "sources") ;;
      n_sources <- lift (len sources) ;;
      if (n_sources <? n_facts)%nat then
        BaseAgent.error name "More facts than sources" ;;
        ret false
      else
        ret true.

Definition _construct_research_prompt (topic platform style : value)
  : string :=
  template 8
    [ "Research the following historical topic: " ++ fmt topic;
      "";
      "Requirements:";
      "- Target platform: " ++ fmt platform;
      "- Content style: " ++ fmt style;
      "- Find 3-5 interesting and verified historical facts";
      "- Include specific dates and details";
      "- Ensure facts are engaging for social media";
      "- Provide reliable sources for each fact";
      "";
      "Format the response as:";
      "FACTS:";
      "- [Fact 1]";
      "- [Fact 2]";
      "...";
      "";
      "SOURCES:";
      "- [Source 1]";
      "- [Source 2]";
      "..." ].

Definition _get_research (self : t) (prompt : string) : logged value :=
  except_Exception
    (response <- lift (ollama_generate (model self) prompt) ;;
     lift (subscript response "response"))
    (fun e =>
       BaseAgent.error name
         ("Error getting research from Ollama: " ++ exn_str e) ;;
       raise e).

Inductive section_name : Type := facts_section | sources_section.

(** The loop state of [_process_research]. *)
Record research : Type :=
  { facts : list string;
    sources : list string;
    current_section : option section_name }.

(** One iteration of the loop over the lines of the response. *)
Definition research_step (st : research) (line : string) : research :=
  let line := strip line in
  if String.eqb line "" then st
  else if String.eqb line "FACTS:" then
    {| facts := facts st; sources := sources st;
       current_section := Some facts_section |}
  else if String.eqb line "SOURCES:" then
    {| facts := facts st; sources := sources st;
       current_section := Some sources_section |}
  else if startswith line "- " then
    match current_section st with
    | Some facts_section =>
        {| facts := (facts st ++ [slice_from 2 line])%list;
           sources := sources st;
           current_section := current_section st |}
    | Some sources_section =>
        {| facts := facts st;
           sources := (sources st ++ [slice_from 2 line])%list;
           current_section := current_section st |}
    | None => st
    end
  else st.

Definition _process_research (response : string)
  : list string * list string :=
  let st := fold_left research_step (split LF response)
              {| facts := []; sources := []; current_section := None |} in
  (facts st, sources st).

Definition process (self : t) (input_data : dict) : logged dict :=
  topic <- lift (getitem input_data "topic") ;;
  platform <- lift (getitem input_data "platform") ;;
  style <- lift (getitem input_data "style") ;;
  let prompt := _construct_research_prompt topic platform style in
  response <- _get_research self prompt ;;
  response <- lift (as_str response) ;;
  let '(facts, sources) := _process_research response in
  ret [ ("facts", PyList (map PyStr facts));
        ("sources", PyList (map PyStr sources));
        ("metadata", PyDict [ ("topic", topic);
                              ("platform", platform);
                              ("style", style);
                              ("model", model self) ]) ].

Definition agent (self : t) : BaseAgent.Agent :=
  {| BaseAgent.name := name;
     BaseAgent.process := process self;
     BaseAgent.validate_output := validate_output self |}.

End ResearchAgent.

(** ** The layout of a response, line by line

    The terms in which the result of [_process_research] is described:
    header lines open a section, and an item line belongs to the section
    opened by the last header before it. *)

(** The section a header line opens. *)
Definition header (line : string) : option section_name :=
  if String.eqb line "FACTS:" then Some facts_section
  else if String.eqb line "SOURCES:" then Some sources_section
  else None.

(** The sections opened by the header lines among [lines], in order. *)
Definition headers (lines : list string) : list section_name :=
  flat_map (fun line => match header line with
                        | Some s => [s]
                        | None => []
                        end) lines.

(** The section in force after [lines]: the one opened by the last
    header line among them, if any. *)
Definition section_after (lines : list string) : option section_name :=
  List.last (map Some (headers lines)) None.

Definition same_section (a : option section_name) (b : section_name)
  : bool :=
  match a, b with
  | Some facts_section, facts_section => true
  | Some sources_section, sources_section => true
  | _, _ => false
  end.

(** A line prefixed with "- ". *)
Definition is_item (line : string) : bool := startswith line "- ".

(** The item lines of [lines] that come after a header of [sec] with no
    other header in between, without their prefix, in order of
    appearance. *)
Definition items_of (sec : section_name) (lines : list string)
  : list string :=
  flat_map (fun i =>
              match nth_error lines i with
              | Some line =>
                  if is_item line
                     && same_section (section_after (firstn i lines)) sec
                  then [slice_from 2 line]
                  else []
              | None => []
              end)
           (seq 0 (List.length lines)).

End ResearchAgent.

(* ===================================================================== *)
(** * [script_agent.py]                                                   *)
(* ===================================================================== *)

Module ScriptAgent.
Section ScriptAgent.
Context `{Environment}.

Record t : Type :=
  { model : value; max_tokens : value; temperature : value }.

Definition name : string := "script_agent".

Definition __init__ `{Startup} (config : value) : outcome t :=
  BaseAgent.__init__ name ;;
  model <- subscript config "model" ;;
  max_tokens <- subscript config "max_tokens" ;;
  temperature <- subscript config "temperature" ;;
  ret {| model := model; max_tokens := max_tokens;
         temperature := temperature |}.

(** [len(script.split())] *)
Definition word_count (script : string) : nat :=
  List.length (split_whitespace script).

Definition validate_output (self : t) (output : dict) : logged bool :=
  let required_keys := ["script"; "hook"; "call_to_action"; "metadata"] in
  if negb (has_keys output required_keys) then
    BaseAgent.error name "Missing required keys in output" ;;
    ret false
  else
    empty <- orelse (script <- lift (getitem output "script") ;;
                     ret (negb (truthy script)))
               (orelse (hook <- lift (getitem output "hook") ;;
                        ret (negb (truthy hook)))
                       (cta <- lift (getitem output "call_to_action") ;;
                        ret (negb (truthy cta)))) ;;
    if empty : bool then
      BaseAgent.error name "Empty script components" ;;
      ret false
    else
      script <- lift (getitem output "script") ;;
      script <- lift (as_str script) ;;
      let words := word_count script in
      if ((words <? 50) || (300 <? words))%nat then
        BaseAgent.error name "Script length inappropriate" ;;
        ret false
      else
        ret true.

Definition _construct_script_prompt (facts platform style duration : value)
  : outcome string :=
  facts <- iter facts ;;
  let facts_text := join nl (map (fun fact => "- " ++ fmt fact) facts) in
  ret (template 8
    [ "Create an engaging script for a " ++ fmt platform
        ++ " video about these historical facts:";
      "";
      facts_text;
      "";
      "Requirements:";
      "- Target platform: " ++ fmt platform;
      "- Content style: " ++ fmt style;
      "- Duration: " ++ fmt duration ++ " seconds";
      "- Include a hook that grabs attention";
      "- Make the content engaging and educational";
      "- End with a call to action";
      "";
      "Format the response as:";
      "HOOK:";
      "[Attention-grabbing opening]";
      "";
      "MAIN CONTENT:";
      "[Engaging script that presents the facts]";
      "";
      "CALL TO ACTION:";
      "[Engaging closing statement]" ]).

Definition system_message : string :=
  "You are a creative scriptwriter specializing in educational content.".

Definition _get_script (self : t) (prompt : string) : logged value :=
  except_Exception
    (lift (openai_ChatCompletion_acreate (model self) system_message prompt
             (max_tokens self) (temperature self)))
    (fun e =>
       BaseAgent.error name
         ("Error getting script from OpenAI: " ++ exn_str e) ;;
       raise e).

(** The loop state of [_process_script]. *)
Record script : Type :=
  { script_parts : dict;
    current_section : option string;
    current_content : list string }.

(** [if current_section: script_parts[current_section] = ...] *)
Definition flush (st : script) : dict :=
  match current_section st with
  | Some key =>
      setitem (script_parts st) key (PyStr (join nl (current_content st)))
  | None => script_parts st
  end.

Definition open_section (st : script) (key : string) : script :=
  {| script_parts := flush st;
     current_section := Some key;
     current_content := [] |}.

(** One iteration of the loop over the lines of the response. *)
Definition script_step (st : script) (line : string) : script :=
  let line := strip line in
  if String.eqb line "" then st
  else if String.eqb line "HOOK:" then open_section st "hook"
  else if String.eqb line "MAIN CONTENT:" then open_section st "main_content"
  else if String.eqb line "CALL TO ACTION:" then
    open_section st "call_to_action"
  else
    {| script_parts := script_parts st;
       current_section := current_section st;
       current_content := (current_content st ++ [line])%list |}.

Definition _process_script (response : string) : dict :=
  let st := fold_left script_step (split LF response)
              {| script_parts := [ ("hook", PyStr "");
                                   ("main_content", PyStr "");
                                   ("call_to_action", PyStr "") ];
                 current_section := None;
                 current_content := [] |} in
  flush st.

Definition process (self : t) (input_data : dict) : logged dict :=
  facts <- lift (getitem input_data "facts") ;;
  platform <- lift (getitem input_data "platform") ;;
  style <- lift (getitem input_data "style") ;;
  duration <- lift (getitem input_data "duration") ;;
  prompt <- lift (_construct_script_prompt facts platform style duration) ;;
  response <- _get_script self prompt ;;
  response <- lift (as_str response) ;;
  let script_parts := _process_script response in
  main_content <- lift (getitem script_parts "main_content") ;;
  hook <- lift (getitem script_parts "hook") ;;
  call_to_action <- lift (getitem script_parts "call_to_action") ;;
  ret [ ("script", main_content);
        ("hook", hook);
        ("call_to_action", call_to_action);
        ("metadata", PyDict [ ("platform", platform);
                              ("style", style);
                              ("duration", duration);
                              ("model", model self) ]) ].

Definition agent (self : t) : BaseAgent.Agent :=
  {| BaseAgent.name := name;
     BaseAgent.process := process self;
     BaseAgent.validate_output := validate_output self |}.

End ScriptAgent.

(** A section marker line of a response. *)
Definition is_marker (line : string) : bool :=
  String.eqb (strip line) "HOOK:"
  || String.eqb (strip line) "MAIN CONTENT:"
  || String.eqb (strip line) "CALL TO ACTION:".

(** The response has no section marker line. *)
Definition no_markers (response : string) : bool :=
  forallb (fun line => negb (is_marker line)) (split LF response).

End ScriptAgent.

(* ===================================================================== *)
(** * [visual_agent.py]                                                   *)
(* ===================================================================== *)

Module VisualAgent.
Section VisualAgent.
Context `{Environment}.

Record t : Type :=
  { provider : value; style : value; image_quality : value }.

Definition name : string := "visual_agent".

Definition __init__ `{Startup} (config : value) : outcome t :=
  BaseAgent.__init__ name ;;
  provider <- subscript config "provider" ;;
  style <- subscript config "style" ;;
  image_quality <- subscript config "image_quality" ;;
  ret {| provider := provider; style := style;
         image_quality := image_quality |}.

(** The sentences of a script:
    [[s.strip() for s in script.split(".") if s.strip()]] *)
Definition sentences (script : string) : list string :=
  map strip
      (filter (fun s => negb (String.eqb (strip s) ""))
              (split "." script)).

Definition image_prompt (self : t) (style : value) (sentence : string)
  : string :=
  template 12
    [ "Create a " ++ fmt style ++ " image that illustrates: " ++ sentence;
      "Style: " ++ fmt (VisualAgent.style self);
      "Quality: " ++ fmt (image_quality self);
      "Make it visually appealing and historically accurate." ].

Definition _generate_image_prompts (self : t) (script : string)
           (style : value) : list string :=
  let sentences := sentences script in
  fold_left (fun prompts sentence =>
               (prompts ++ [image_prompt self style sentence])%list)
            sentences [].

(** [size_map.get(aspect_ratio, "1024x1024")]; a list or a dict is not
    hashable. *)
Definition _get_image_size (aspect_ratio : value) : outcome string :=
  match aspect_ratio with
  | PyList _ | PyDict _ => Raise (TypeError "unhashable type")
  | PyStr "1:1" => Return "1024x1024"
  | PyStr "16:9" => Return "1024x576"
  | PyStr "9:16" => Return "576x1024"
  | PyStr "4:3" => Return "1024x768"
  | PyStr "3:4" => Return "768x1024"
  | _ => Return "1024x1024"
  end.

Definition _generate_image (prompt : string) (platform aspect_ratio : value)
           (image_id : string) : logged string :=
  except_Exception
    (size <- lift (_get_image_size aspect_ratio) ;;
     let output_dir := "output/images" in
     let output_file :=
       output_dir ++ "/" ++ fmt platform ++ "_" ++ image_id ++ ".png" in
     lift (openai_Image_acreate_save prompt size output_file) ;;
     ret output_file)
    (fun e =>
       BaseAgent.error name ("Error generating image: " ++ exn_str e) ;;
       raise e).

Definition process (self : t) (input_data : dict) : logged dict :=
  script <- lift (getitem input_data "script") ;;
  platform <- lift (getitem input_data "platform") ;;
  style <- lift (getitem input_data "style") ;;
  aspect_ratio <- lift (getitem input_data "aspect_ratio") ;;
  script <- lift (as_str script) ;;
  let prompts := _generate_image_prompts self script style in
  image_paths <-
    for_each (fun ip : nat * string =>
                let (i, prompt) := ip in
                _generate_image prompt platform aspect_ratio
                                ("image_" ++ str_of_nat i))
             (combine (seq 0 (List.length prompts)) prompts) ;;
  ret [ ("image_paths", PyList (map PyStr image_paths));
        ("metadata", PyDict [ ("platform", platform);
                              ("style", style);
                              ("aspect_ratio", aspect_ratio);
                              ("provider", provider self) ]) ].

(** The loop of [validate_output] over the image paths. *)
Fixpoint check_images (image_paths : list value) : logged bool :=
  match image_paths with
  | [] => ret true
  | image_path :: rest =>
      found <- lift (os_path_exists image_path) ;;
      if negb found then
        BaseAgent.error name ("Image file not found: " ++ fmt image_path) ;;
        ret false
      else
        opened <- except_Exception (lift (Image_open image_path) ;; ret true)
                    (fun e =>
                       BaseAgent.error name
                         ("Invalid image file " ++ fmt image_path ++ ": "
                            ++ exn_str e) ;;
                       ret false) ;;
        if opened : bool then check_images rest else ret false
  end.

Definition validate_output (self : t) (output : dict) : logged bool :=
  let required_keys := ["image_paths"; "metadata"] in
  if negb (has_keys output required_keys) then
    BaseAgent.error name "Missing required keys in output" ;;
    ret false
  else
    image_paths <- lift (getitem output "image_paths") ;;
    if negb (truthy image_paths) then
      BaseAgent.error name "No images generated" ;;
      ret false
    else
      image_paths <- lift (iter image_paths) ;;
      check_images image_paths.

Definition agent (self : t) : BaseAgent.Agent :=
  {| BaseAgent.name := name;
     BaseAgent.process := process self;
     BaseAgent.validate_output := validate_output self |}.

End VisualAgent.

(** The non-empty period-delimited segments of a script, in order. *)
Definition nonempty_segments (script : string) : list string :=
  filter (fun s => negb (String.eqb s "")) (split "." script).

End VisualAgent.

(* ===================================================================== *)
(** * [editor_agent.py]                                                   *)
(* ===================================================================== *)

Module EditorAgent.
Section EditorAgent.
Context `{Environment}.

Record t : Type :=
  { video_quality : value; audio_quality : value; transition_style : value }.

Definition name : string := "editor_agent".

Definition __init__ `{Startup} (config : value) : outcome t :=
  BaseAgent.__init__ name ;;
  video_quality <- subscript config "video_quality" ;;
  audio_quality <- subscript config "audio_quality" ;;
  transition_style <- subscript config "transition_style" ;;
  ret {| video_quality := video_quality; audio_quality := audio_quality;
         transition_style := transition_style |}.

(** [ImageClip(image_path)] *)
Definition ImageClip (image_path : value) : outcome Clip :=
  ImageClip_read image_path ;;
  ret {| source := image_path; duration := None; effects := [] |}.

(** [clip.set_duration(d)] *)
Definition set_duration (d : value) (clip : Clip) : Clip :=
  {| source := source clip; duration := Some d; effects := effects clip |}.

(** [clip.crossfadein(d)], [clip.fadein(d)], [clip.fadeout(d)] *)
Definition with_effect (e : effect) (clip : Clip) : Clip :=
  {| source := source clip; duration := duration clip;
     effects := (effects clip ++ [e])%list |}.

Definition _create_video_clips (image_paths total_duration : value)
  : outcome (list Clip) :=
  n <- len image_paths ;;
  duration_per_clip <- truediv total_duration n ;;
  image_paths <- iter image_paths ;;
  for_each (fun image_path =>
              clip <- ImageClip image_path ;;
              ret (set_duration duration_per_clip clip))
           image_paths.

(** [clips[i] = f(clips[i])] for an index inside the list *)
Fixpoint update (i : nat) (f : Clip -> Clip) (clips : list Clip)
  : list Clip :=
  match clips, i with
  | [], _ => []
  | c :: cs, O => f c :: cs
  | c :: cs, S i' => c :: update i' f cs
  end.

Definition _add_transitions (self : t) (clips : list Clip) : list Clip :=
  if eq_str (transition_style self) "smooth" then
    fold_left (fun clips i =>
                 let clips := update i (with_effect (crossfadein 0.5)) clips in
                 update (i + 1) (with_effect (crossfadein 0.5)) clips)
              (seq 0 (List.length clips - 1)) clips
  else if eq_str (transition_style self) "fade" then
    fold_left (fun clips i =>
                 update i (fun c => with_effect (fadeout 0.5)
                                      (with_effect (fadein 0.5) c)) clips)
              (seq 0 (List.length clips)) clips
  else clips.

Definition process (self : t) (input_data : dict) : logged dict :=
  image_paths <- lift (getitem input_data "image_paths") ;;
  audio_path <- lift (getitem input_data "audio_path") ;;
  platform <- lift (getitem input_data "platform") ;;
  duration <- lift (getitem input_data "duration") ;;
  aspect_ratio <- lift (getitem input_data "aspect_ratio") ;;
  video_clips <- lift (_create_video_clips image_paths duration) ;;
  let video_clips := _add_transitions self video_clips in
  let output_dir := "output/videos" in
  let output_file := output_dir ++ "/" ++ fmt platform ++ "_final.mp4" in
  lift (write_videofile video_clips audio_path output_file) ;;
  ret [ ("video_path", PyStr output_file);
        ("metadata", PyDict [ ("platform", platform);
                              ("duration", duration);
                              ("aspect_ratio", aspect_ratio);
                              ("video_quality", video_quality self);
                              ("audio_quality", audio_quality self);
                              ("transition_style", transition_style self) ]) ].

Definition validate_output (self : t) (output : dict) : logged bool :=
  let required_keys := ["video_path"; "metadata"] in
  if negb (has_keys output required_keys) then
    BaseAgent.error name "Missing required keys in output" ;;
    ret false
  else
    video_path <- lift (getitem output "video_path") ;;
    found <- lift (os_path_exists video_path) ;;
    if negb found then
      BaseAgent.error name "Video file not created" ;;
      ret false
    else
      playable <-
        except_Exception (d <- lift (VideoFileClip_duration video_path) ;;
               nonpositive <- lift (le_zero d) ;;
               if nonpositive : bool then
                 BaseAgent.error name "Invalid video duration" ;;
                 ret false
               else
                 lift (VideoFileClip_close video_path) ;;
                 ret true)
              (fun e =>
                 BaseAgent.error name ("Invalid video file: " ++ exn_str e) ;;
                 ret false) ;;
      ret playable.

Definition agent (self : t) : BaseAgent.Agent :=
  {| BaseAgent.name := name;
     BaseAgent.process := process self;
     BaseAgent.validate_output := validate_output self |}.

End EditorAgent.
End EditorAgent.

(* ===================================================================== *)
(** * [voice_agent.py]                                                    *)
(* ===================================================================== *)

Module VoiceAgent.

#[local] Set Warnings "-abstract-large-number".

(** The speech service and the files of the voice agent.  A failure of
    the service or of the file system is an exception derived from
    [Exception]. *)
Class Speech : Type :=
  { (** [texttospeech.TextToSpeechClient()] *)
    TextToSpeechClient : outcome unit;
    (** [client.synthesize_speech(...)] followed by [.audio_content]: the
        SSML, the voice name and the speaking rate give the audio bytes *)
    synthesize_speech : string -> value -> value -> outcome string;
    (** [hash(script)] of a string *)
    hash : string -> Z;
    (** [os.makedirs], [open(output_file, "wb")] and [out.write(...)] *)
    write_audio : string -> string -> outcome unit;
    synthesize_speech_fails : forall ssml voice rate,
      fails_with_Exception (synthesize_speech ssml voice rate);
    write_audio_fails : forall file audio,
      fails_with_Exception (write_audio file audio) }.

Section VoiceAgent.
Context `{Environment} `{Speech}.

Record t : Type :=
  { provider : value; voice_id : value; speaking_rate : value }.

Definition name : string := "voice_agent".

Definition __init__ `{Startup} (config : value) : outcome t :=
  BaseAgent.__init__ name ;;
  provider <- subscript config "provider" ;;
  voice_id <- subscript config "voice_id" ;;
  speaking_rate <- subscript config "speaking_rate" ;;
  TextToSpeechClient ;;
  ret {| provider := provider; voice_id := voice_id;
         speaking_rate := speaking_rate |}.

(** [f"<emphasis level='moderate'>{word}</emphasis>"] *)
Definition emphasis (word : string) : string :=
  "<emphasis level='moderate'>" ++ word ++ "</emphasis>".

(** [words[0] = f(words[0])] *)
Definition set_first (f : string -> string) (words : list string)
  : list string :=
  match words with
  | [] => []
  | w :: ws => f w :: ws
  end.

(** [words[-1] = f(words[-1])] *)
Fixpoint set_last (f : string -> string) (words : list string)
  : list string :=
  match words with
  | [] => []
  | [w] => [f w]
  | w :: ws => w :: set_last f ws
  end.

(** The SSML of one sentence. *)
Definition ssml_part (sentence : string) : string :=
  let words := split_whitespace sentence in
  let words :=
    if (5 <? List.length words)%nat
    then set_last emphasis (set_first emphasis words)
    else words in
  join " " words.

Definition _generate_ssml (script : string) (style : value) : string :=
  let sentences :=
    map strip
        (filter (fun s => negb (String.eqb (strip s) "")) (split "." script)) in
  let ssml_parts :=
    fold_left (fun ssml_parts sentence =>
                 (ssml_parts ++ [ssml_part sentence])%list)
              sentences [] in
  template 8
    [ "<speak>";
      "    " ++ join "<break time='500ms'/>" ssml_parts;
      "</speak>" ].

Definition process (self : t) (input_data : dict) : logged dict :=
  script <- lift (getitem input_data "script") ;;
  platform <- lift (getitem input_data "platform") ;;
  style <- lift (getitem input_data "style") ;;
  text <- lift (as_str script) ;;
  let ssml := _generate_ssml text style in
  audio_content <-
    lift (synthesize_speech ssml (voice_id self) (speaking_rate self)) ;;
  let output_dir := "output/audio" in
  let output_file :=
    output_dir ++ "/voiceover_" ++ fmt platform ++ "_"
      ++ fmt (PyInt (hash text)) ++ ".mp3" in
  lift (write_audio output_file audio_content) ;;
  duration <-
    lift (truediv (PyInt (Z.of_nat (String.length audio_content))) 16000) ;;
  ret [ ("audio_path", PyStr output_file);
        ("duration", duration);
        ("metadata", PyDict [ ("platform", platform);
                              ("style", style);
                              ("voice_id", voice_id self);
                              ("speaking_rate", speaking_rate self) ]) ].

Definition validate_output (self : t) (output : dict) : logged bool :=
  let required_keys := ["audio_path"; "duration"; "metadata"] in
  if negb (has_keys output required_keys) then
    BaseAgent.error name "Missing required keys in output" ;;
    ret false
  else
    audio_path <- lift (getitem output "audio_path") ;;
    found <- lift (os_path_exists audio_path) ;;
    if negb found then
      BaseAgent.error name "Audio file not created" ;;
      ret false
    else
      duration <- lift (getitem output "duration") ;;
      nonpositive <- lift (le_zero duration) ;;
      if nonpositive : bool then
        BaseAgent.error name "Invalid audio duration" ;;
        ret false
      else
        ret true.

Definition agent (self : t) : BaseAgent.Agent :=
  {| BaseAgent.name := name;
     BaseAgent.process := process self;
     BaseAgent.validate_output := validate_output self |}.

End VoiceAgent.
End VoiceAgent.

(* ===================================================================== *)
(** * [main.py]                                                           *)
(* ===================================================================== *)

Module ContentGenerator.

(** The keys of [self.agents], in pipeline order. *)
Inductive stage : Type := research | script | voice | visual | editor.

Definition position (s : stage) : nat :=
  match s with
  | research => 1 | script => 2 | voice => 3 | visual => 4 | editor => 5
  end.

(** What a run of the orchestrator does that its caller can observe:
    an awaited [self.agents[s].run(input)], with the log the agent wrote
    and what the call gave back, and a line printed. *)
Inductive event : Type :=
| Called (s : stage) (input : dict) (log : list log_record)
         (back : outcome value)
| Printed (line : string).

Definition traced (A : Type) : Type := writer event A.

Section ContentGenerator.
Context `{Environment}.

Record t : Type :=
  { config : value; agents : stage -> BaseAgent.Agent }.

(** [await self.agents[s].run(input)] *)
Definition call (self : t) (s : stage) (input : dict) : traced value :=
  let (log, back) := BaseAgent.run (agents self s) input in
  ([Called s input log back], back).

Definition print (line : string) : traced unit := tell (Printed line).

Definition generate_content (self : t) (topic platform : string)
  : traced value :=
  except_Exception
    (platforms <- lift (subscript (config self) "platforms") ;;
     platform_config <- lift (subscript platforms platform) ;;
     (* Step 1: Research *)
     style <- lift (subscript platform_config "style") ;;
     let research_input := [ ("topic", PyStr topic);
                             ("platform", PyStr platform);
                             ("style", style) ] in
     research_output <- call self research research_input ;;
     if negb (truthy research_output) then
       raise (Exception "Research phase failed")
     else
     (* Step 2: Script Generation *)
     facts <- lift (subscript research_output "facts") ;;
     style <- lift (subscript platform_config "style") ;;
     max_duration <- lift (subscript platform_config "max_duration") ;;
     let script_input := [ ("facts", facts);
                           ("platform", PyStr platform);
                           ("style", style);
                           ("duration", max_duration) ] in
     script_output <- call self script script_input ;;
     if negb (truthy script_output) then
       raise (Exception "Script generation failed")
     else
     (* Step 3: Voice-over Generation *)
     script_text <- lift (subscript script_output "script") ;;
     style <- lift (subscript platform_config "style") ;;
     let voice_input := [ ("script", script_text);
                          ("platform", PyStr platform);
                          ("style", style) ] in
     voice_output <- call self voice voice_input ;;
     if negb (truthy voice_output) then
       raise (Exception "Voice-over generation failed")
     else
     (* Step 4: Visual Asset Generation *)
     script_text <- lift (subscript script_output "script") ;;
     style <- lift (subscript platform_config "style") ;;
     aspect_ratio <- lift (subscript platform_config "aspect_ratio") ;;
     let visual_input := [ ("script", script_text);
                           ("platform", PyStr platform);
                           ("style", style);
                           ("aspect_ratio", aspect_ratio) ] in
     visual_output <- call self visual visual_input ;;
     if negb (truthy visual_output) then
       raise (Exception "Visual asset generation failed")
     else
     (* Step 5: Video Editing *)
     image_paths <- lift (subscript visual_output "image_paths") ;;
     audio_path <- lift (subscript voice_output "audio_path") ;;
     max_duration <- lift (subscript platform_config "max_duration") ;;
     aspect_ratio <- lift (subscript platform_config "aspect_ratio") ;;
     let editor_input := [ ("image_paths", image_paths);
                           ("audio_path", audio_path);
                           ("platform", PyStr platform);
                           ("duration", max_duration);
                           ("aspect_ratio", aspect_ratio) ] in
     editor_output <- call self editor editor_input ;;
     if negb (truthy editor_output) then
       raise (Exception "Video editing failed")
     else
     video_path <- lift (subscript editor_output "video_path") ;;
     research_metadata <- lift (subscript research_output "metadata") ;;
     script_metadata <- lift (subscript script_output "metadata") ;;
     voice_metadata <- lift (subscript voice_output "metadata") ;;
     visual_metadata <- lift (subscript visual_output "metadata") ;;
     editor_metadata <- lift (subscript editor_output "metadata") ;;
     ret (PyDict
            [ ("video_path", video_path);
              ("metadata", PyDict [ ("topic", PyStr topic);
                                    ("platform", PyStr platform);
                                    ("research", research_metadata);
                                    ("script", script_metadata);
                                    ("voice", voice_metadata);
                                    ("visual", visual_metadata);
                                    ("editor", editor_metadata) ]) ]))
    (fun e =>
       print ("Error generating content: " ++ exn_str e) ;;
       ret PyNone).

Definition _load_config `{Startup} (config_path : string) : outcome value :=
  load_config config_path.

(** The dictionary of the five agents, built in the order of its
    entries. *)
Definition _initialize_agents `{Startup} `{VoiceAgent.Speech}
           (config : value) : outcome (stage -> BaseAgent.Agent) :=
  agents_config <- subscript config "agents" ;;
  research_config <- subscript agents_config "research" ;;
  research_agent <- ResearchAgent.__init__ research_config ;;
  agents_config <- subscript config "agents" ;;
  script_config <- subscript agents_config "script" ;;
  script_agent <- ScriptAgent.__init__ script_config ;;
  agents_config <- subscript config "agents" ;;
  voice_config <- subscript agents_config "voice" ;;
  voice_agent <- VoiceAgent.__init__ voice_config ;;
  agents_config <- subscript config "agents" ;;
  visual_config <- subscript agents_config "visual" ;;
  visual_agent <- VisualAgent.__init__ visual_config ;;
  agents_config <- subscript config "agents" ;;
  editor_config <- subscript agents_config "editor" ;;
  editor_agent <- EditorAgent.__init__ editor_config ;;
  ret (fun s : stage =>
         match s with
         | research => ResearchAgent.agent research_agent
         | script => ScriptAgent.agent script_agent
         | voice => VoiceAgent.agent voice_agent
         | visual => VisualAgent.agent visual_agent
         | editor => EditorAgent.agent editor_agent
         end).

(** [ContentGenerator(config_path)] *)
Definition __init__ `{Startup} `{VoiceAgent.Speech} (config_path : string)
  : outcome t :=
  config <- _load_config config_path ;;
  agents <- _initialize_agents config ;;
  ret {| config := config; agents := agents |}.

End ContentGenerator.
End ContentGenerator.

(* ===================================================================== *)
(** * [main.py]: the entry point                                          *)
(* ===================================================================== *)

Module Main.
Section Main.
Context `{Environment}.
Import ContentGenerator.

Definition platforms : list string :=
  ["tiktok"; "youtube_shorts"; "instagram"; "facebook"].

Definition topic : string := "Ancient Egyptian Pyramids".

(** The body of the loop of [main]. *)
Definition attempt (generator : t) (platform : string) : traced unit :=
  print (nl ++ "Generating content for " ++ platform ++ "...") ;;
  result <- generate_content generator topic platform ;;
  if truthy result then
    print ("Successfully generated content for " ++ platform) ;;
    video_path <- lift (subscript result "video_path") ;;
    print ("Video saved at: " ++ fmt video_path)
  else
    print ("Failed to generate content for " ++ platform).

Definition config_path : string := "src/config/content_config.yaml".

Definition main `{Startup} `{VoiceAgent.Speech} : traced unit :=
  generator <- lift (ContentGenerator.__init__ config_path) ;;
  for_each (attempt generator) platforms ;;
  ret tt.

End Main.
End Main.

(* ===================================================================== *)
(** * Sample data                                                         *)
(* ===================================================================== *)

Module Sample.

(** A world in which every service answers and every file exists. *)
Definition env : Environment :=
  {| repr := fun _ => "<object>";
     ollama_generate := fun _ _ =>
       Return (PyDict [("response",
                        PyStr ("FACTS:" ++ nl ++ "- a" ++ nl ++ "SOURCES:"
                                 ++ nl ++ "- s"))]);
     openai_ChatCompletion_acreate := fun _ _ _ _ _ =>
       Return (PyStr "no section markers here");
     openai_Image_acreate_save := fun _ _ _ => Return tt;
     os_path_exists := fun _ => Return true;
     Image_open := fun _ => Return tt;
     ImageClip_read := fun _ => Return tt;
     VideoFileClip_duration := fun _ => Return (PyFloat 60);
     VideoFileClip_close := fun _ => Return tt;
     write_videofile := fun _ _ _ => Return tt;
     ollama_generate_fails := fun _ _ => Return_fails _;
     openai_ChatCompletion_acreate_fails := fun _ _ _ _ _ => Return_fails _;
     openai_Image_acreate_save_fails := fun _ _ _ => Return_fails _;
     os_path_exists_fails := fun _ => Return_fails _;
     Image_open_fails := fun _ => Return_fails _;
     ImageClip_read_fails := fun _ => Return_fails _;
     VideoFileClip_duration_fails := fun _ => Return_fails _;
     VideoFileClip_close_fails := fun _ => Return_fails _;
     write_videofile_fails := fun _ _ _ => Return_fails _ |}.

(** A mocked agent: [process] gives [outcome], [validate_output] gives
    [valid]. *)
Definition mock (name : string) (outcome : outcome dict)
           (valid : Py.outcome bool) : BaseAgent.Agent :=
  {| BaseAgent.name := name;
     BaseAgent.process := fun _ => lift outcome;
     BaseAgent.validate_output := fun _ => lift valid |}.

(** [n] words separated by single spaces. *)
Definition words (n : nat) : string := join " " (repeat "word" n).

(** The configuration of one platform. *)
Definition config : value :=
  PyDict [("platforms",
           PyDict [("youtube_shorts",
                    PyDict [ ("style", PyStr "educational, engaging");
                             ("max_duration", PyInt 60);
                             ("aspect_ratio", PyStr "9:16") ])])].

(** The canned output of each mocked stage. *)
Definition canned (s : ContentGenerator.stage) : dict :=
  match s with
  | ContentGenerator.research =>
      [ ("facts", PyList [PyStr "Fact 1"]);
        ("sources", PyList [PyStr "Source 1"]);
        ("metadata", PyDict [("model", PyStr "llama2")]) ]
  | ContentGenerator.script =>
      [ ("script", PyStr "The pyramids are old.");
        ("hook", PyStr "Did you know?");
        ("call_to_action", PyStr "Follow for more");
        ("metadata", PyDict [("model", PyStr "gpt-4")]) ]
  | ContentGenerator.voice =>
      [ ("audio_path", PyStr "output/audio/voiceover.mp3");
        ("duration", PyFloat 12);
        ("metadata", PyDict [("voice_id", PyStr "en-US-Neural2-F")]) ]
  | ContentGenerator.visual =>
      [ ("image_paths", PyList [PyStr "output/images/image_0.png"]);
        ("metadata", PyDict [("provider", PyStr "dall-e-3")]) ]
  | ContentGenerator.editor =>
      [ ("video_path", PyStr "output/videos/youtube_shorts_final.mp4");
        ("metadata", PyDict [("video_quality", PyStr "high")]) ]
  end.

(** A generator whose five agents are mocked and succeed. *)
Definition generator : ContentGenerator.t :=
  {| ContentGenerator.config := config;
     ContentGenerator.agents := fun s =>
       mock "mock" (Return (canned s)) (Return true) |}.

(** The same generator with a research agent whose provider is down. *)
Definition generator_without_research : ContentGenerator.t :=
  {| ContentGenerator.config := config;
     ContentGenerator.agents := fun s =>
       match s with
       | ContentGenerator.research =>
           mock "mock" (Raise (OSError "connection refused")) (Return true)
       | _ => mock "mock" (Return (canned s)) (Return true)
       end |}.

(** A generator whose visual stage is a [VisualAgent]. *)
Definition generator_with_visual_agent : ContentGenerator.t :=
  {| ContentGenerator.config := config;
     ContentGenerator.agents := fun s =>
       match s with
       | ContentGenerator.visual =>
           @VisualAgent.agent env
             {| VisualAgent.provider := PyStr "dall-e-3";
                VisualAgent.style := PyStr "realistic";
                VisualAgent.image_quality := PyStr "high" |}
       | _ => mock "mock" (Return (canned s)) (Return true)
       end |}.

End Sample.

(* ===================================================================== *)
(** * Theorems                                                            *)
(* ===================================================================== *)

(** ** The writer monad *)

Section WriterFacts.
Variables W A B : Type.

Lemma result_bind (m : writer W A) (k : A -> writer W B) :
  result (bind m k) =
  match result m with
  | Return a => result (k a)
  | Raise e => Raise e
  end.
Proof.
  destruct m as [w [a|e]]; simpl; [destruct (k a) |]; reflexivity.
Qed.

Lemma result_except (m : writer W A) (h : exn -> writer W A) :
  result (except_Exception m h) =
  match result m with
  | Return a => Return a
  | Raise e => if is_Exception e then result (h e) else Raise e
  end.
Proof.
  destruct m as [w [a|e]]; simpl; [reflexivity |].
  destruct (is_Exception e); [destruct (h e) |]; reflexivity.
Qed.

Lemma trace_bind (m : writer W A) (k : A -> writer W B) :
  trace (bind m k) =
  match result m with
  | Return a => (trace m ++ trace (k a))%list
  | Raise e => trace m
  end.
Proof.
  destruct m as [w [a|e]]; simpl; [destruct (k a) |]; reflexivity.
Qed.

Lemma trace_except (m : writer W A) (h : exn -> writer W A) :
  trace (except_Exception m h) =
  match result m with
  | Return a => trace m
  | Raise e =>
      if is_Exception e then (trace m ++ trace (h e))%list else trace m
  end.
Proof.
  destruct m as [w [a|e]]; simpl; [reflexivity |].
  destruct (is_Exception e); [destruct (h e) |]; reflexivity.
Qed.

End WriterFacts.

(** ** Failures that a handler [except Exception] catches *)

Section Failures.
Variables W A B : Type.

Lemma bind_fails (m : outcome A) (k : A -> outcome B) :
  fails_with_Exception m ->
  (forall a, fails_with_Exception (k a)) ->
  fails_with_Exception (bind m k).
Proof.
  intros Hm Hk. destruct m as [a|e]; simpl; [apply Hk |].
  intros e' He. injection He as <-. apply Hm. reflexivity.
Qed.

Lemma lift_fails (o : outcome A) :
  fails_with_Exception o -> fails_with_Exception (result (@lift W A o)).
Proof. auto. Qed.

Lemma ret_fails (a : A) : fails_with_Exception (result (ret a : writer W A)).
Proof. intros e He. discriminate He. Qed.

Lemma tell_fails (w : W) : fails_with_Exception (result (tell w)).
Proof. intros e He. discriminate He. Qed.

Lemma raise_fails (e : exn) :
  is_Exception e = true ->
  fails_with_Exception (result (raise e : writer W A)).
Proof. intros He e' Heq. injection Heq as <-. exact He. Qed.

Lemma writer_bind_fails (m : writer W A) (k : A -> writer W B) :
  fails_with_Exception (result m) ->
  (forall a, fails_with_Exception (result (k a))) ->
  fails_with_Exception (result (bind m k)).
Proof.
  intros Hm Hk. rewrite result_bind.
  destruct (result m) as [a|e]; [apply Hk |].
  intros e' He. injection He as <-. apply Hm. reflexivity.
Qed.

Lemma except_fails (m : writer W A) (h : exn -> writer W A) :
  fails_with_Exception (result m) ->
  (forall e, is_Exception e = true -> fails_with_Exception (result (h e))) ->
  fails_with_Exception (result (except_Exception m h)).
Proof.
  intros Hm Hh. rewrite result_except.
  destruct (result m) as [a|e]; [intros e He; discriminate He |].
  rewrite (Hm e eq_refl). apply Hh, Hm. reflexivity.
Qed.

End Failures.

Section LoopFailures.
Variables W A B : Type.

Lemma for_each_fails (f : A -> outcome B) (l : list A) :
  (forall a, fails_with_Exception (f a)) ->
  fails_with_Exception (for_each f l).
Proof.
  intros Hf. induction l as [|a l IH]; cbn [for_each].
  - intros e He. discriminate He.
  - apply bind_fails; [apply Hf |]. intros b.
    apply bind_fails; [exact IH |]. intros bs e He. discriminate He.
Qed.

Lemma writer_for_each_fails (f : A -> writer W B) (l : list A) :
  (forall a, fails_with_Exception (result (f a))) ->
  fails_with_Exception (result (for_each f l)).
Proof.
  intros Hf. induction l as [|a l IH]; cbn [for_each].
  - apply ret_fails.
  - apply writer_bind_fails; [apply Hf |]. intros b.
    apply writer_bind_fails; [exact IH |]. intros bs e He. discriminate He.
Qed.

End LoopFailures.

Section BuiltinFailures.

Lemma getitem_fails (d : dict) (k : string) :
  fails_with_Exception (getitem d k).
Proof.
  unfold getitem. intros e. destruct (lookup k d); intros He;
    [discriminate He | injection He as <-; reflexivity].
Qed.

Lemma subscript_fails (v : value) (k : string) :
  fails_with_Exception (subscript v k).
Proof.
  destruct v; try apply getitem_fails;
    intros e He; injection He as <-; reflexivity.
Qed.

Lemma as_str_fails (v : value) : fails_with_Exception (as_str v).
Proof.
  destruct v; intros e He; try discriminate He; injection He as <-;
    reflexivity.
Qed.

Lemma len_fails (v : value) : fails_with_Exception (len v).
Proof.
  destruct v; intros e He; try discriminate He; injection He as <-;
    reflexivity.
Qed.

Lemma iter_fails (v : value) : fails_with_Exception (iter v).
Proof.
  destruct v; intros e He; try discriminate He; injection He as <-;
    reflexivity.
Qed.

Lemma le_zero_fails (v : value) : fails_with_Exception (le_zero v).
Proof.
  destruct v; intros e He; try discriminate He; injection He as <-;
    reflexivity.
Qed.

Lemma int_truediv_fails (z : Z) (n : nat) :
  fails_with_Exception (int_truediv z n).
Proof.
  unfold int_truediv. intros e.
  destruct (SFdiv _ _ _ _); intros He; try discriminate He;
    injection He as <-; reflexivity.
Qed.

Lemma truediv_fails (x : value) (n : nat) :
  fails_with_Exception (truediv x n).
Proof.
  unfold truediv.
  destruct x; try destruct (Nat.eqb n 0); try apply int_truediv_fails;
    intros e He; try discriminate He; injection He as <-; reflexivity.
Qed.

(** A subscription fails with an exception that [except Exception]
    catches. *)
Lemma subscript_caught (v : value) (k : string) (e : exn) :
  subscript v k = Raise e -> is_Exception e = true.
Proof. apply subscript_fails. Qed.

End BuiltinFailures.

(** Breaks a computation down to the calls that can fail: built-ins,
    and services of the environment. *)
Ltac failure :=
  first
    [ assumption
    | apply ret_fails
    | apply tell_fails
    | apply Return_fails
    | apply getitem_fails
    | apply subscript_fails
    | apply as_str_fails
    | apply len_fails
    | apply iter_fails
    | apply le_zero_fails
    | apply truediv_fails
    | apply ollama_generate_fails
    | apply openai_ChatCompletion_acreate_fails
    | apply openai_Image_acreate_save_fails
    | apply os_path_exists_fails
    | apply Image_open_fails
    | apply ImageClip_read_fails
    | apply VideoFileClip_duration_fails
    | apply VideoFileClip_close_fails
    | apply write_videofile_fails
    | apply VoiceAgent.synthesize_speech_fails
    | apply VoiceAgent.write_audio_fails
    | apply raise_fails; assumption
    | apply Raise_fails; assumption
    | apply lift_fails
    | apply writer_bind_fails; [| intros ?]
    | apply bind_fails; [| intros ?]
    | apply except_fails; [| intros ? ?]
    | apply writer_for_each_fails; intros ?
    | apply for_each_fails; intros ?
    | match goal with
      | |- fails_with_Exception (result (if ?b then _ else _)) =>
          destruct b
      | |- fails_with_Exception (if ?b then _ else _) => destruct b
      | |- fails_with_Exception (result (let (_, _) := ?p in _)) =>
          destruct p
      end ].

Ltac failures := repeat failure.

(** ** [BaseAgent.run] *)

Section RunFacts.
Context `{Environment}.
Import BaseAgent.

Lemma run_result (self : Agent) (input_data : dict) :
  result (run self input_data) =
  match result (process self input_data) with
  | Raise e => if is_Exception e then Return PyNone else Raise e
  | Return output =>
      match result (validate_output self output) with
      | Return true => Return (PyDict output)
      | Return false => Return PyNone
      | Raise e => if is_Exception e then Return PyNone else Raise e
      end
  end.
Proof.
  unfold run.
  destruct (process self input_data) as [w [output|e]]; simpl;
    [| destruct (is_Exception e); reflexivity].
  destruct (validate_output self output) as [w' [[|]|e]]; simpl;
    try reflexivity.
  destruct (is_Exception e); reflexivity.
Qed.

(** [run] of an agent whose methods fail with exceptions derived from
    [Exception] only. *)
Lemma run_caught (self : Agent) (input_data : dict) :
  fails_with_Exception (result (process self input_data)) ->
  (forall output,
      fails_with_Exception (result (validate_output self output))) ->
  result (run self input_data) =
  match result (process self input_data) with
  | Raise _ => Return PyNone
  | Return output =>
      match result (validate_output self output) with
      | Return true => Return (PyDict output)
      | Return false | Raise _ => Return PyNone
      end
  end.
Proof.
  intros Hp Hv. rewrite run_result.
  destruct (result (process self input_data)) as [output|e];
    [| rewrite (Hp e eq_refl); reflexivity].
  specialize (Hv output).
  destruct (result (validate_output self output)) as [[|]|e]; try reflexivity.
  rewrite (Hv e eq_refl). reflexivity.
Qed.

Lemma run_trace_process (self : Agent) (input_data : dict) :
  exists rest,
    trace (run self input_data) =
    ({| logger := "agent." ++ name self; levelname := INFO;
        message := "Starting processing with input: "
                     ++ fmt (PyDict input_data) |}
       :: trace (process self input_data) ++ rest)%list.
Proof.
  unfold run.
  destruct (process self input_data) as [w [output|e]]; simpl.
  - destruct (validate_output self output) as [w' [[|]|e]]; simpl;
      try (eexists; rewrite <- ?app_assoc; reflexivity).
    destruct (is_Exception e); simpl; eexists;
      rewrite <- ?app_assoc; reflexivity.
  - destruct (is_Exception e); simpl;
      [eexists; reflexivity | exists []; rewrite app_nil_r; reflexivity].
Qed.

(** What [run] raises is not derived from [Exception]. *)
Lemma run_raises (self : Agent) (input_data : dict) (e : exn) :
  result (run self input_data) = Raise e -> is_Exception e = false.
Proof.
  rewrite run_result.
  destruct (result (process self input_data)) as [output|e'].
  - destruct (result (validate_output self output)) as [[|]|e'];
      try discriminate.
    destruct (is_Exception e') eqn:He'; [discriminate |].
    intros Heq. injection Heq as <-. exact He'.
  - destruct (is_Exception e') eqn:He'; [discriminate |].
    intros Heq. injection Heq as <-. exact He'.
Qed.

(** [run] of an agent whose methods fail with exceptions derived from
    [Exception] only never raises. *)
Lemma run_never_raises (self : Agent) (input_data : dict) (e : exn) :
  fails_with_Exception (result (process self input_data)) ->
  (forall output,
      fails_with_Exception (result (validate_output self output))) ->
  result (run self input_data) <> Raise e.
Proof.
  intros Hp Hv. rewrite (@run_caught self input_data Hp Hv).
  destruct (result (process self input_data)) as [output|]; [| discriminate].
  destruct (result (validate_output self output)) as [[|]|]; discriminate.
Qed.

(** C1 (as amended).  For every agent and every input, [run] calls
    [process]: its log is the start record followed by the log of
    [process].  When [process], or [validate_output] after it, raises an
    exception derived from [Exception], [run] returns [None]; an
    exception of another class, such as [KeyboardInterrupt],
    [SystemExit] or [asyncio.CancelledError], is not caught: [run]
    raises it.  When [process] returns an output that [validate_output]
    answers [False] for, [run] returns [None]; when [validate_output]
    answers [True], [run] returns exactly that output.  No exception
    derived from [Exception] leaves [run]. *)
Theorem run_contract (self : Agent) (input_data : dict) :
  (exists rest,
      trace (run self input_data) =
      ({| logger := "agent." ++ name self; levelname := INFO;
          message := "Starting processing with input: "
                       ++ fmt (PyDict input_data) |}
         :: trace (process self input_data) ++ rest)%list)
  /\ (forall e, result (process self input_data) = Raise e ->
                is_Exception e = true ->
                result (run self input_data) = Return PyNone)
  /\ (forall e, result (process self input_data) = Raise e ->
                is_Exception e = false ->
                result (run self input_data) = Raise e)
  /\ (forall output,
         result (process self input_data) = Return output ->
         result (validate_output self output) = Return false ->
         result (run self input_data) = Return PyNone)
  /\ (forall output,
         result (process self input_data) = Return output ->
         result (validate_output self output) = Return true ->
         result (run self input_data) = Return (PyDict output))
  /\ (forall output e,
         result (process self input_data) = Return output ->
         result (validate_output self output) = Raise e ->
         result (run self input_data) =
         if is_Exception e then Return PyNone else Raise e)
  /\ (forall e, result (run self input_data) = Raise e ->
                is_Exception e = false).
Proof.
  split; [apply run_trace_process |].
  repeat split.
  - intros e He Hc. rewrite run_result, He, Hc. reflexivity.
  - intros e He Hc. rewrite run_result, He, Hc. reflexivity.
  - intros output Hp Hv. rewrite run_result, Hp, Hv. reflexivity.
  - intros output Hp Hv. rewrite run_result, Hp, Hv. reflexivity.
  - intros output e Hp Hv. rewrite run_result, Hp, Hv. reflexivity.
  - apply run_raises.
Qed.

End RunFacts.

Lemma run_contract_witness :
  let failing := Sample.mock "a" (Raise (OSError "down")) (Return true) in
  let interrupted :=
    Sample.mock "a" (Raise (KeyboardInterrupt "")) (Return true) in
  let invalid := Sample.mock "b" (Return [("k", PyNone)]) (Return false) in
  let valid := Sample.mock "c" (Return [("k", PyNone)]) (Return true) in
  result (@BaseAgent.run Sample.env failing []) = Return PyNone
  /\ result (@BaseAgent.run Sample.env interrupted [])
     = Raise (KeyboardInterrupt "")
  /\ result (@BaseAgent.run Sample.env invalid []) = Return PyNone
  /\ result (@BaseAgent.run Sample.env valid [])
     = Return (PyDict [("k", PyNone)]).
Proof.
  intros failing interrupted invalid valid.
  split; [| split; [| split]].
  - apply (proj1 (proj2 (@run_contract Sample.env failing []))
             (OSError "down")); reflexivity.
  - apply (proj1 (proj2 (proj2 (@run_contract Sample.env interrupted [])))
             (KeyboardInterrupt "")); reflexivity.
  - apply (proj1 (proj2 (proj2 (proj2 (@run_contract Sample.env invalid []))))
             [("k", PyNone)]); reflexivity.
  - apply (proj1 (proj2 (proj2 (proj2 (proj2
                    (@run_contract Sample.env valid [])))))
             [("k", PyNone)]); reflexivity.
Defined.

(** C1 (as stated) fails: a [process] interrupted by a
    [KeyboardInterrupt] raises an exception, yet [run] does not return
    [None]; it lets the exception out to its caller. *)
Lemma run_lets_interrupt_through :
  let interrupted :=
    Sample.mock "a" (Raise (KeyboardInterrupt "")) (Return true) in
  result (BaseAgent.process interrupted []) = Raise (KeyboardInterrupt "")
  /\ result (@BaseAgent.run Sample.env interrupted [])
     = Raise (KeyboardInterrupt "")
  /\ result (@BaseAgent.run Sample.env interrupted []) <> Return PyNone.
Proof.
  intros interrupted. repeat split. discriminate.
Qed.

(** ** The failures of the five agents

    Whatever the [process] or the [validate_output] of an agent raises
    is derived from [Exception]: [run] catches it. *)

Section AgentFailures.
Context `{Environment} `{VoiceAgent.Speech}.

Lemma research_process_fails (self : ResearchAgent.t) (input_data : dict) :
  fails_with_Exception (result (ResearchAgent.process self input_data)).
Proof.
  unfold ResearchAgent.process, ResearchAgent._get_research,
    BaseAgent.error.
  failures.
Qed.

Lemma research_validate_fails (self : ResearchAgent.t) (output : dict) :
  fails_with_Exception (result (ResearchAgent.validate_output self output)).
Proof.
  unfold ResearchAgent.validate_output, orelse, BaseAgent.error.
  failures.
Qed.

Lemma construct_script_prompt_fails (facts platform style duration : value) :
  fails_with_Exception
    (ScriptAgent._construct_script_prompt facts platform style duration).
Proof.
  unfold ScriptAgent._construct_script_prompt. failures.
Qed.

Lemma script_process_fails (self : ScriptAgent.t) (input_data : dict) :
  fails_with_Exception (result (ScriptAgent.process self input_data)).
Proof.
  unfold ScriptAgent.process, ScriptAgent._get_script, BaseAgent.error.
  repeat first [apply construct_script_prompt_fails | failure].
Qed.

Lemma script_validate_fails (self : ScriptAgent.t) (output : dict) :
  fails_with_Exception (result (ScriptAgent.validate_output self output)).
Proof.
  unfold ScriptAgent.validate_output, orelse, BaseAgent.error.
  failures.
Qed.

Lemma voice_process_fails (self : VoiceAgent.t) (input_data : dict) :
  fails_with_Exception (result (VoiceAgent.process self input_data)).
Proof.
  unfold VoiceAgent.process. failures.
Qed.

Lemma voice_validate_fails (self : VoiceAgent.t) (output : dict) :
  fails_with_Exception (result (VoiceAgent.validate_output self output)).
Proof.
  unfold VoiceAgent.validate_output, BaseAgent.error. failures.
Qed.

Lemma get_image_size_fails (aspect_ratio : value) :
  fails_with_Exception (VisualAgent._get_image_size aspect_ratio).
Proof.
  intros e. unfold VisualAgent._get_image_size.
  repeat match goal with
         | |- context [match ?x with _ => _ end] => destruct x
         end;
    intros He; try discriminate He; injection He as <-; reflexivity.
Qed.

Lemma generate_image_fails (prompt : string) (platform aspect_ratio : value)
      (image_id : string) :
  fails_with_Exception
    (result (VisualAgent._generate_image prompt platform aspect_ratio
               image_id)).
Proof.
  unfold VisualAgent._generate_image, BaseAgent.error.
  repeat first [apply get_image_size_fails | failure].
Qed.

Lemma visual_process_fails (self : VisualAgent.t) (input_data : dict) :
  fails_with_Exception (result (VisualAgent.process self input_data)).
Proof.
  unfold VisualAgent.process.
  repeat first [apply generate_image_fails | failure].
Qed.

Lemma check_images_fails (image_paths : list value) :
  fails_with_Exception (result (VisualAgent.check_images image_paths)).
Proof.
  induction image_paths as [|p ps IH]; cbn [VisualAgent.check_images];
    unfold BaseAgent.error; failures.
Qed.

Lemma visual_validate_fails (self : VisualAgent.t) (output : dict) :
  fails_with_Exception (result (VisualAgent.validate_output self output)).
Proof.
  unfold VisualAgent.validate_output, BaseAgent.error.
  repeat first [apply check_images_fails | failure].
Qed.

Lemma create_video_clips_fails (image_paths total_duration : value) :
  fails_with_Exception
    (EditorAgent._create_video_clips image_paths total_duration).
Proof.
  unfold EditorAgent._create_video_clips, EditorAgent.ImageClip. failures.
Qed.

Lemma editor_process_fails (self : EditorAgent.t) (input_data : dict) :
  fails_with_Exception (result (EditorAgent.process self input_data)).
Proof.
  unfold EditorAgent.process.
  repeat first [apply create_video_clips_fails | failure].
Qed.

Lemma editor_validate_fails (self : EditorAgent.t) (output : dict) :
  fails_with_Exception (result (EditorAgent.validate_output self output)).
Proof.
  unfold EditorAgent.validate_output, BaseAgent.error. failures.
Qed.

End AgentFailures.

(** ** [ResearchAgent.validate_output] *)

Section ResearchValidation.
Context `{Environment}.
Import ResearchAgent.

(** What [validate_output] answers, read off the three bindings. *)
Lemma research_validate_result (self : t) (output : dict) :
  result (validate_output self output) =
  match lookup "facts" output, lookup "sources" output,
        lookup "metadata" output with
  | Some f, Some s, Some _ =>
      if negb (truthy f) || negb (truthy s) then Return false
      else n_facts <- len f ;; n_sources <- len s ;;
           ret (negb (n_sources <? n_facts)%nat)
  | _, _, _ => Return false
  end.
Proof.
  unfold validate_output, has_keys, contains, getitem, orelse. simpl.
  destruct (lookup "facts" output) as [f|]; simpl; [| reflexivity].
  destruct (lookup "sources" output) as [s|]; simpl; [| reflexivity].
  destruct (lookup "metadata" output) as [m|]; simpl; [| reflexivity].
  destruct (truthy f); simpl; [| reflexivity].
  destruct (truthy s); simpl; [| reflexivity].
  destruct (len f) as [n|e]; simpl; [| reflexivity].
  destruct (len s) as [k|e]; simpl; [| reflexivity].
  destruct (k <? n)%nat; reflexivity.
Qed.

(** C2.  [ResearchAgent.validate_output] answers [False] for an output
    that lacks one of the keys facts, sources, metadata, for one whose
    facts or sources list is empty, and for one with more facts than
    sources; it answers [True] for an output that has the three keys,
    two non-empty lists and at least as many sources as facts. *)
Theorem research_validate_output_spec (self : t) (output : dict) :
  (lookup "facts" output = None \/ lookup "sources" output = None
   \/ lookup "metadata" output = None ->
   result (validate_output self output) = Return false)
  /\ (lookup "facts" output = Some (PyList [])
      \/ lookup "sources" output = Some (PyList []) ->
      result (validate_output self output) = Return false)
  /\ (forall facts sources,
         lookup "facts" output = Some (PyList facts) ->
         lookup "sources" output = Some (PyList sources) ->
         List.length facts > List.length sources ->
         result (validate_output self output) = Return false)
  /\ (forall facts sources metadata,
         lookup "facts" output = Some (PyList facts) ->
         lookup "sources" output = Some (PyList sources) ->
         lookup "metadata" output = Some metadata ->
         facts <> [] -> sources <> [] ->
         List.length sources >= List.length facts ->
         result (validate_output self output) = Return true).
Proof.
  rewrite research_validate_result.
  repeat split.
  - intros [-> | [-> | ->]]; repeat (destruct (lookup _ output)); reflexivity.
  - intros [-> | ->].
    + destruct (lookup "sources" output), (lookup "metadata" output);
        reflexivity.
    + destruct (lookup "facts" output) as [f|]; [| reflexivity].
      destruct (lookup "metadata" output); [| reflexivity].
      simpl. destruct (truthy f); reflexivity.
  - intros facts sources -> -> Hlen.
    destruct (lookup "metadata" output); [| reflexivity].
    destruct facts as [|f facts]; [simpl in Hlen; lia |].
    destruct sources as [|s sources]; [reflexivity |].
    cbn [truthy negb orb len bind ret Monad_outcome].
    apply Nat.ltb_lt in Hlen. rewrite Hlen. reflexivity.
  - intros facts sources metadata -> -> -> Hf Hs Hlen.
    destruct facts as [|f facts]; [congruence |].
    destruct sources as [|s sources]; [congruence |].
    cbn [truthy negb orb len bind ret Monad_outcome].
    apply Nat.ltb_ge in Hlen. rewrite Hlen. reflexivity.
Qed.

End ResearchValidation.

Lemma research_validate_output_spec_witness :
  let self := {| ResearchAgent.model := PyStr "llama2";
                 ResearchAgent.max_tokens := PyInt 2000;
                 ResearchAgent.temperature := PyFloat 0.5 |} in
  let validate output :=
    result (ResearchAgent.validate_output self output) in
  validate [("facts", PyList [PyStr "Fact 1"]);
            ("sources", PyList [PyStr "Source 1"])] = Return false
  /\ validate [("facts", PyList []); ("sources", PyList [PyStr "Source 1"]);
               ("metadata", PyDict [])] = Return false
  /\ validate [("facts", PyList [PyStr "a"; PyStr "b"]);
               ("sources", PyList [PyStr "x"]);
               ("metadata", PyDict [])] = Return false
  /\ validate [("facts", PyList [PyStr "Fact 1"; PyStr "Fact 2"]);
               ("sources", PyList [PyStr "Source 1"; PyStr "Source 2"]);
               ("metadata", PyDict [])] = Return true.
Proof.
  intros self validate. unfold validate.
  split; [| split; [| split]].
  - apply (proj1 (research_validate_output_spec self _)).
    right. right. reflexivity.
  - apply (proj1 (proj2 (research_validate_output_spec self _))).
    left. reflexivity.
  - apply (proj1 (proj2 (proj2 (research_validate_output_spec self _)))
             [PyStr "a"; PyStr "b"] [PyStr "x"]);
      [reflexivity | reflexivity | simpl; lia].
  - apply (proj2 (proj2 (proj2 (research_validate_output_spec self _)))
             [PyStr "Fact 1"; PyStr "Fact 2"] [PyStr "Source 1"; PyStr "Source 2"]
             (PyDict []));
      [reflexivity | reflexivity | reflexivity | discriminate | discriminate
       | simpl; lia].
Defined.

(** ** [ScriptAgent.validate_output] *)

Section ScriptValidation.
Context `{Environment}.
Import ScriptAgent.

(** What [validate_output] answers, read off the four bindings. *)
Lemma script_validate_result (self : t) (output : dict) :
  result (validate_output self output) =
  match lookup "script" output, lookup "hook" output,
        lookup "call_to_action" output, lookup "metadata" output with
  | Some s, Some h, Some c, Some _ =>
      if negb (truthy s) || negb (truthy h) || negb (truthy c)
      then Return false
      else text <- as_str s ;;
           ret (negb ((word_count text <? 50) || (300 <? word_count text))%nat)
  | _, _, _, _ => Return false
  end.
Proof.
  unfold validate_output, has_keys, contains, getitem, orelse, word_count.
  simpl.
  destruct (lookup "script" output) as [s|]; simpl; [| reflexivity].
  destruct (lookup "hook" output) as [h|]; simpl; [| reflexivity].
  destruct (lookup "call_to_action" output) as [c|]; simpl; [| reflexivity].
  destruct (lookup "metadata" output) as [m|]; simpl; [| reflexivity].
  destruct (truthy s); simpl; [| reflexivity].
  destruct (truthy h); simpl; [| reflexivity].
  destruct (truthy c); simpl; [| reflexivity].
  destruct (as_str s) as [text|e]; simpl; [| reflexivity].
  destruct ((_ <? 50) || (300 <? _))%nat; reflexivity.
Qed.

(** C3.  [ScriptAgent.validate_output] answers [False] for an output
    whose script has fewer than 50 or more than 300 white-space
    separated words, for one whose script, hook or call to action is
    empty, and for one that lacks a required key; it answers [True] for
    an output with the four keys, three non-empty texts and a word count
    between 50 and 300. *)
Theorem script_validate_output_spec (self : t) (output : dict) :
  (forall text,
      lookup "script" output = Some (PyStr text) ->
      word_count text < 50 \/ word_count text > 300 ->
      result (validate_output self output) = Return false)
  /\ (lookup "script" output = Some (PyStr "")
      \/ lookup "hook" output = Some (PyStr "")
      \/ lookup "call_to_action" output = Some (PyStr "") ->
      result (validate_output self output) = Return false)
  /\ (lookup "script" output = None \/ lookup "hook" output = None
      \/ lookup "call_to_action" output = None
      \/ lookup "metadata" output = None ->
      result (validate_output self output) = Return false)
  /\ (forall text hook cta metadata,
         lookup "script" output = Some (PyStr text) ->
         lookup "hook" output = Some (PyStr hook) ->
         lookup "call_to_action" output = Some (PyStr cta) ->
         lookup "metadata" output = Some metadata ->
         text <> "" -> hook <> "" -> cta <> "" ->
         50 <= word_count text <= 300 ->
         result (validate_output self output) = Return true).
Proof.
  rewrite script_validate_result.
  repeat split.
  - intros text -> Hwc.
    destruct (lookup "hook" output) as [h|]; [| reflexivity].
    destruct (lookup "call_to_action" output) as [c|]; [| reflexivity].
    destruct (lookup "metadata" output); [| reflexivity].
    destruct (negb (truthy (PyStr text)) || negb (truthy h) || negb (truthy c));
      [reflexivity |].
    cbn [as_str bind ret Monad_outcome].
    assert ((word_count text <? 50) || (300 <? word_count text) = true)%nat as ->;
      [| reflexivity].
    apply orb_true_iff. rewrite !Nat.ltb_lt. exact Hwc.
  - intros [-> | [-> | ->]].
    + repeat (destruct (lookup _ output)); reflexivity.
    + destruct (lookup "script" output) as [s|]; [| reflexivity].
      destruct (lookup "call_to_action" output), (lookup "metadata" output);
        try reflexivity.
      simpl. destruct (truthy s); reflexivity.
    + destruct (lookup "script" output) as [s|]; [| reflexivity].
      destruct (lookup "hook" output) as [h|]; [| reflexivity].
      destruct (lookup "metadata" output); [| reflexivity].
      simpl. destruct (truthy s), (truthy h); reflexivity.
  - intros [-> | [-> | [-> | ->]]];
      repeat (destruct (lookup _ output)); reflexivity.
  - intros text hook cta metadata -> -> -> -> Ht Hh Hc [Hlo Hhi].
    apply String.eqb_neq in Ht, Hh, Hc.
    cbn [truthy]. rewrite Ht, Hh, Hc.
    cbn [negb orb as_str bind ret Monad_outcome].
    assert ((word_count text <? 50) || (300 <? word_count text) = false)%nat as ->;
      [| reflexivity].
    apply orb_false_iff. rewrite !Nat.ltb_ge. lia.
Qed.

End ScriptValidation.

Lemma script_validate_output_spec_witness :
  let self := {| ScriptAgent.model := PyStr "gpt-4";
                 ScriptAgent.max_tokens := PyInt 1000;
                 ScriptAgent.temperature := PyFloat 0.5 |} in
  let validate output :=
    result (ScriptAgent.validate_output self output) in
  let output script hook :=
    [("script", PyStr script); ("hook", PyStr hook);
     ("call_to_action", PyStr "Follow for more"); ("metadata", PyDict [])] in
  validate (output (Sample.words 49) "Did you know?") = Return false
  /\ validate (output (Sample.words 301) "Did you know?") = Return false
  /\ validate (output (Sample.words 50) "") = Return false
  /\ validate [("script", PyStr (Sample.words 50))] = Return false
  /\ validate (output (Sample.words 50) "Did you know?") = Return true
  /\ validate (output (Sample.words 300) "Did you know?") = Return true.
Proof.
  intros self validate output. unfold validate, output.
  repeat apply conj.
  - apply (proj1 (script_validate_output_spec self _)
             (Sample.words 49)); [reflexivity | left; vm_compute; lia].
  - apply (proj1 (script_validate_output_spec self _)
             (Sample.words 301)); [reflexivity | right; vm_compute; lia].
  - apply (proj1 (proj2 (script_validate_output_spec self _))).
    right. left. reflexivity.
  - apply (proj1 (proj2 (proj2 (script_validate_output_spec self _)))).
    right. left. reflexivity.
  - apply (proj2 (proj2 (proj2 (script_validate_output_spec self _)))
             (Sample.words 50) "Did you know?" "Follow for more" (PyDict []));
      try reflexivity; try discriminate; vm_compute; lia.
  - apply (proj2 (proj2 (proj2 (script_validate_output_spec self _)))
             (Sample.words 300) "Did you know?" "Follow for more" (PyDict []));
      try reflexivity; try discriminate; vm_compute; lia.
Defined.

(** ** [ResearchAgent._process_research] *)

Section ResearchParsing.
Import ResearchAgent.

Lemma headers_snoc (lines : list string) (line : string) :
  headers (lines ++ [line]) =
  (headers lines ++ match header line with Some s => [s] | None => [] end)%list.
Proof.
  unfold headers. rewrite flat_map_app. simpl. rewrite app_nil_r. reflexivity.
Qed.

Lemma section_after_snoc (lines : list string) (line : string) :
  section_after (lines ++ [line]) =
  match header line with
  | Some s => Some s
  | None => section_after lines
  end.
Proof.
  unfold section_after. rewrite headers_snoc.
  destruct (header line) as [s|].
  - rewrite map_app. simpl. apply last_last.
  - rewrite app_nil_r. reflexivity.
Qed.

Lemma flat_map_agree (A B : Type) (f g : A -> list B) (l : list A) :
  (forall a, In a l -> f a = g a) -> flat_map f l = flat_map g l.
Proof.
  induction l as [|a l IH]; intros Hfg; simpl; [reflexivity |].
  rewrite (Hfg a (or_introl eq_refl)), IH; [reflexivity |].
  intros b Hb. apply Hfg. right. exact Hb.
Qed.

Lemma items_of_snoc (sec : section_name) (lines : list string)
      (line : string) :
  items_of sec (lines ++ [line]) =
  (items_of sec lines
     ++ (if is_item line && same_section (section_after lines) sec
         then [slice_from 2 line] else []))%list.
Proof.
  unfold items_of.
  rewrite length_app. simpl List.length. rewrite Nat.add_1_r, seq_S.
  rewrite flat_map_app. simpl flat_map at 2. rewrite app_nil_r.
  f_equal.
  - apply flat_map_agree. intros i Hi. apply in_seq in Hi.
    rewrite nth_error_app1 by lia.
    rewrite firstn_app.
    replace (i - List.length lines) with 0 by lia.
    simpl. rewrite app_nil_r. reflexivity.
  - simpl. rewrite nth_error_app2 by lia. rewrite Nat.sub_diag. simpl.
    rewrite firstn_app, firstn_all, Nat.sub_diag. simpl.
    rewrite app_nil_r. reflexivity.
Qed.

(** The loop state after the stripped lines [lines]. *)
Definition research_after (lines : list string) : research :=
  {| facts := items_of facts_section lines;
     sources := items_of sources_section lines;
     current_section := section_after lines |}.

Lemma research_step_snoc (lines : list string) (line : string) :
  research_step (research_after lines) line =
  research_after (lines ++ [strip line]).
Proof.
  unfold research_step, research_after.
  rewrite !items_of_snoc, section_after_snoc.
  unfold is_item, header.
  generalize (strip line). intros l.
  destruct (String.eqb_spec l "") as [->|_];
    [simpl; rewrite !app_nil_r; reflexivity |].
  destruct (String.eqb_spec l "FACTS:") as [->|_];
    [simpl; rewrite !app_nil_r; reflexivity |].
  destruct (String.eqb_spec l "SOURCES:") as [->|_];
    [simpl; rewrite !app_nil_r; reflexivity |].
  destruct (startswith l "- "); simpl; [| rewrite !app_nil_r; reflexivity].
  destruct (section_after lines) as [[|]|]; simpl;
    rewrite ?app_nil_r; reflexivity.
Qed.

Lemma research_fold (rest done : list string) :
  fold_left research_step rest (research_after done) =
  research_after (done ++ map strip rest).
Proof.
  revert done. induction rest as [|line rest IH]; intros done; simpl.
  - rewrite app_nil_r. reflexivity.
  - rewrite research_step_snoc, IH, <- app_assoc. reflexivity.
Qed.

(** C10.  The facts and the sources [_process_research] returns are
    exactly the lines of the response (stripped) that are prefixed with
    "- " and come after a "FACTS:", respectively "SOURCES:", header line
    with no other header in between, without the prefix and in their
    order of appearance; no other line contributes, an item line before
    the first header included. *)
Theorem process_research_items (response : string) :
  let lines := map strip (split LF response) in
  _process_research response =
  (items_of facts_section lines, items_of sources_section lines).
Proof.
  intros lines. unfold _process_research.
  change {| facts := []; sources := []; current_section := None |}
    with (research_after []).
  rewrite research_fold. reflexivity.
Qed.

(** Without a header line nothing is collected. *)
Lemma items_of_no_header (sec : section_name) (lines : list string) :
  headers lines = [] -> items_of sec lines = [].
Proof.
  intros Hh. unfold items_of.
  rewrite (@flat_map_agree _ _ _ (fun _ => []) (seq 0 (List.length lines))).
  - induction (seq 0 (List.length lines)); simpl; auto.
  - intros i _. destruct (nth_error lines i) as [line|]; [| reflexivity].
    assert (section_after (firstn i lines) = None) as ->.
    { unfold section_after.
      assert (headers (firstn i lines) = []) as ->; [| reflexivity].
      rewrite <- (firstn_skipn i lines) in Hh.
      unfold headers in *. rewrite flat_map_app in Hh.
      apply app_eq_nil in Hh. tauto. }
    rewrite andb_false_r. reflexivity.
Qed.

End ResearchParsing.

Example process_research_sample :
  ResearchAgent._process_research
    ("- early" ++ nl ++ "  FACTS:  " ++ nl ++ "- Fact 1" ++ nl ++ nl
       ++ "note" ++ nl ++ " -  Fact 2 " ++ nl ++ "SOURCES:" ++ nl
       ++ "- Source 1" ++ nl ++ "-")
  = (["Fact 1"; " Fact 2"], ["Source 1"]).
Proof. reflexivity. Qed.

(** ** [ScriptAgent._process_script] without section markers *)

Section ScriptParsing.
Context `{Environment}.
Import ScriptAgent.

Definition empty_parts : dict :=
  [ ("hook", PyStr ""); ("main_content", PyStr "");
    ("call_to_action", PyStr "") ].

Lemma script_step_no_marker (st : script) (line : string) :
  is_marker line = false ->
  current_section (script_step st line) = current_section st
  /\ script_parts (script_step st line) = script_parts st.
Proof.
  unfold is_marker, script_step. intros Hm.
  apply orb_false_iff in Hm. destruct Hm as [Hm Hcta].
  apply orb_false_iff in Hm. destruct Hm as [Hhook Hmain].
  rewrite Hhook, Hmain, Hcta.
  destruct (String.eqb (strip line) ""); split; reflexivity.
Qed.

Lemma script_fold_no_markers (lines : list string) (st : script) :
  forallb (fun line => negb (is_marker line)) lines = true ->
  current_section (fold_left script_step lines st) = current_section st
  /\ script_parts (fold_left script_step lines st) = script_parts st.
Proof.
  revert st. induction lines as [|line lines IH]; intros st Hall; simpl.
  - split; reflexivity.
  - simpl in Hall. apply andb_true_iff in Hall. destruct Hall as [Hl Hall].
    apply negb_true_iff in Hl.
    destruct (script_step_no_marker st line Hl) as [Hc Hp].
    destruct (IH (script_step st line) Hall) as [Hc' Hp'].
    split; congruence.
Qed.

Lemma process_script_no_markers (response : string) :
  no_markers response = true -> _process_script response = empty_parts.
Proof.
  unfold no_markers, _process_script. intros Hall.
  match goal with
  | |- flush (fold_left _ _ ?st) = _ =>
      destruct (script_fold_no_markers _ st Hall) as [Hc Hp]
  end.
  unfold flush. rewrite Hc, Hp. reflexivity.
Qed.

Arguments _process_script : simpl never.

(** What [process] returns when every reply of the provider is free of
    section markers. *)
Lemma script_process_no_markers (self : t) (input_data output : dict) :
  (forall prompt response,
      openai_ChatCompletion_acreate (model self) system_message prompt
        (max_tokens self) (temperature self) = Return (PyStr response) ->
      no_markers response = true) ->
  result (process self input_data) = Return output ->
  lookup "script" output = Some (PyStr "")
  /\ lookup "hook" output = Some (PyStr "")
  /\ lookup "call_to_action" output = Some (PyStr "")
  /\ exists metadata, lookup "metadata" output = Some metadata.
Proof.
  intros Hprov. unfold process, _get_script.
  destruct (getitem input_data "facts") as [facts|]; simpl; [| discriminate].
  destruct (getitem input_data "platform") as [platform|]; simpl;
    [| discriminate].
  destruct (getitem input_data "style") as [style|]; simpl; [| discriminate].
  destruct (getitem input_data "duration") as [duration|]; simpl;
    [| discriminate].
  destruct (_construct_script_prompt facts platform style duration)
    as [prompt|]; simpl; [| discriminate].
  destruct (openai_ChatCompletion_acreate (model self) system_message prompt
              (max_tokens self) (temperature self)) as [reply|e] eqn:Hreply;
    simpl; [| destruct (is_Exception e); discriminate].
  destruct reply as [| | | |response| |]; simpl; try discriminate.
  rewrite (process_script_no_markers _ (Hprov _ _ Hreply)). simpl.
  intros Hout. injection Hout as <-. simpl. eauto.
Qed.

(** C8.  When the reply of the text-generation provider has none of the
    marker lines "HOOK:", "MAIN CONTENT:", "CALL TO ACTION:",
    [_process_script] returns an empty hook, main content and call to
    action; the output [process] builds from it is rejected by
    [validate_output]; and [ScriptAgent.run] returns [None]. *)
Theorem script_without_markers (self : t) :
  (forall response,
      no_markers response = true ->
      _process_script response =
      [ ("hook", PyStr ""); ("main_content", PyStr "");
        ("call_to_action", PyStr "") ])
  /\ ((forall prompt response,
          openai_ChatCompletion_acreate (model self) system_message prompt
            (max_tokens self) (temperature self) = Return (PyStr response) ->
          no_markers response = true) ->
      forall input_data,
        (forall output,
            result (process self input_data) = Return output ->
            result (validate_output self output) = Return false)
        /\ result (BaseAgent.run (agent self) input_data) = Return PyNone).
Proof.
  split; [exact process_script_no_markers |].
  intros Hprov input_data.
  assert (forall output,
             result (process self input_data) = Return output ->
             result (validate_output self output) = Return false) as Hrej.
  { intros output Hout.
    destruct (script_process_no_markers self input_data Hprov Hout)
      as (Hs & Hh & Hc & m & Hm).
    rewrite script_validate_result, Hs, Hh, Hc, Hm. reflexivity. }
  split; [exact Hrej |].
  rewrite run_caught;
    [| apply script_process_fails | apply script_validate_fails].
  simpl.
  destruct (result (process self input_data)) as [output|] eqn:Hout;
    [| reflexivity].
  rewrite (Hrej output eq_refl). reflexivity.
Qed.

End ScriptParsing.

Lemma script_without_markers_witness :
  let self := {| ScriptAgent.model := PyStr "gpt-4";
                 ScriptAgent.max_tokens := PyInt 1000;
                 ScriptAgent.temperature := PyFloat 0.5 |} in
  let input_data := [ ("facts", PyList [PyStr "The pyramids are old"]);
                      ("platform", PyStr "tiktok");
                      ("style", PyStr "engaging");
                      ("duration", PyInt 60) ] in
  result (@BaseAgent.run Sample.env (@ScriptAgent.agent Sample.env self)
            input_data) = Return PyNone.
Proof.
  intros self input_data.
  apply (proj2 (@script_without_markers Sample.env self)).
  intros prompt response Hreply. simpl in Hreply.
  injection Hreply as <-. reflexivity.
Defined.

(** ** [VisualAgent._generate_image_prompts] *)

Section ImagePrompts.
Context `{Environment}.
Import VisualAgent.

Lemma fold_append_map (A B : Type) (f : A -> B) (l : list A) (acc : list B) :
  fold_left (fun acc a => (acc ++ [f a])%list) l acc = (acc ++ map f l)%list.
Proof.
  revert acc. induction l as [|a l IH]; intros acc; simpl.
  - rewrite app_nil_r. reflexivity.
  - rewrite IH, <- app_assoc. reflexivity.
Qed.

Lemma image_prompts_map (self : t) (script : string) (style : value) :
  _generate_image_prompts self script style =
  map (image_prompt self style) (sentences script).
Proof.
  unfold _generate_image_prompts. apply fold_append_map.
Qed.

(** A period-delimited segment that white space alone does not fill. *)
Definition not_blank (segment : string) : bool :=
  negb (String.eqb (strip segment) "").

Lemma strip_empty : strip "" = "".
Proof. reflexivity. Qed.

Lemma not_blank_nonempty (segment : string) :
  not_blank segment = true -> negb (String.eqb segment "") = true.
Proof.
  unfold not_blank. destruct (String.eqb_spec segment "") as [->|]; auto.
Qed.

Lemma filter_length_le (A : Type) (p q : A -> bool) (l : list A) :
  (forall a, In a l -> p a = true -> q a = true) ->
  List.length (filter p l) <= List.length (filter q l).
Proof.
  induction l as [|a l IH]; intros Hpq; simpl; [lia |].
  assert (List.length (filter p l) <= List.length (filter q l)) as Hle.
  { apply IH. intros b Hb. apply Hpq. right. exact Hb. }
  destruct (p a) eqn:Hp.
  - rewrite (Hpq a (or_introl eq_refl) Hp). simpl. lia.
  - destruct (q a); simpl; lia.
Qed.

Lemma filter_agree (A : Type) (p q : A -> bool) (l : list A) :
  (forall a, In a l -> p a = q a) -> filter p l = filter q l.
Proof.
  induction l as [|a l IH]; intros Hpq; simpl; [reflexivity |].
  rewrite (Hpq a (or_introl eq_refl)), IH; [reflexivity |].
  intros b Hb. apply Hpq. right. exact Hb.
Qed.

(** C7 (as amended).  [_generate_image_prompts] produces exactly one image
    prompt per sentence of the script, in order, where the sentences are
    the period-delimited segments that are not blank (not empty once the
    surrounding white space is stripped), each stripped; there are at most
    as many prompts as non-empty segments, and as many when no segment
    consists of white space only.  The result is a function of the script,
    the style argument and the agent's style and image quality alone: two
    invocations that agree on these return the same list. *)
Theorem image_prompts_per_sentence (self : t) (script : string)
        (style : value) :
  let segments := filter not_blank (split "." script) in
  let prompts := _generate_image_prompts self script style in
  List.length prompts = List.length segments
  /\ (forall i,
         nth_error prompts i =
         option_map (fun segment => image_prompt self style (strip segment))
                    (nth_error segments i))
  /\ List.length prompts <= List.length (nonempty_segments script)
  /\ ((forall segment,
          In segment (split "." script) -> segment <> "" ->
          strip segment <> "") ->
      List.length prompts = List.length (nonempty_segments script))
  /\ (forall other : t,
         VisualAgent.style other = VisualAgent.style self ->
         image_quality other = image_quality self ->
         _generate_image_prompts other script style = prompts).
Proof.
  intros segments prompts. unfold prompts, segments.
  rewrite image_prompts_map. unfold sentences. fold not_blank.
  rewrite map_map.
  repeat split.
  - apply length_map.
  - intros i. apply nth_error_map.
  - rewrite length_map. unfold nonempty_segments.
    apply filter_length_le. intros a _. apply not_blank_nonempty.
  - intros Hfull. rewrite length_map. unfold nonempty_segments.
    f_equal. apply filter_agree. intros a Ha. unfold not_blank.
    destruct (String.eqb_spec a "") as [->|Hne]; [reflexivity |].
    destruct (String.eqb_spec (strip a) "") as [He|]; [| reflexivity].
    exfalso. exact (Hfull a Ha Hne He).
  - intros other Hstyle Hquality.
    rewrite image_prompts_map. unfold sentences. fold not_blank.
    rewrite map_map. apply map_ext. intros segment.
    unfold image_prompt. rewrite Hstyle, Hquality. reflexivity.
Qed.

End ImagePrompts.

Lemma image_prompts_per_sentence_witness :
  let self := {| VisualAgent.provider := PyStr "dall-e-3";
                 VisualAgent.style := PyStr "realistic";
                 VisualAgent.image_quality := PyStr "high" |} in
  List.length (@VisualAgent._generate_image_prompts Sample.env self
                 "The pyramids are old. They are in Egypt." (PyStr "vivid"))
  = List.length
      (VisualAgent.nonempty_segments "The pyramids are old. They are in Egypt.").
Proof.
  intros self.
  apply (proj1 (proj2 (proj2 (proj2
           (@image_prompts_per_sentence Sample.env self
              "The pyramids are old. They are in Egypt." (PyStr "vivid")))))).
  intros segment Hin Hne He.
  simpl in Hin.
  destruct Hin as [<- | [<- | [<- | []]]];
    [discriminate He | discriminate He | apply Hne; reflexivity].
Defined.

(** C7 (as stated) fails: the script "a. " has the two non-empty segments
    "a" and " ", yet a single prompt is produced. *)
Lemma image_prompts_not_per_nonempty_segment :
  let self := {| VisualAgent.provider := PyStr "dall-e-3";
                 VisualAgent.style := PyStr "realistic";
                 VisualAgent.image_quality := PyStr "high" |} in
  VisualAgent.nonempty_segments "a. " = ["a"; " "]
  /\ List.length (@VisualAgent._generate_image_prompts Sample.env self "a. "
                    (PyStr "vivid")) = 1
  /\ List.length (@VisualAgent._generate_image_prompts Sample.env self "a. "
                    (PyStr "vivid"))
     <> List.length (VisualAgent.nonempty_segments "a. ").
Proof.
  intros self. repeat split. vm_compute. discriminate.
Qed.

(** ** [EditorAgent._create_video_clips] *)

Section VideoClips.
Context `{Environment}.
Import EditorAgent.

(** The clip made from [image_path], shown for [d]. *)
Definition clip_of (d image_path : value) : Clip :=
  {| source := image_path; duration := Some d; effects := [] |}.

(** [ImageClip] can read the image. *)
Definition readable (image_path : value) : Prop :=
  ImageClip_read image_path = Return tt.

Definition make_clip (d image_path : value) : outcome Clip :=
  clip <- ImageClip image_path ;; ret (set_duration d clip).

Lemma make_clip_result (d image_path : value) :
  make_clip d image_path =
  match ImageClip_read image_path with
  | Return _ => Return (clip_of d image_path)
  | Raise e => Raise e
  end.
Proof.
  unfold make_clip, ImageClip. simpl.
  destruct (ImageClip_read image_path); reflexivity.
Qed.

Lemma clips_returned (d : value) (image_paths : list value)
      (clips : list Clip) :
  for_each (make_clip d) image_paths = Return clips ->
  clips = map (clip_of d) image_paths.
Proof.
  revert clips. induction image_paths as [|p ps IH]; intros clips; simpl.
  - intros Hc. injection Hc as <-. reflexivity.
  - rewrite make_clip_result.
    destruct (ImageClip_read p); [| discriminate].
    destruct (for_each (make_clip d) ps) as [cs|]; [| discriminate].
    intros Hc. injection Hc as <-. rewrite (IH cs eq_refl). reflexivity.
Qed.

Lemma clips_of_readable (d : value) (image_paths : list value) :
  Forall readable image_paths ->
  for_each (make_clip d) image_paths = Return (map (clip_of d) image_paths).
Proof.
  induction 1 as [|p ps Hp _ IH]; simpl; [reflexivity |].
  rewrite make_clip_result, Hp, IH. reflexivity.
Qed.

Lemma clips_raise (d : value) (image_paths : list value) (e : exn) :
  for_each (make_clip d) image_paths = Raise e ->
  exists p, In p image_paths /\ ImageClip_read p = Raise e.
Proof.
  induction image_paths as [|p ps IH]; simpl; [discriminate |].
  rewrite make_clip_result.
  destruct (ImageClip_read p) eqn:Hp.
  - destruct (for_each (make_clip d) ps) as [cs|e'] eqn:Hps; [discriminate |].
    intros He. injection He as <-.
    destruct (IH eq_refl) as (q & Hq & Hr). exists q. auto.
  - intros He. injection He as <-. exists p. auto.
Qed.

Lemma create_video_clips_unfold (image_paths : list value) (total : value) :
  _create_video_clips (PyList image_paths) total =
  match truediv total (List.length image_paths) with
  | Return d => for_each (make_clip d) image_paths
  | Raise e => Raise e
  end.
Proof.
  unfold _create_video_clips. simpl.
  destruct (truediv total (List.length image_paths)); reflexivity.
Qed.

Lemma truediv_float (f : float) (n : nat) :
  n <> 0 ->
  truediv (PyFloat f) n = Return (PyFloat (PrimFloat.div f (float_of_nat n))).
Proof.
  intros Hn. unfold truediv.
  destruct (Nat.eqb_spec n 0); [contradiction | reflexivity].
Qed.

Lemma truediv_zero (total : value) :
  (exists f, total = PyFloat f) \/ (exists z, total = PyInt z) ->
  exists msg, truediv total 0 = Raise (ZeroDivisionError msg).
Proof.
  intros [[f ->] | [z ->]]; simpl; eauto.
Qed.

Lemma truediv_nonzero (total : value) (n : nat) (msg : string) :
  n <> 0 -> truediv total n <> Raise (ZeroDivisionError msg).
Proof.
  intros Hn. unfold truediv, int_truediv.
  destruct total; try discriminate;
    destruct (Nat.eqb_spec n 0); try contradiction; try discriminate;
    destruct (SFdiv _ _ _ _); discriminate.
Qed.

(** C6.  For a non-empty list of image paths and a total duration, every
    clip [_create_video_clips] returns is shown for the total duration
    divided by the number of images: the returned list has one clip per
    image path, in order, all with that one duration, and it is returned
    whenever the images can be read.  For a float total the duration is
    the float quotient. *)
Theorem create_video_clips_duration (image_paths : list value)
        (total : value) :
  image_paths <> [] ->
  let n := List.length image_paths in
  (forall f, total = PyFloat f ->
             truediv total n = Return (PyFloat (PrimFloat.div f (float_of_nat n))))
  /\ (forall clips,
         _create_video_clips (PyList image_paths) total = Return clips ->
         exists d,
           truediv total n = Return d
           /\ clips = map (clip_of d) image_paths
           /\ List.length clips = n
           /\ Forall (fun clip => duration clip = Some d) clips)
  /\ (forall d,
         truediv total n = Return d ->
         Forall readable image_paths ->
         _create_video_clips (PyList image_paths) total =
         Return (map (clip_of d) image_paths)).
Proof.
  intros Hne n.
  assert (n <> 0) as Hn.
  { unfold n. destruct image_paths; [congruence | discriminate]. }
  repeat split.
  - intros f ->. apply truediv_float. exact Hn.
  - intros clips. rewrite create_video_clips_unfold. fold n.
    destruct (truediv total n) as [d|]; [| discriminate].
    intros Hc. apply clips_returned in Hc. subst clips.
    exists d. repeat split.
    + apply length_map.
    + apply Forall_map. apply Forall_forall. reflexivity.
  - intros d Hd Hr. rewrite create_video_clips_unfold. fold n.
    rewrite Hd. apply clips_of_readable. exact Hr.
Qed.

End VideoClips.

Lemma create_video_clips_duration_witness :
  @EditorAgent._create_video_clips Sample.env
    (PyList [PyStr "a.png"; PyStr "b.png"; PyStr "c.png"; PyStr "d.png"])
    (PyFloat 60)
  = Return (map (clip_of (PyFloat 15))
                [PyStr "a.png"; PyStr "b.png"; PyStr "c.png"; PyStr "d.png"]).
Proof.
  apply (proj2 (proj2 (@create_video_clips_duration Sample.env
                         [PyStr "a.png"; PyStr "b.png"; PyStr "c.png";
                          PyStr "d.png"] (PyFloat 60) ltac:(discriminate)))).
  - vm_compute. reflexivity.
  - repeat constructor.
Defined.

(** ** Empty and non-empty image lists *)

Section ImagePaths.
Context `{Environment}.

Lemma truediv_zero_raises (total : value) :
  exists e, truediv total 0 = Raise e.
Proof.
  destruct total; simpl; eauto.
Qed.

(** [EditorAgent.process] raises on an empty list of image paths. *)
Lemma editor_process_empty (self : EditorAgent.t) (input_data : dict) :
  lookup "image_paths" input_data = Some (PyList []) ->
  exists e, result (EditorAgent.process self input_data) = Raise e.
Proof.
  intros Hpaths. unfold EditorAgent.process, getitem. rewrite Hpaths. simpl.
  destruct (lookup "audio_path" input_data); simpl; [| eauto].
  destruct (lookup "platform" input_data); simpl; [| eauto].
  destruct (lookup "duration" input_data) as [total|]; simpl; [| eauto].
  destruct (lookup "aspect_ratio" input_data); simpl; [| eauto].
  unfold EditorAgent._create_video_clips. simpl.
  destruct (truediv_zero_raises total) as [e ->]. simpl. eauto.
Qed.

(** An output [VisualAgent.validate_output] accepts has image paths, and
    at least one. *)
Lemma visual_valid_nonempty (self : VisualAgent.t) (output : dict) :
  result (VisualAgent.validate_output self output) = Return true ->
  exists image_paths n,
    lookup "image_paths" output = Some image_paths
    /\ len image_paths = Return (S n).
Proof.
  unfold VisualAgent.validate_output, has_keys, contains, getitem. simpl.
  destruct (lookup "image_paths" output) as [paths|]; simpl; [| discriminate].
  destruct (lookup "metadata" output); simpl; [| discriminate].
  destruct paths as [| |z|f|s|l|d]; simpl; try discriminate.
  - destruct b; simpl; discriminate.
  - destruct (z =? 0)%Z; simpl; discriminate.
  - destruct (PrimFloat.eqb f 0); simpl; discriminate.
  - destruct s; simpl; [discriminate |].
    intros _. eexists _, _. split; reflexivity.
  - destruct l; simpl; [discriminate |].
    intros _. eexists _, _. split; reflexivity.
  - destruct d; simpl; [discriminate |].
    intros _. eexists _, _. split; reflexivity.
Qed.

End ImagePaths.

(** ** [ContentGenerator.generate_content] *)

Section Pipeline.
Context `{Environment}.
Import ContentGenerator.

Arguments subscript : simpl never.
Arguments truthy : simpl never.
Arguments BaseAgent.run : simpl never.

(** One step of the case analysis of a pipeline run: on what an agent's
    [run] gives back, on a subscription, on a truth test. *)
Ltac pipeline_step :=
  match goal with
  | |- context [BaseAgent.run ?a ?i] =>
      let log := fresh "log" in
      let back := fresh "back" in
      let e := fresh "e" in
      let Hrun := fresh "Hrun" in
      let Hpass := fresh "Hpass" in
      destruct (BaseAgent.run a i) as [log [back|e]] eqn:Hrun;
      [| assert (is_Exception e = false) as Hpass
           by (apply (@run_raises _ a i); rewrite Hrun; reflexivity);
         cbn; rewrite Hpass]
  | |- context [subscript ?v ?k] =>
      let x := fresh "x" in
      let e := fresh "e" in
      let Hsub := fresh "Hsub" in
      destruct (subscript v k) as [x|e] eqn:Hsub;
      [| cbn; rewrite (@subscript_caught _ _ _ Hsub)]
  | |- context [truthy ?v] =>
      let Htruthy := fresh "Htruthy" in
      destruct (truthy v) eqn:Htruthy
  end; cbn.

Ltac pipeline_cases :=
  unfold generate_content, call; cbn; repeat pipeline_step.

(** The events of a trace, one at a time. *)
Ltac each_event Hin :=
  cbn in Hin;
  repeat (destruct Hin as [Hin | Hin];
          [try discriminate Hin; try (injection Hin; intros; subst) |]);
  try contradiction.

Lemma truthy_none : truthy PyNone = false.
Proof. reflexivity. Qed.

(** What a pipeline run records of a stage is the call of that stage's
    [run]. *)
Lemma pipeline_calls_run (self : t) (topic platform : string) :
  forall s input log back,
    In (Called s input log back)
       (trace (generate_content self topic platform)) ->
    BaseAgent.run (agents self s) input = (log, back).
Proof.
  pipeline_cases; intros s input log' back' Hin; each_event Hin; assumption.
Qed.

(** C4.  In every run of [generate_content] in which the [run] of a stage
    returns [None], no later stage of the pipeline is invoked (after
    research: neither script, voice, visual nor editor), and
    [generate_content] returns [None], its failure indicator: no
    exception escapes it.  In any run at all, no exception derived from
    [Exception] escapes [generate_content]: what it raises was raised
    by the [run] of a stage and is of another class.  The stages a run
    records are the calls of their agents' [run]. *)
Theorem pipeline_abort (self : t) (topic platform : string) :
  (forall e,
      result (generate_content self topic platform) = Raise e ->
      is_Exception e = false
      /\ exists s input log,
          In (Called s input log (Raise e))
             (trace (generate_content self topic platform)))
  /\ (forall s input log back,
         In (Called s input log back)
            (trace (generate_content self topic platform)) ->
         BaseAgent.run (agents self s) input = (log, back))
  /\ (forall s input log,
         In (Called s input log (Return PyNone))
            (trace (generate_content self topic platform)) ->
         result (generate_content self topic platform) = Return PyNone
         /\ forall s' input' log' back',
             In (Called s' input' log' back')
                (trace (generate_content self topic platform)) ->
             position s' <= position s).
Proof.
  split; [| split].
  - pipeline_cases; intros e' He'; try discriminate He';
      injection He' as <-; (split; [assumption |]);
      eexists _, _, _; cbn; eauto 6.
  - exact (pipeline_calls_run self topic platform).
  - pipeline_cases;
      intros s input log' Hin; each_event Hin;
      try (rewrite truthy_none in *; discriminate);
      (split; [reflexivity |]);
      intros s' input' log'' back' Hin'; each_event Hin'; cbn; lia.
Qed.

Lemma subscript_lookup (d : dict) (k : string) (v : value) :
  lookup k d = Some v -> subscript (PyDict d) k = Return v.
Proof.
  intros Hk. unfold subscript, getitem. rewrite Hk. reflexivity.
Qed.

Lemma truthy_lookup (d : dict) (k : string) (v : value) :
  lookup k d = Some v -> truthy (PyDict d) = true.
Proof.
  destruct d; [discriminate | reflexivity].
Qed.

(** A stage whose [run] is known to return the output [Hr] speaks of. *)
Ltac stage_returns Hr Hkey :=
  match type of Hr with
  | result (BaseAgent.run ?a ?i) = _ =>
      let log := fresh "log" in
      let back := fresh "back" in
      destruct (BaseAgent.run a i) as [log back];
      cbn in Hr; subst back; cbn;
      rewrite (truthy_lookup _ _ Hkey); cbn
  end.

(** C5.  In every run of [generate_content] in which the five stages
    return valid outputs, the result carries the video path of the
    editor's output and a metadata map made of the topic, the platform and
    the metadata of each stage, in the order research, script, voice,
    visual, editor. *)
Theorem pipeline_result (self : t) (topic platform : string)
        (platforms profile style max_duration aspect_ratio : value)
        (research_output script_output voice_output visual_output
           editor_output : dict)
        (facts script_text audio_path image_paths video_path : value)
        (research_metadata script_metadata voice_metadata visual_metadata
           editor_metadata : value) :
  subscript (config self) "platforms" = Return platforms ->
  subscript platforms platform = Return profile ->
  subscript profile "style" = Return style ->
  subscript profile "max_duration" = Return max_duration ->
  subscript profile "aspect_ratio" = Return aspect_ratio ->
  result (BaseAgent.run (agents self research)
            [ ("topic", PyStr topic); ("platform", PyStr platform);
              ("style", style) ]) = Return (PyDict research_output) ->
  lookup "facts" research_output = Some facts ->
  lookup "metadata" research_output = Some research_metadata ->
  result (BaseAgent.run (agents self script)
            [ ("facts", facts); ("platform", PyStr platform);
              ("style", style); ("duration", max_duration) ])
  = Return (PyDict script_output) ->
  lookup "script" script_output = Some script_text ->
  lookup "metadata" script_output = Some script_metadata ->
  result (BaseAgent.run (agents self voice)
            [ ("script", script_text); ("platform", PyStr platform);
              ("style", style) ]) = Return (PyDict voice_output) ->
  lookup "audio_path" voice_output = Some audio_path ->
  lookup "metadata" voice_output = Some voice_metadata ->
  result (BaseAgent.run (agents self visual)
            [ ("script", script_text); ("platform", PyStr platform);
              ("style", style); ("aspect_ratio", aspect_ratio) ])
  = Return (PyDict visual_output) ->
  lookup "image_paths" visual_output = Some image_paths ->
  lookup "metadata" visual_output = Some visual_metadata ->
  result (BaseAgent.run (agents self editor)
            [ ("image_paths", image_paths); ("audio_path", audio_path);
              ("platform", PyStr platform); ("duration", max_duration);
              ("aspect_ratio", aspect_ratio) ])
  = Return (PyDict editor_output) ->
  lookup "video_path" editor_output = Some video_path ->
  lookup "metadata" editor_output = Some editor_metadata ->
  result (generate_content self topic platform) =
  Return (PyDict
            [ ("video_path", video_path);
              ("metadata",
               PyDict [ ("topic", PyStr topic);
                        ("platform", PyStr platform);
                        ("research", research_metadata);
                        ("script", script_metadata);
                        ("voice", voice_metadata);
                        ("visual", visual_metadata);
                        ("editor", editor_metadata) ]) ]).
Proof.
  intros Hplatforms Hprofile Hstyle Hduration Hratio
         Hresearch Hfacts Hrm Hscript Htext Hsm Hvoice Haudio Hvm
         Hvisual Himages Him Heditor Hvideo Hem.
  unfold generate_content, call. cbn.
  rewrite Hplatforms; cbn. rewrite Hprofile; cbn. rewrite Hstyle; cbn.
  stage_returns Hresearch Hfacts.
  rewrite (subscript_lookup _ _ Hfacts); cbn. rewrite Hduration; cbn.
  stage_returns Hscript Htext.
  rewrite (subscript_lookup _ _ Htext); cbn.
  stage_returns Hvoice Haudio.
  rewrite Hratio; cbn.
  stage_returns Hvisual Himages.
  rewrite (subscript_lookup _ _ Himages); cbn.
  rewrite (subscript_lookup _ _ Haudio); cbn.
  stage_returns Heditor Hvideo.
  rewrite (subscript_lookup _ _ Hvideo); cbn.
  rewrite (subscript_lookup _ _ Hrm); cbn.
  rewrite (subscript_lookup _ _ Hsm); cbn.
  rewrite (subscript_lookup _ _ Hvm); cbn.
  rewrite (subscript_lookup _ _ Him); cbn.
  rewrite (subscript_lookup _ _ Hem); cbn.
  reflexivity.
Qed.

(** What [run] returns is [None] or an output its agent has validated. *)
Lemma run_returns_validated (a : BaseAgent.Agent) (input_data : dict)
      (v : value) :
  result (BaseAgent.run a input_data) = Return v ->
  v = PyNone
  \/ exists output,
      v = PyDict output
      /\ result (BaseAgent.validate_output a output) = Return true.
Proof.
  rewrite run_result.
  destruct (result (BaseAgent.process a input_data)) as [output|e];
    [| destruct (is_Exception e); intros Hv;
       [injection Hv as <-; auto | discriminate Hv]].
  destruct (result (BaseAgent.validate_output a output)) as [[|]|e] eqn:Hvalid;
    try (intros Hv; injection Hv as <-; eauto; fail).
  destruct (is_Exception e); intros Hv;
    [injection Hv as <-; auto | discriminate Hv].
Qed.

(** The editor of a pipeline whose visual stage is a [VisualAgent] is
    invoked with at least one image path. *)
Lemma pipeline_editor_images (self : t) (topic platform : string)
      (v : VisualAgent.t) :
  agents self visual = VisualAgent.agent v ->
  forall input log back,
    In (Called editor input log back)
       (trace (generate_content self topic platform)) ->
    exists image_paths n,
      lookup "image_paths" input = Some image_paths
      /\ len image_paths = Return (S n).
Proof.
  intros Hvisual.
  pipeline_cases; intros input log' back' Hin; each_event Hin.
  all: match goal with
       | Hr : BaseAgent.run (agents ?g visual) ?i = (_, Return ?b),
         Ht : truthy ?b = true,
         Hs : subscript ?b "image_paths" = Return ?x |- _ =>
           assert (result (BaseAgent.run (agents g visual) i) = Return b)
             as Hres by (rewrite Hr; reflexivity);
           apply run_returns_validated in Hres;
           destruct Hres as [-> | (output & -> & Hvalid)];
           [rewrite truthy_none in Ht; discriminate |];
           rewrite Hvisual in Hvalid; cbn in Hvalid;
           apply visual_valid_nonempty in Hvalid;
           destruct Hvalid as (paths & n & Hpaths & Hlen);
           rewrite (subscript_lookup _ _ Hpaths) in Hs;
           injection Hs as <-;
           exists paths, n; split; [reflexivity | exact Hlen]
       end.
Qed.

End Pipeline.

Lemma pipeline_abort_witness :
  result (@ContentGenerator.generate_content Sample.env
            Sample.generator_without_research
            "Ancient Egyptian Pyramids" "youtube_shorts") = Return PyNone
  /\ forall s input log back,
      In (ContentGenerator.Called s input log back)
         (trace (@ContentGenerator.generate_content Sample.env
                   Sample.generator_without_research
                   "Ancient Egyptian Pyramids" "youtube_shorts")) ->
      ContentGenerator.position s <= 1.
Proof.
  assert (In (ContentGenerator.Called ContentGenerator.research
                [ ("topic", PyStr "Ancient Egyptian Pyramids");
                  ("platform", PyStr "youtube_shorts");
                  ("style", PyStr "educational, engaging") ]
                (trace (@BaseAgent.run Sample.env
                          (ContentGenerator.agents
                             Sample.generator_without_research
                             ContentGenerator.research)
                          [ ("topic", PyStr "Ancient Egyptian Pyramids");
                            ("platform", PyStr "youtube_shorts");
                            ("style", PyStr "educational, engaging") ]))
                (Return PyNone))
             (trace (@ContentGenerator.generate_content Sample.env
                       Sample.generator_without_research
                       "Ancient Egyptian Pyramids" "youtube_shorts")))
    as Hin by (left; reflexivity).
  exact (proj2 (proj2 (@pipeline_abort Sample.env
                         Sample.generator_without_research
                         "Ancient Egyptian Pyramids" "youtube_shorts"))
               _ _ _ Hin).
Defined.

Lemma pipeline_result_witness :
  result (@ContentGenerator.generate_content Sample.env Sample.generator
            "Ancient Egyptian Pyramids" "youtube_shorts")
  = Return (PyDict
              [ ("video_path", PyStr "output/videos/youtube_shorts_final.mp4");
                ("metadata",
                 PyDict [ ("topic", PyStr "Ancient Egyptian Pyramids");
                          ("platform", PyStr "youtube_shorts");
                          ("research", PyDict [("model", PyStr "llama2")]);
                          ("script", PyDict [("model", PyStr "gpt-4")]);
                          ("voice",
                           PyDict [("voice_id", PyStr "en-US-Neural2-F")]);
                          ("visual", PyDict [("provider", PyStr "dall-e-3")]);
                          ("editor",
                           PyDict [("video_quality", PyStr "high")]) ]) ]).
Proof.
  eapply (@pipeline_result Sample.env Sample.generator
            "Ancient Egyptian Pyramids" "youtube_shorts");
    reflexivity.
Defined.

(** ** The division of [EditorAgent._create_video_clips] *)

Section DivisionGuard.
Context `{Environment}.

(** C9.  [_create_video_clips] divides the total duration by the number
    of image paths without a guard: on an empty list it raises a
    [ZeroDivisionError], which [EditorAgent.run] turns into [None].  On a
    non-empty list the division raises no [ZeroDivisionError] and, for a
    float total, returns the quotient; only reading an image could then
    raise one.  An output [VisualAgent.validate_output] accepts has a
    non-empty list of image paths, so the editor of a pipeline whose
    visual stage is a [VisualAgent] is invoked with at least one. *)
Theorem editor_division_guard :
  (forall total,
      (exists f, total = PyFloat f) \/ (exists z, total = PyInt z) ->
      exists msg,
        EditorAgent._create_video_clips (PyList []) total =
        Raise (ZeroDivisionError msg))
  /\ (forall self input_data,
         lookup "image_paths" input_data = Some (PyList []) ->
         result (BaseAgent.run (EditorAgent.agent self) input_data) =
         Return PyNone)
  /\ (forall image_paths total,
         image_paths <> [] ->
         (forall msg,
             truediv total (List.length image_paths) <>
             Raise (ZeroDivisionError msg))
         /\ (forall f,
                total = PyFloat f ->
                exists d, truediv total (List.length image_paths) = Return d)
         /\ (forall msg,
                EditorAgent._create_video_clips (PyList image_paths) total =
                Raise (ZeroDivisionError msg) ->
                exists p, In p image_paths
                          /\ ImageClip_read p = Raise (ZeroDivisionError msg)))
  /\ (forall v output,
         result (VisualAgent.validate_output v output) = Return true ->
         exists image_paths n,
           lookup "image_paths" output = Some image_paths
           /\ len image_paths = Return (S n))
  /\ (forall self topic platform v,
         ContentGenerator.agents self ContentGenerator.visual =
         VisualAgent.agent v ->
         forall input log back,
           In (ContentGenerator.Called ContentGenerator.editor input log back)
              (trace (ContentGenerator.generate_content self topic platform)) ->
           exists image_paths n,
             lookup "image_paths" input = Some image_paths
             /\ len image_paths = Return (S n)).
Proof.
  split; [| split; [| split; [| split]]].
  - intros total Hnum. rewrite create_video_clips_unfold. simpl.
    destruct (truediv_zero Hnum) as [msg ->]. eauto.
  - intros self input_data Hpaths.
    rewrite run_caught;
      [| apply editor_process_fails | apply editor_validate_fails].
    simpl. destruct (editor_process_empty self _ Hpaths) as [e ->].
    reflexivity.
  - intros image_paths total Hne.
    assert (List.length image_paths <> 0) as Hn.
    { destruct image_paths; [congruence | discriminate]. }
    split; [| split].
    + intros msg. apply truediv_nonzero. exact Hn.
    + intros f ->. rewrite (@truediv_float f _ Hn). eauto.
    + intros msg. rewrite create_video_clips_unfold.
      destruct (truediv total (List.length image_paths)) as [d|e] eqn:Hd.
      * apply clips_raise.
      * intros He. injection He as ->.
        exfalso. exact (@truediv_nonzero total _ msg Hn Hd).
  - exact visual_valid_nonempty.
  - exact pipeline_editor_images.
Qed.

End DivisionGuard.

Lemma editor_division_guard_witness :
  let self := {| EditorAgent.video_quality := PyStr "high";
                 EditorAgent.audio_quality := PyStr "high";
                 EditorAgent.transition_style := PyStr "smooth" |} in
  result (@BaseAgent.run Sample.env (@EditorAgent.agent Sample.env self)
            [ ("image_paths", PyList []);
              ("audio_path", PyStr "output/audio/voiceover.mp3");
              ("platform", PyStr "youtube_shorts");
              ("duration", PyInt 60);
              ("aspect_ratio", PyStr "9:16") ]) = Return PyNone
  /\ (exists d, truediv (PyFloat 60) (List.length [PyStr "a.png"; PyStr "b.png"])
                = Return d)
  /\ forall input log back,
      In (ContentGenerator.Called ContentGenerator.editor input log back)
         (trace (@ContentGenerator.generate_content Sample.env
                   Sample.generator_with_visual_agent
                   "Ancient Egyptian Pyramids" "youtube_shorts")) ->
      exists image_paths n,
        lookup "image_paths" input = Some image_paths
        /\ len image_paths = Return (S n).
Proof.
  intros self.
  destruct (@editor_division_guard Sample.env)
    as (_ & Hrun & Hdiv & _ & Hpipeline).
  split; [| split].
  - apply Hrun. reflexivity.
  - apply (proj1 (proj2 (Hdiv [PyStr "a.png"; PyStr "b.png"] (PyFloat 60)
                           ltac:(discriminate))) 60%float).
    reflexivity.
  - eapply Hpipeline. reflexivity.
Defined.


(** ** [repr] of a name *)

Section Repr.

(** A printable character other than [quote] and the backslash: [repr]
    between quotes [quote] writes it as it is. *)
Definition unescaped (quote c : ascii) : bool :=
  isprintable c && negb (Ascii.eqb c quote) && negb (Ascii.eqb c backslash).

(** A printable character other than the apostrophe and the backslash. *)
Definition plain (c : ascii) : bool := unescaped apostrophe c.

(** A string of plain characters. *)
Definition plain_name (s : string) : bool :=
  forallb plain (list_ascii_of_string s).

(** A string with an apostrophe, of printable characters other than the
    quotation mark and the backslash. *)
Definition apostrophe_name (s : string) : bool :=
  mem_char apostrophe s
  && forallb (unescaped quotation_mark) (list_ascii_of_string s).

Lemma repr_char_unescaped (quote c : ascii) :
  unescaped quote c = true -> repr_char quote c = String c EmptyString.
Proof.
  unfold unescaped, repr_char. intros Hc.
  apply andb_true_iff in Hc. destruct Hc as [Hc Hb].
  apply andb_true_iff in Hc. destruct Hc as [Hp Hq].
  apply negb_true_iff in Hq, Hb. rewrite Hq, Hb. cbn [orb].
  revert Hp. clear.
  destruct c as [[] [] [] [] [] [] [] []]; intros Hp;
    try discriminate Hp; reflexivity.
Qed.

Lemma repr_chars_unescaped (quote : ascii) (s : string) :
  forallb (unescaped quote) (list_ascii_of_string s) = true ->
  String.concat "" (map (repr_char quote) (list_ascii_of_string s)) = s.
Proof.
  induction s as [|c s IH]; cbn [list_ascii_of_string forallb map];
    [reflexivity |].
  intros Hs. apply andb_true_iff in Hs. destruct Hs as [Hc Hs].
  rewrite (repr_char_unescaped _ _ Hc).
  specialize (IH Hs).
  destruct (map (repr_char quote) (list_ascii_of_string s)) as [|x xs];
    cbn in *; rewrite <- IH; reflexivity.
Qed.

Lemma mem_char_unescaped (quote : ascii) (s : string) :
  forallb (unescaped quote) (list_ascii_of_string s) = true ->
  mem_char quote s = false.
Proof.
  unfold mem_char.
  induction s as [|c s IH]; cbn [list_ascii_of_string forallb existsb];
    [reflexivity |].
  intros Hs. apply andb_true_iff in Hs. destruct Hs as [Hc Hs].
  rewrite (IH Hs), orb_false_r.
  unfold unescaped in Hc. apply andb_true_iff in Hc. destruct Hc as [Hc _].
  apply andb_true_iff in Hc. destruct Hc as [_ Hc].
  apply negb_true_iff in Hc. rewrite Ascii.eqb_sym. exact Hc.
Qed.

(** [repr] puts a plain name between apostrophes. *)
Lemma repr_str_plain (s : string) :
  plain_name s = true -> repr_str s = "'" ++ s ++ "'".
Proof.
  intros Hs. unfold repr_str.
  rewrite (mem_char_unescaped _ _ Hs). cbn [andb].
  rewrite (repr_chars_unescaped _ _ Hs). reflexivity.
Qed.

(** [repr] puts a name with an apostrophe between quotation marks. *)
Lemma repr_str_apostrophe (s : string) :
  apostrophe_name s = true ->
  repr_str s =
  String quotation_mark (s ++ String quotation_mark EmptyString).
Proof.
  unfold apostrophe_name. intros Hs.
  apply andb_true_iff in Hs. destruct Hs as [Ha Hs].
  unfold repr_str.
  rewrite Ha, (mem_char_unescaped _ _ Hs). cbn [andb negb].
  rewrite (repr_chars_unescaped _ _ Hs). reflexivity.
Qed.

End Repr.

(** ** More on [ContentGenerator.generate_content] *)

Section PipelineRuns.
Context `{Environment}.
Import ContentGenerator.

Arguments subscript : simpl never.
Arguments truthy : simpl never.
Arguments BaseAgent.run : simpl never.

Ltac run_step :=
  match goal with
  | |- context [BaseAgent.run ?a ?i] =>
      let log := fresh "log" in
      let back := fresh "back" in
      let e := fresh "e" in
      let Hrun := fresh "Hrun" in
      let Hpass := fresh "Hpass" in
      destruct (BaseAgent.run a i) as [log [back|e]] eqn:Hrun;
      [| assert (is_Exception e = false) as Hpass
           by (apply (@run_raises _ a i); rewrite Hrun; reflexivity);
         cbn; rewrite Hpass]
  | |- context [subscript ?v ?k] =>
      let x := fresh "x" in
      let e := fresh "e" in
      let Hsub := fresh "Hsub" in
      destruct (subscript v k) as [x|e] eqn:Hsub;
      [| cbn; rewrite (@subscript_caught _ _ _ Hsub)]
  | |- context [truthy ?v] =>
      let Htruthy := fresh "Htruthy" in
      destruct (truthy v) eqn:Htruthy
  end; cbn.

Ltac run_cases := unfold generate_content, call; cbn; repeat run_step.

Ltac event_of Hin :=
  cbn in Hin;
  repeat (destruct Hin as [Hin | Hin];
          [try discriminate Hin; try (injection Hin; intros; subst) |]);
  try contradiction.

(** The stages a trace records, in the order of their calls. *)
Definition stages_called (events : list event) : list stage :=
  flat_map (fun ev => match ev with
                      | Called s _ _ _ => [s]
                      | Printed _ => []
                      end) events.

(** The lines a trace records. *)
Definition lines_printed (events : list event) : list string :=
  flat_map (fun ev => match ev with
                      | Called _ _ _ _ => []
                      | Printed line => [line]
                      end) events.

Definition pipeline : list stage := [research; script; voice; visual; editor].

(** X1.  A platform that the configuration does not list makes
    [generate_content] return [None] at once: no agent is run, and the one
    line printed names the missing key as [repr] writes it: between
    apostrophes for a name of printable characters without apostrophe or
    backslash, between quotation marks for a name of printable characters
    with an apostrophe and without quotation mark or backslash. *)
Theorem unknown_platform (self : t) (topic platform : string)
        (platforms : dict) :
  subscript (config self) "platforms" = Return (PyDict platforms) ->
  lookup platform platforms = None ->
  generate_content self topic platform =
  ([Printed ("Error generating content: " ++ repr_str platform)],
   Return PyNone)
  /\ (plain_name platform = true ->
      generate_content self topic platform =
      ([Printed ("Error generating content: '" ++ platform ++ "'")],
       Return PyNone))
  /\ (apostrophe_name platform = true ->
      generate_content self topic platform =
      ([Printed ("Error generating content: "
                   ++ String quotation_mark
                        (platform ++ String quotation_mark EmptyString))],
       Return PyNone)).
Proof.
  intros Hplatforms Hmissing.
  assert (generate_content self topic platform =
          ([Printed ("Error generating content: " ++ repr_str platform)],
           Return PyNone)) as Hrun.
  { unfold generate_content. cbn. rewrite Hplatforms. cbn.
    unfold subscript, getitem. rewrite Hmissing. reflexivity. }
  split; [exact Hrun | split].
  - intros Hplain. rewrite Hrun, (repr_str_plain _ Hplain). reflexivity.
  - intros Hquoted. rewrite Hrun, (repr_str_apostrophe _ Hquoted).
    reflexivity.
Qed.

(** X2.  The stages of a run are called in pipeline order, each at most
    once and none skipped: the stages called are a prefix of research,
    script, voice, visual, editor. *)
Theorem stages_in_order (self : t) (topic platform : string) :
  exists k,
    stages_called (trace (generate_content self topic platform)) =
    firstn k pipeline.
Proof.
  run_cases;
    first [ exists 0; reflexivity | exists 1; reflexivity
          | exists 2; reflexivity | exists 3; reflexivity
          | exists 4; reflexivity | exists 5; reflexivity ].
Qed.

(** X3.  A run that does not return [None] has called all five stages,
    each of which gave back a value that counts as true, has printed
    nothing, and returns a dictionary of exactly the two keys video_path
    and metadata. *)
Theorem success_needs_every_stage (self : t) (topic platform : string)
        (v : value) :
  result (generate_content self topic platform) = Return v ->
  v <> PyNone ->
  stages_called (trace (generate_content self topic platform)) = pipeline
  /\ lines_printed (trace (generate_content self topic platform)) = []
  /\ (forall s input log back,
         In (Called s input log back)
            (trace (generate_content self topic platform)) ->
         exists given, back = Return given /\ truthy given = true)
  /\ exists video_path metadata,
      v = PyDict [("video_path", video_path); ("metadata", PyDict metadata)]
      /\ map fst metadata =
         ["topic"; "platform"; "research"; "script"; "voice"; "visual";
          "editor"].
Proof.
  run_cases; intros Hv Hnone; try discriminate Hv;
    injection Hv as <-; try congruence.
  repeat split.
  - intros s input log' back' Hin. event_of Hin; eauto.
  - eexists _, _. split; reflexivity.
Qed.

(** X4.  A stage that gives back a value counting as false, [None] or an
    empty dictionary alike, ends the run: [generate_content] returns
    [None], exactly one line is printed, and no later stage is called. *)
Theorem falsy_stage_aborts (self : t) (topic platform : string)
        (s : stage) (input : dict) (log : list log_record) (given : value) :
  In (Called s input log (Return given))
     (trace (generate_content self topic platform)) ->
  truthy given = false ->
  result (generate_content self topic platform) = Return PyNone
  /\ List.length (lines_printed (trace (generate_content self topic platform)))
     = 1
  /\ stages_called (trace (generate_content self topic platform))
     = firstn (position s) pipeline.
Proof.
  run_cases; intros Hin Hfalse; event_of Hin;
    try congruence; repeat split.
Qed.

(** X5.  How a run threads its data: the script stage is given the facts
    of the research output, the voice and the visual stage the script of
    the script output, and the editor the image paths of the visual output
    and the audio path of the voice output. *)
Theorem data_flow (self : t) (topic platform : string) :
  let events := trace (generate_content self topic platform) in
  (forall input log back,
      In (Called script input log back) events ->
      exists rin rlog given,
        In (Called research rin rlog (Return given)) events
        /\ subscript given "facts" = getitem input "facts")
  /\ (forall input log back,
         In (Called voice input log back) events ->
         exists sin slog given,
           In (Called script sin slog (Return given)) events
           /\ subscript given "script" = getitem input "script")
  /\ (forall input log back,
         In (Called visual input log back) events ->
         exists sin slog given,
           In (Called script sin slog (Return given)) events
           /\ subscript given "script" = getitem input "script")
  /\ (forall input log back,
         In (Called editor input log back) events ->
         exists vin vlog images ain alog audio,
           In (Called visual vin vlog (Return images)) events
           /\ subscript images "image_paths" = getitem input "image_paths"
           /\ In (Called voice ain alog (Return audio)) events
           /\ subscript audio "audio_path" = getitem input "audio_path").
Proof.
  cbv zeta. run_cases; (split; [| split; [| split]]);
    intros input log' back' Hin; event_of Hin;
    first [ eexists _, _, _; (split; [cbn; eauto 6 | assumption])
          | eexists _, _, _, _, _, _;
            (split; [cbn; eauto 6
                    | split; [assumption
                             | split; [cbn; eauto 6 | assumption]]]) ].
Qed.

End PipelineRuns.

Lemma unknown_platform_witness :
  @ContentGenerator.generate_content Sample.env Sample.generator
    "Ancient Egyptian Pyramids" "myspace"
  = ([ContentGenerator.Printed "Error generating content: 'myspace'"],
     Return PyNone)
  /\ @ContentGenerator.generate_content Sample.env Sample.generator
       "Ancient Egyptian Pyramids" "it's"
     = ([ContentGenerator.Printed
           ("Error generating content: "
              ++ String quotation_mark ("it's" ++ String quotation_mark ""))],
        Return PyNone).
Proof.
  split.
  - apply (proj1 (proj2 (@unknown_platform Sample.env Sample.generator
                           "Ancient Egyptian Pyramids" "myspace"
                           [("youtube_shorts",
                             PyDict [ ("style", PyStr "educational, engaging");
                                      ("max_duration", PyInt 60);
                                      ("aspect_ratio", PyStr "9:16") ])]
                           eq_refl eq_refl))).
    reflexivity.
  - apply (proj2 (proj2 (@unknown_platform Sample.env Sample.generator
                           "Ancient Egyptian Pyramids" "it's"
                           [("youtube_shorts",
                             PyDict [ ("style", PyStr "educational, engaging");
                                      ("max_duration", PyInt 60);
                                      ("aspect_ratio", PyStr "9:16") ])]
                           eq_refl eq_refl))).
    reflexivity.
Defined.

Lemma success_needs_every_stage_witness :
  stages_called
    (trace (@ContentGenerator.generate_content Sample.env Sample.generator
              "Ancient Egyptian Pyramids" "youtube_shorts"))
  = pipeline.
Proof.
  eapply (@success_needs_every_stage Sample.env Sample.generator
            "Ancient Egyptian Pyramids" "youtube_shorts");
    [reflexivity | discriminate].
Defined.

Lemma falsy_stage_aborts_witness :
  result (@ContentGenerator.generate_content Sample.env
            Sample.generator_without_research
            "Ancient Egyptian Pyramids" "youtube_shorts") = Return PyNone.
Proof.
  eapply (@falsy_stage_aborts Sample.env Sample.generator_without_research
            "Ancient Egyptian Pyramids" "youtube_shorts"
            ContentGenerator.research);
    [left; reflexivity | reflexivity].
Defined.


(** ** Lines of text: [split] and [join] *)

Section Lines.

(** The string has no line feed. *)
Fixpoint one_line (s : string) : bool :=
  match s with
  | EmptyString => true
  | String c s' => negb (Ascii.eqb c LF) && one_line s'
  end.

Lemma split_one_line (s : string) :
  one_line s = true -> split LF s = [s].
Proof.
  induction s as [|c s IH]; simpl; [reflexivity |].
  intros Hs. apply andb_true_iff in Hs. destruct Hs as [Hc Hs].
  apply negb_true_iff in Hc. rewrite Hc, (IH Hs). reflexivity.
Qed.

Lemma split_line_feed (s rest : string) :
  one_line s = true ->
  split LF (s ++ String LF rest) = s :: split LF rest.
Proof.
  induction s as [|c s IH]; simpl.
  - intros _. reflexivity.
  - intros Hs. apply andb_true_iff in Hs. destruct Hs as [Hc Hs].
    apply negb_true_iff in Hc. rewrite Hc, (IH Hs). reflexivity.
Qed.

(** Splitting at line feeds undoes joining with line feeds. *)
Lemma split_join (lines : list string) :
  lines <> [] ->
  forallb one_line lines = true ->
  split LF (join nl lines) = lines.
Proof.
  induction lines as [|l lines IH]; [congruence |].
  intros _ Hall. simpl in Hall. apply andb_true_iff in Hall.
  destruct Hall as [Hl Hall].
  destruct lines as [|l' lines].
  - simpl. apply split_one_line. exact Hl.
  - change (join nl (l :: l' :: lines))
      with (l ++ String LF (join nl (l' :: lines))).
    rewrite split_line_feed by exact Hl.
    rewrite IH; [reflexivity | discriminate | exact Hall].
Qed.

Lemma fold_left_app_step (A B : Type) (f : A -> B -> A) (l l' : list B)
      (a : A) :
  fold_left f (l ++ l') a = fold_left f l' (fold_left f l a).
Proof. apply fold_left_app. Qed.

(** A text that [rstrip] leaves alone, behind any prefix. *)
Lemma rstrip_append (p s : string) :
  rstrip s = s -> s <> "" -> rstrip (p ++ s) = p ++ s.
Proof.
  intros Hs Hne. induction p as [|c p IH]; simpl; [exact Hs |].
  rewrite IH. destruct (p ++ s) eqn:Hps; [| reflexivity].
  destruct p; simpl in Hps; [congruence | discriminate].
Qed.

End Lines.

(** ** More on [ResearchAgent] *)

Section ResearchRuns.
Context `{Environment}.
Import ResearchAgent.

(** An item as the prompt asks for it: one line of text that does not end
    in white space. *)
Definition item_text (s : string) : bool :=
  one_line s && String.eqb (rstrip s) s && negb (String.eqb s "").

Lemma item_line (s : string) :
  item_text s = true ->
  strip ("- " ++ s) = "- " ++ s /\ one_line ("- " ++ s) = true.
Proof.
  unfold item_text. intros Hs.
  apply andb_true_iff in Hs. destruct Hs as [Hs Hne].
  apply andb_true_iff in Hs. destruct Hs as [Hl Hr].
  apply String.eqb_eq in Hr. apply negb_true_iff, String.eqb_neq in Hne.
  split.
  - unfold strip.
    assert (lstrip ("- " ++ s) = "- " ++ s) as -> by reflexivity.
    apply rstrip_append; assumption.
  - simpl. exact Hl.
Qed.

Lemma research_step_item (st : research) (s : string) :
  item_text s = true ->
  research_step st ("- " ++ s) =
  match current_section st with
  | Some facts_section =>
      {| facts := facts st ++ [s]; sources := sources st;
         current_section := current_section st |}
  | Some sources_section =>
      {| facts := facts st; sources := sources st ++ [s];
         current_section := current_section st |}
  | None => st
  end.
Proof.
  intros Hs. destruct (@item_line s Hs) as [Hstrip _].
  unfold research_step. rewrite Hstrip. simpl.
  destruct s; reflexivity.
Qed.

Lemma research_items (items : list string) (st : research) :
  forallb item_text items = true ->
  fold_left research_step (map (append "- ") items) st =
  match current_section st with
  | Some facts_section =>
      {| facts := facts st ++ items; sources := sources st;
         current_section := current_section st |}
  | Some sources_section =>
      {| facts := facts st; sources := sources st ++ items;
         current_section := current_section st |}
  | None => st
  end.
Proof.
  revert st. induction items as [|s items IH]; intros st Hall.
  - simpl. destruct st as [f s [[|]|]]; simpl; rewrite ?app_nil_r; reflexivity.
  - simpl in Hall. apply andb_true_iff in Hall. destruct Hall as [Hs Hall].
    cbn [map fold_left]. rewrite (@research_step_item st s Hs), (IH _ Hall).
    destruct st as [f s' [[|]|]]; simpl; rewrite <- ?app_assoc; reflexivity.
Qed.

(** The response the prompt asks for. *)
Definition formatted (fs ss : list string) : string :=
  join nl (["FACTS:"] ++ map (append "- ") fs
             ++ [""; "SOURCES:"] ++ map (append "- ") ss).

(** X6.  [_process_research] reads back a response written in the format
    the prompt asks for: the facts and the sources, in order, whatever
    their number. *)
Theorem process_research_formatted (fs ss : list string) :
  forallb item_text fs = true ->
  forallb item_text ss = true ->
  _process_research (formatted fs ss) = (fs, ss).
Proof.
  intros Hf Hs. unfold _process_research, formatted.
  rewrite split_join.
  - rewrite !fold_left_app. cbn [fold_left app].
    change (research_step _ "FACTS:")
      with {| facts := []; sources := [];
              current_section := Some facts_section |}.
    rewrite (@research_items fs _ Hf).
    cbn [current_section facts sources app].
    change (research_step (research_step ?st "") "SOURCES:")
      with {| facts := fs; sources := [];
              current_section := Some sources_section |}.
    rewrite (@research_items ss _ Hs).
    reflexivity.
  - discriminate.
  - rewrite !forallb_app. cbn [forallb one_line].
    assert (forall items, forallb item_text items = true ->
                          forallb one_line (map (append "- ") items) = true)
      as Hlines.
    { induction items as [|s items IH]; intros Hall; [reflexivity |].
      simpl in Hall. apply andb_true_iff in Hall. destruct Hall as [Hi Hall].
      cbn [map forallb]. rewrite (proj2 (@item_line s Hi)), (IH Hall).
      reflexivity. }
    rewrite (Hlines _ Hf), (Hlines _ Hs). reflexivity.
Qed.

(** What [run] returns, when it is an output, is what [process] returned
    and [validate_output] accepted. *)
Lemma run_returns_processed (a : BaseAgent.Agent) (input_data output : dict) :
  result (BaseAgent.run a input_data) = Return (PyDict output) ->
  result (BaseAgent.process a input_data) = Return output
  /\ result (BaseAgent.validate_output a output) = Return true.
Proof.
  rewrite run_result.
  destruct (result (BaseAgent.process a input_data)) as [out|e];
    [| destruct (is_Exception e); discriminate].
  destruct (result (BaseAgent.validate_output a out)) as [[|]|e] eqn:Hvalid;
    try discriminate; [| destruct (is_Exception e); discriminate].
  intros Hout. injection Hout as <-. split; [reflexivity | exact Hvalid].
Qed.

Arguments _process_research : simpl never.
Arguments _construct_research_prompt : simpl never.

(** The output of [process], whenever it returns one. *)
Lemma research_process_output (self : t) (input_data output : dict) :
  result (process self input_data) = Return output ->
  exists topic platform style response,
    lookup "topic" input_data = Some topic
    /\ lookup "platform" input_data = Some platform
    /\ lookup "style" input_data = Some style
    /\ result (_get_research self
                 (_construct_research_prompt topic platform style))
       = Return (PyStr response)
    /\ output =
       [ ("facts", PyList (map PyStr (fst (_process_research response))));
         ("sources", PyList (map PyStr (snd (_process_research response))));
         ("metadata", PyDict [ ("topic", topic); ("platform", platform);
                               ("style", style); ("model", model self) ]) ].
Proof.
  unfold process, getitem.
  destruct (lookup "topic" input_data) as [topic|]; simpl; [| discriminate].
  destruct (lookup "platform" input_data) as [platform|]; simpl;
    [| discriminate].
  destruct (lookup "style" input_data) as [style|]; simpl; [| discriminate].
  destruct (_get_research self (_construct_research_prompt topic platform style))
    as [log [reply|]] eqn:Hreply; simpl; [| discriminate].
  destruct reply as [| | | |response| |]; simpl; try discriminate.
  intros Hout. injection Hout as <-.
  exists topic, platform, style, response.
  rewrite Hreply. repeat split; reflexivity.
Qed.

(** X7.  What [ResearchAgent.run] hands on, when it is not [None], is an
    output with at least one fact, at least as many sources as facts, and
    metadata that repeat the topic, platform and style of the input beside
    the agent's model. *)
Theorem research_run_guarantee (self : t) (input_data output : dict) :
  result (BaseAgent.run (agent self) input_data) = Return (PyDict output) ->
  exists fs ss topic platform style,
    output =
    [ ("facts", PyList (map PyStr fs));
      ("sources", PyList (map PyStr ss));
      ("metadata", PyDict [ ("topic", topic); ("platform", platform);
                            ("style", style); ("model", model self) ]) ]
    /\ fs <> []
    /\ List.length fs <= List.length ss
    /\ lookup "topic" input_data = Some topic
    /\ lookup "platform" input_data = Some platform
    /\ lookup "style" input_data = Some style.
Proof.
  intros Hrun. apply run_returns_processed in Hrun.
  destruct Hrun as [Hprocess Hvalid]. cbn in Hprocess, Hvalid.
  apply research_process_output in Hprocess.
  destruct Hprocess as (topic & platform & style & response
                        & Ht & Hp & Hs & _ & ->).
  set (fs := fst (_process_research response)) in *.
  set (ss := snd (_process_research response)) in *.
  clearbody fs ss.
  exists fs, ss, topic, platform, style.
  rewrite research_validate_result in Hvalid. cbn in Hvalid.
  destruct fs as [|f fs]; [cbn in Hvalid; discriminate Hvalid |].
  destruct ss as [|s ss]; [cbn in Hvalid; discriminate Hvalid |].
  cbn in Hvalid. rewrite !length_map in Hvalid.
  injection Hvalid as Hle. apply negb_true_iff in Hle.
  repeat split; try assumption; try discriminate.
  simpl. destruct (List.length fs) as [|n]; [lia |].
  apply Nat.leb_gt in Hle. lia.
Qed.

(** The records [run] writes at its start and on an exception. *)
Definition research_started (input_data : dict) : log_record :=
  {| logger := "agent.research_agent"; levelname := INFO;
     message := "Starting processing with input: " ++ fmt (PyDict input_data) |}.

Definition research_failed (text : string) (e : exn) : log_record :=
  {| logger := "agent.research_agent"; levelname := ERROR;
     message := text ++ exn_str e |}.

(** X8.  A failure of the provider is absorbed by [ResearchAgent.run] and
    logged twice, by [_get_research] and by [run]; an input without a
    topic never reaches the provider: [run] logs the missing key and
    returns [None]. *)
Theorem research_run_failures (self : t) (input_data : dict) :
  (forall topic platform style e,
      lookup "topic" input_data = Some topic ->
      lookup "platform" input_data = Some platform ->
      lookup "style" input_data = Some style ->
      ollama_generate (model self)
        (_construct_research_prompt topic platform style) = Raise e ->
      BaseAgent.run (agent self) input_data =
      ([ research_started input_data;
         research_failed "Error getting research from Ollama: " e;
         research_failed "Error during processing: " e ],
       Return PyNone))
  /\ (lookup "topic" input_data = None ->
      BaseAgent.run (agent self) input_data =
      ([ research_started input_data;
         research_failed "Error during processing: " (KeyError "topic") ],
       Return PyNone)).
Proof.
  split.
  - intros topic platform style e Ht Hp Hs He.
    pose proof (@ollama_generate_fails _ _ _ e He) as Hcaught.
    unfold BaseAgent.run, agent, process, _get_research, getitem. cbn.
    rewrite Ht. cbn. rewrite Hp. cbn. rewrite Hs. cbn. rewrite He.
    cbn. rewrite Hcaught. cbn. rewrite Hcaught. reflexivity.
  - intros Ht.
    unfold BaseAgent.run, agent, process, getitem. cbn.
    rewrite Ht. reflexivity.
Qed.

(** [sub] occurs in [s]. *)
Definition occurs (sub s : string) : Prop :=
  exists before after, s = before ++ sub ++ after.

Lemma occurs_later (sub s before : string) :
  occurs sub s -> occurs sub (before ++ s).
Proof.
  intros (b & a & ->). exists (before ++ b), a.
  clear. induction before as [|c before IH]; simpl; [reflexivity |].
  rewrite IH. reflexivity.
Qed.

Lemma occurs_head (sub after : string) : occurs sub (sub ++ after).
Proof. exists "", after. reflexivity. Qed.

Lemma occurs_front (sub s after : string) :
  occurs sub s -> occurs sub (s ++ after).
Proof.
  intros (b & a & ->). exists b, (a ++ after).
  clear. induction b as [|c b IH]; simpl.
  - induction sub as [|c sub IH]; simpl; [reflexivity |].
    rewrite IH. reflexivity.
  - rewrite IH. reflexivity.
Qed.

Lemma occurs_same (s : string) : occurs s s.
Proof.
  exists "", "". simpl. induction s as [|c s IH]; simpl; congruence.
Qed.

(** Looks for the place of a text in a string built by [++]. *)
Ltac find_occurrence :=
  first [ apply occurs_same
        | apply occurs_head
        | solve [apply occurs_front; find_occurrence]
        | solve [apply occurs_later; find_occurrence] ].

(** X9.  The research prompt names the topic, the platform and the style
    it is built from, and shows the two headers [_process_research] looks
    for. *)
Theorem research_prompt_contents (topic platform style : string) :
  let prompt :=
    _construct_research_prompt (PyStr topic) (PyStr platform) (PyStr style) in
  occurs topic prompt /\ occurs platform prompt /\ occurs style prompt
  /\ occurs "FACTS:" prompt /\ occurs "SOURCES:" prompt.
Proof.
  unfold _construct_research_prompt, template.
  cbn [map String.concat fmt].
  repeat split; find_occurrence.
Qed.

End ResearchRuns.

Lemma process_research_formatted_witness :
  ResearchAgent._process_research
    (formatted ["The Great Pyramid was built around 2560 BC";
                "It was the tallest structure for 3800 years"]
               ["Britannica"; "National Geographic"])
  = (["The Great Pyramid was built around 2560 BC";
      "It was the tallest structure for 3800 years"],
     ["Britannica"; "National Geographic"]).
Proof.
  apply process_research_formatted; reflexivity.
Defined.

Lemma research_run_guarantee_witness :
  exists fs ss topic platform style,
    [ ("facts", PyList [PyStr "a"]); ("sources", PyList [PyStr "s"]);
      ("metadata", PyDict [ ("topic", PyStr "Ancient Egyptian Pyramids");
                            ("platform", PyStr "youtube_shorts");
                            ("style", PyStr "educational, engaging");
                            ("model", PyStr "llama2") ]) ]
    = [ ("facts", PyList (map PyStr fs));
        ("sources", PyList (map PyStr ss));
        ("metadata", PyDict [ ("topic", topic); ("platform", platform);
                              ("style", style);
                              ("model", PyStr "llama2") ]) ]
    /\ fs <> []
    /\ List.length fs <= List.length ss
    /\ lookup "topic" [ ("topic", PyStr "Ancient Egyptian Pyramids");
                        ("platform", PyStr "youtube_shorts");
                        ("style", PyStr "educational, engaging") ]
       = Some topic
    /\ lookup "platform" [ ("topic", PyStr "Ancient Egyptian Pyramids");
                           ("platform", PyStr "youtube_shorts");
                           ("style", PyStr "educational, engaging") ]
       = Some platform
    /\ lookup "style" [ ("topic", PyStr "Ancient Egyptian Pyramids");
                        ("platform", PyStr "youtube_shorts");
                        ("style", PyStr "educational, engaging") ]
       = Some style.
Proof.
  apply (@research_run_guarantee Sample.env
           {| ResearchAgent.model := PyStr "llama2";
              ResearchAgent.max_tokens := PyInt 2000;
              ResearchAgent.temperature := PyFloat 0.5 |}
           [ ("topic", PyStr "Ancient Egyptian Pyramids");
             ("platform", PyStr "youtube_shorts");
             ("style", PyStr "educational, engaging") ]).
  reflexivity.
Defined.

Lemma research_run_failures_witness :
  @BaseAgent.run Sample.env
    (@ResearchAgent.agent Sample.env
       {| ResearchAgent.model := PyStr "llama2";
          ResearchAgent.max_tokens := PyInt 2000;
          ResearchAgent.temperature := PyFloat 0.5 |})
    [ ("platform", PyStr "youtube_shorts") ]
  = ([ @research_started Sample.env [ ("platform", PyStr "youtube_shorts") ];
       research_failed "Error during processing: " (KeyError "topic") ],
     Return PyNone).
Proof.
  apply (@research_run_failures Sample.env). reflexivity.
Defined.


(** ** More on [ScriptAgent] *)

Section ScriptRuns.
Context `{Environment}.
Import ScriptAgent.

(** What the lines of a section contribute: stripped, the blank ones
    dropped. *)
Definition content (lines : list string) : list string :=
  filter (fun line => negb (String.eqb line "")) (map strip lines).

Lemma script_step_content (st : script) (line : string) :
  is_marker line = false ->
  script_step st line =
  {| script_parts := script_parts st;
     current_section := current_section st;
     current_content := current_content st ++ content [line] |}.
Proof.
  unfold is_marker, script_step, content. intros Hm.
  apply orb_false_iff in Hm. destruct Hm as [Hm Hcta].
  apply orb_false_iff in Hm. destruct Hm as [Hhook Hmain].
  rewrite Hhook, Hmain, Hcta. simpl.
  destruct (String.eqb (strip line) ""); simpl.
  - rewrite app_nil_r. destruct st; reflexivity.
  - reflexivity.
Qed.

Lemma script_fold_content (lines : list string) (st : script) :
  forallb (fun line => negb (is_marker line)) lines = true ->
  fold_left script_step lines st =
  {| script_parts := script_parts st;
     current_section := current_section st;
     current_content := current_content st ++ content lines |}.
Proof.
  revert st. induction lines as [|line lines IH]; intros st Hall.
  - simpl. rewrite app_nil_r. destruct st; reflexivity.
  - simpl in Hall. apply andb_true_iff in Hall. destruct Hall as [Hl Hall].
    apply negb_true_iff in Hl.
    cbn [fold_left]. rewrite (@script_step_content st line Hl), (IH _ Hall).
    cbn [script_parts current_section current_content].
    rewrite <- app_assoc. f_equal.
    unfold content. cbn [map filter].
    destruct (negb (String.eqb (strip line) "")); reflexivity.
Qed.

(** A marker line opens its section: what was collected goes to the
    section open so far, if any. *)
Lemma script_step_marker (st : script) (line key : string) :
  (line, key) = ("HOOK:", "hook")
  \/ (line, key) = ("MAIN CONTENT:", "main_content")
  \/ (line, key) = ("CALL TO ACTION:", "call_to_action") ->
  script_step st line =
  {| script_parts := flush st;
     current_section := Some key;
     current_content := [] |}.
Proof.
  intros [Hk | [Hk | Hk]]; injection Hk as -> ->; reflexivity.
Qed.

(** A line of a section: one line of text, no marker. *)
Definition section_line (line : string) : bool :=
  one_line line && negb (is_marker line).

Lemma section_lines (lines : list string) :
  forallb section_line lines = true ->
  forallb one_line lines = true
  /\ forallb (fun line => negb (is_marker line)) lines = true.
Proof.
  induction lines as [|line lines IH]; intros Hall; [split; reflexivity |].
  simpl in Hall. apply andb_true_iff in Hall. destruct Hall as [Hl Hall].
  apply andb_true_iff in Hl. destruct Hl as [Hone Hmark].
  destruct (IH Hall) as [Hones Hmarks].
  cbn [forallb]. rewrite Hone, Hmark, Hones, Hmarks. split; reflexivity.
Qed.

(** X10.  [_process_script] reads the three sections of a response laid
    out as the prompt asks: text before the first marker is dropped, the
    lines of each section are stripped, the blank ones left out, and the
    rest joined by line feeds. *)
Theorem process_script_sections (preamble hook main cta : list string) :
  forallb section_line preamble = true ->
  forallb section_line hook = true ->
  forallb section_line main = true ->
  forallb section_line cta = true ->
  _process_script
    (join nl (preamble ++ ["HOOK:"] ++ hook ++ ["MAIN CONTENT:"] ++ main
                ++ ["CALL TO ACTION:"] ++ cta))
  = [ ("hook", PyStr (join nl (content hook)));
      ("main_content", PyStr (join nl (content main)));
      ("call_to_action", PyStr (join nl (content cta))) ].
Proof.
  intros Hp Hh Hm Hc.
  apply section_lines in Hp, Hh, Hm, Hc.
  destruct Hp as [Hp1 Hp2], Hh as [Hh1 Hh2], Hm as [Hm1 Hm2],
           Hc as [Hc1 Hc2].
  unfold _process_script.
  rewrite split_join.
  - rewrite fold_left_app, (@script_fold_content preamble _ Hp2).
    cbn [app fold_left script_parts current_section current_content].
    rewrite (script_step_marker _ (or_introl eq_refl)).
    rewrite fold_left_app, (@script_fold_content hook _ Hh2).
    cbn [app fold_left script_parts current_section current_content].
    rewrite (script_step_marker _ (or_intror (or_introl eq_refl))).
    rewrite fold_left_app, (@script_fold_content main _ Hm2).
    cbn [app fold_left script_parts current_section current_content].
    rewrite (script_step_marker _ (or_intror (or_intror eq_refl))).
    rewrite (@script_fold_content cta _ Hc2).
    reflexivity.
  - destruct preamble; discriminate.
  - rewrite !forallb_app. cbn [forallb one_line].
    rewrite Hp1, Hh1, Hm1, Hc1. reflexivity.
Qed.

(** The three parts, each a text. *)
Definition parts_of (hook main cta : string) : dict :=
  [ ("hook", PyStr hook); ("main_content", PyStr main);
    ("call_to_action", PyStr cta) ].

(** The loop state keeps the three parts, and the open section is one of
    them. *)
Definition well_formed (st : script) : Prop :=
  (exists hook main cta, script_parts st = parts_of hook main cta)
  /\ (current_section st = None
      \/ current_section st = Some "hook"
      \/ current_section st = Some "main_content"
      \/ current_section st = Some "call_to_action").

Lemma flush_parts (st : script) :
  well_formed st -> exists hook main cta, flush st = parts_of hook main cta.
Proof.
  intros [(hook & main & cta & Hparts) Hsection]. unfold flush.
  destruct Hsection as [-> | [-> | [-> | ->]]]; rewrite ?Hparts;
    cbn; unfold parts_of; eauto.
Qed.

Lemma script_step_well_formed (st : script) (line : string) :
  well_formed st -> well_formed (script_step st line).
Proof.
  intros Hst. pose proof (flush_parts Hst) as Hflush.
  unfold script_step.
  destruct (String.eqb (strip line) ""); [exact Hst |].
  destruct (String.eqb (strip line) "HOOK:");
    [split; [exact Hflush | cbn; auto] |].
  destruct (String.eqb (strip line) "MAIN CONTENT:");
    [split; [exact Hflush | cbn; auto] |].
  destruct (String.eqb (strip line) "CALL TO ACTION:");
    [split; [exact Hflush | cbn; auto] |].
  exact Hst.
Qed.

Lemma script_fold_well_formed (lines : list string) (st : script) :
  well_formed st -> well_formed (fold_left script_step lines st).
Proof.
  revert st. induction lines as [|line lines IH]; intros st Hst; simpl;
    [exact Hst |].
  apply IH, script_step_well_formed, Hst.
Qed.

(** Whatever the response, [_process_script] returns the three parts, each
    a text. *)
Lemma process_script_parts (response : string) :
  exists hook main cta, _process_script response = parts_of hook main cta.
Proof.
  unfold _process_script. apply flush_parts, script_fold_well_formed.
  split; [exists "", "", ""; reflexivity | left; reflexivity].
Qed.

Arguments _process_script : simpl never.
Arguments _construct_script_prompt : simpl never.
Arguments _get_script : simpl never.

(** The output of [process], whenever it returns one. *)
Lemma script_process_output (self : t) (input_data output : dict) :
  result (process self input_data) = Return output ->
  exists facts platform style duration text hook cta,
    lookup "facts" input_data = Some facts
    /\ lookup "platform" input_data = Some platform
    /\ lookup "style" input_data = Some style
    /\ lookup "duration" input_data = Some duration
    /\ output =
       [ ("script", PyStr text); ("hook", PyStr hook);
         ("call_to_action", PyStr cta);
         ("metadata", PyDict [ ("platform", platform); ("style", style);
                               ("duration", duration);
                               ("model", model self) ]) ].
Proof.
  unfold process, getitem.
  destruct (lookup "facts" input_data) as [facts|]; cbn; [| discriminate].
  destruct (lookup "platform" input_data) as [platform|]; cbn;
    [| discriminate].
  destruct (lookup "style" input_data) as [style|]; cbn; [| discriminate].
  destruct (lookup "duration" input_data) as [duration|]; cbn;
    [| discriminate].
  destruct (_construct_script_prompt facts platform style duration)
    as [prompt|]; cbn; [| discriminate].
  destruct (_get_script self prompt) as [log [reply|]]; cbn;
    [| discriminate].
  destruct reply as [| | | |response| |]; cbn; try discriminate.
  destruct (process_script_parts response) as (hook & main & cta & ->).
  cbn. intros Hout. injection Hout as <-.
  exists facts, platform, style, duration, main, hook, cta.
  repeat split; reflexivity.
Qed.

(** X11.  What [ScriptAgent.run] hands on, when it is not [None], is an
    output with a script of 50 to 300 words, a non-empty hook, a non-empty
    call to action, all three texts, and metadata that repeat the
    platform, style and duration of the input beside the agent's model. *)
Theorem script_run_guarantee (self : t) (input_data output : dict) :
  result (BaseAgent.run (agent self) input_data) = Return (PyDict output) ->
  exists facts platform style duration text hook cta,
    output =
    [ ("script", PyStr text); ("hook", PyStr hook);
      ("call_to_action", PyStr cta);
      ("metadata", PyDict [ ("platform", platform); ("style", style);
                            ("duration", duration); ("model", model self) ]) ]
    /\ 50 <= word_count text <= 300
    /\ hook <> "" /\ cta <> ""
    /\ lookup "facts" input_data = Some facts
    /\ lookup "platform" input_data = Some platform
    /\ lookup "style" input_data = Some style
    /\ lookup "duration" input_data = Some duration.
Proof.
  intros Hrun. apply run_returns_processed in Hrun.
  destruct Hrun as [Hprocess Hvalid]. cbn in Hprocess, Hvalid.
  apply script_process_output in Hprocess.
  destruct Hprocess as (facts & platform & style & duration & text & hook
                        & cta & Hf & Hp & Hs & Hd & ->).
  exists facts, platform, style, duration, text, hook, cta.
  rewrite script_validate_result in Hvalid.
  simpl lookup in Hvalid. cbn [truthy] in Hvalid.
  destruct (String.eqb_spec text "") as [->|_]; [discriminate Hvalid |].
  destruct (String.eqb_spec hook "") as [->|Hhook]; [discriminate Hvalid |].
  destruct (String.eqb_spec cta "") as [->|Hcta]; [discriminate Hvalid |].
  cbn [negb orb as_str bind ret Monad_outcome] in Hvalid.
  injection Hvalid as Hwords.
  apply negb_true_iff, orb_false_iff in Hwords.
  destruct Hwords as [Hlo Hhi].
  apply Nat.ltb_ge in Hlo, Hhi.
  repeat split; assumption.
Qed.

Lemma occurs_join (x sep : string) (l : list string) :
  In x l -> occurs x (join sep l).
Proof.
  induction l as [|y l IH]; [contradiction |].
  intros [-> | Hin].
  - destruct l; [apply occurs_same | apply occurs_head].
  - destruct l as [|z l]; [contradiction |].
    change (join sep (y :: z :: l)) with (y ++ sep ++ join sep (z :: l)).
    apply occurs_later, occurs_later, IH, Hin.
Qed.

Ltac find_text :=
  first [ apply occurs_same
        | apply occurs_head
        | assumption
        | solve [apply occurs_front; find_text]
        | solve [apply occurs_later; find_text] ].

(** X12.  The script prompt lists every fact it is given as a line
    "- fact", names the platform and the style, and shows the three
    markers [_process_script] looks for; facts that cannot be iterated
    over raise a [TypeError]. *)
Theorem script_prompt_contents (facts : list string)
        (platform style : string) (duration : value) :
  (exists prompt,
      _construct_script_prompt (PyList (map PyStr facts)) (PyStr platform)
        (PyStr style) duration = Return prompt
      /\ (forall fact, In fact facts -> occurs ("- " ++ fact) prompt)
      /\ occurs platform prompt /\ occurs style prompt
      /\ occurs "HOOK:" prompt /\ occurs "MAIN CONTENT:" prompt
      /\ occurs "CALL TO ACTION:" prompt)
  /\ (forall other e,
         iter other = Raise e ->
         _construct_script_prompt other (PyStr platform) (PyStr style)
           duration = Raise e).
Proof.
  split.
  - eexists. split; [reflexivity |].
    unfold template. cbn [map String.concat fmt].
    repeat split; try find_text.
    intros fact Hin.
    assert (occurs ("- " ++ fact)
              (join nl (map (fun fact => "- " ++ fmt fact)
                            (map PyStr facts)))) as Hfact.
    { apply occurs_join. rewrite map_map. cbn [fmt].
      apply (in_map (fun fact => "- " ++ fact)). exact Hin. }
    find_text.
  - intros other e He. unfold _construct_script_prompt. rewrite He.
    reflexivity.
Qed.

End ScriptRuns.

Lemma process_script_sections_witness :
  ScriptAgent._process_script
    (join nl (["Sure, here is the script:"] ++ ["HOOK:"]
                ++ ["  Did you know?  "; ""] ++ ["MAIN CONTENT:"]
                ++ ["The pyramids are old."; "They are in Egypt."; ""]
                ++ ["CALL TO ACTION:"] ++ ["Follow for more"]))
  = [ ("hook", PyStr "Did you know?");
      ("main_content",
       PyStr ("The pyramids are old." ++ nl ++ "They are in Egypt."));
      ("call_to_action", PyStr "Follow for more") ].
Proof.
  apply (@process_script_sections
           ["Sure, here is the script:"] ["  Did you know?  "; ""]
           ["The pyramids are old."; "They are in Egypt."; ""]
           ["Follow for more"]);
    reflexivity.
Defined.

(** A world whose text provider answers in the format asked for. *)
Definition scripted_env : Environment :=
  {| repr := fun _ => "<object>";
     ollama_generate := fun _ _ => Raise (OSError "connection refused");
     openai_ChatCompletion_acreate := fun _ _ _ _ _ =>
       Return (PyStr (join nl [ "HOOK:"; "Did you know?";
                                "MAIN CONTENT:"; Sample.words 60;
                                "CALL TO ACTION:"; "Follow for more" ]));
     openai_Image_acreate_save := fun _ _ _ => Return tt;
     os_path_exists := fun _ => Return true;
     Image_open := fun _ => Return tt;
     ImageClip_read := fun _ => Return tt;
     VideoFileClip_duration := fun _ => Return (PyFloat 60);
     VideoFileClip_close := fun _ => Return tt;
     write_videofile := fun _ _ _ => Return tt;
     ollama_generate_fails := fun _ _ => OSError_fails _;
     openai_ChatCompletion_acreate_fails := fun _ _ _ _ _ => Return_fails _;
     openai_Image_acreate_save_fails := fun _ _ _ => Return_fails _;
     os_path_exists_fails := fun _ => Return_fails _;
     Image_open_fails := fun _ => Return_fails _;
     ImageClip_read_fails := fun _ => Return_fails _;
     VideoFileClip_duration_fails := fun _ => Return_fails _;
     VideoFileClip_close_fails := fun _ => Return_fails _;
     write_videofile_fails := fun _ _ _ => Return_fails _ |}.

Lemma script_run_guarantee_witness :
  exists facts platform style duration text hook cta,
    [ ("script", PyStr (Sample.words 60)); ("hook", PyStr "Did you know?");
      ("call_to_action", PyStr "Follow for more");
      ("metadata", PyDict [ ("platform", PyStr "tiktok");
                            ("style", PyStr "engaging");
                            ("duration", PyInt 60);
                            ("model", PyStr "gpt-4") ]) ]
    = [ ("script", PyStr text); ("hook", PyStr hook);
        ("call_to_action", PyStr cta);
        ("metadata", PyDict [ ("platform", platform); ("style", style);
                              ("duration", duration);
                              ("model", PyStr "gpt-4") ]) ]
    /\ 50 <= ScriptAgent.word_count text <= 300
    /\ hook <> "" /\ cta <> ""
    /\ lookup "facts" [ ("facts", PyList [PyStr "The pyramids are old"]);
                        ("platform", PyStr "tiktok");
                        ("style", PyStr "engaging");
                        ("duration", PyInt 60) ] = Some facts
    /\ lookup "platform" [ ("facts", PyList [PyStr "The pyramids are old"]);
                           ("platform", PyStr "tiktok");
                           ("style", PyStr "engaging");
                           ("duration", PyInt 60) ] = Some platform
    /\ lookup "style" [ ("facts", PyList [PyStr "The pyramids are old"]);
                        ("platform", PyStr "tiktok");
                        ("style", PyStr "engaging");
                        ("duration", PyInt 60) ] = Some style
    /\ lookup "duration" [ ("facts", PyList [PyStr "The pyramids are old"]);
                           ("platform", PyStr "tiktok");
                           ("style", PyStr "engaging");
                           ("duration", PyInt 60) ] = Some duration.
Proof.
  apply (@script_run_guarantee scripted_env
           {| ScriptAgent.model := PyStr "gpt-4";
              ScriptAgent.max_tokens := PyInt 1000;
              ScriptAgent.temperature := PyFloat 0.5 |}
           [ ("facts", PyList [PyStr "The pyramids are old"]);
             ("platform", PyStr "tiktok");
             ("style", PyStr "engaging");
             ("duration", PyInt 60) ]).
  vm_compute. reflexivity.
Defined.

Lemma script_prompt_contents_witness :
  @ScriptAgent._construct_script_prompt Sample.env PyNone (PyStr "tiktok")
    (PyStr "engaging") (PyInt 60)
  = Raise (TypeError "object is not iterable").
Proof.
  apply (proj2 (@script_prompt_contents Sample.env [] "tiktok" "engaging"
                  (PyInt 60))).
  reflexivity.
Defined.


(** ** More on [VisualAgent] *)

Section VisualRuns.
Context `{Environment}.
Import VisualAgent.

Lemma append_same_front (a x y : string) : a ++ x = a ++ y -> x = y.
Proof.
  induction a as [|c a IH]; simpl; [auto |].
  intros Heq. injection Heq as Heq. auto.
Qed.

Lemma append_length (x b : string) :
  String.length (x ++ b) = String.length x + String.length b.
Proof.
  induction x as [|c x IH]; simpl; [reflexivity |]. rewrite IH. reflexivity.
Qed.

Lemma append_same_back (b x y : string) : x ++ b = y ++ b -> x = y.
Proof.
  revert y. induction x as [|c x IH]; intros [|d y] Heq; simpl in Heq.
  - reflexivity.
  - apply (f_equal String.length) in Heq. simpl in Heq.
    rewrite append_length in Heq. lia.
  - apply (f_equal String.length) in Heq. simpl in Heq.
    rewrite append_length in Heq. lia.
  - injection Heq as -> Heq. rewrite (IH y Heq). reflexivity.
Qed.

Lemma str_of_nat_inj (i j : nat) : str_of_nat i = str_of_nat j -> i = j.
Proof.
  unfold str_of_nat. intros Heq.
  apply (f_equal NilEmpty.uint_of_string) in Heq.
  rewrite !NilEmpty.usu in Heq. injection Heq as Heq.
  apply (f_equal Nat.of_uint) in Heq.
  rewrite !Unsigned.of_to in Heq. exact Heq.
Qed.

(** The file of the image numbered [i]. *)
Definition image_file (platform : value) (i : nat) : string :=
  "output/images" ++ "/" ++ fmt platform ++ "_" ++ ("image_" ++ str_of_nat i)
    ++ ".png".

Lemma image_file_inj (platform : value) (i j : nat) :
  image_file platform i = image_file platform j -> i = j.
Proof.
  unfold image_file. intros Heq.
  apply (append_same_front "output/images") in Heq.
  apply (append_same_front "/") in Heq.
  apply append_same_front in Heq.
  apply (append_same_front "_") in Heq.
  apply append_same_back in Heq.
  apply (append_same_front "image_") in Heq.
  apply str_of_nat_inj. exact Heq.
Qed.

Lemma NoDup_map_injective (A B : Type) (f : A -> B) (l : list A) :
  (forall x y, f x = f y -> x = y) -> NoDup l -> NoDup (map f l).
Proof.
  intros Hinj. induction 1 as [|a l Hnotin _ IH]; simpl; constructor;
    [| exact IH].
  intros Hin. apply in_map_iff in Hin. destruct Hin as (b & Heq & Hb).
  apply Hinj in Heq. subst b. contradiction.
Qed.

Lemma image_files_distinct (platform : value) (n : nat) :
  NoDup (map (image_file platform) (seq 0 n)).
Proof.
  apply NoDup_map_injective; [| apply seq_NoDup].
  intros i j. apply image_file_inj.
Qed.

(** The loop of [process] when every image is generated. *)
Lemma images_generated (platform aspect_ratio : value) (size : string)
      (prompts : list string) (start : nat) :
  _get_image_size aspect_ratio = Return size ->
  (forall prompt file, openai_Image_acreate_save prompt size file = Return tt) ->
  for_each (fun ip : nat * string =>
              let (i, prompt) := ip in
              _generate_image prompt platform aspect_ratio
                              ("image_" ++ str_of_nat i))
           (combine (seq start (List.length prompts)) prompts)
  = ([], Return (map (image_file platform)
                     (seq start (List.length prompts)))).
Proof.
  intros Hsize Hsave. revert start.
  induction prompts as [|prompt prompts IH]; intros start; [reflexivity |].
  cbn [List.length seq combine for_each].
  unfold _generate_image at 1. rewrite Hsize. cbn.
  rewrite Hsave. cbn. rewrite IH. reflexivity.
Qed.

Lemma image_prompts_count (self : t) (text : string) (style : value) :
  List.length (_generate_image_prompts self text style) =
  List.length (sentences text).
Proof.
  rewrite image_prompts_map. apply length_map.
Qed.

(** X13.  When the image provider answers every request, [process]
    returns one image path per sentence of the script, the path of the
    image numbered [i] being output/images/<platform>_image_<i>.png;
    these paths are pairwise distinct, and nothing is logged. *)
Theorem visual_process_paths (self : t) (input_data : dict) (text size : string)
        (platform style aspect_ratio : value) :
  lookup "script" input_data = Some (PyStr text) ->
  lookup "platform" input_data = Some platform ->
  lookup "style" input_data = Some style ->
  lookup "aspect_ratio" input_data = Some aspect_ratio ->
  _get_image_size aspect_ratio = Return size ->
  (forall prompt file, openai_Image_acreate_save prompt size file = Return tt) ->
  let files := map (image_file platform)
                   (seq 0 (List.length (sentences text))) in
  process self input_data =
  ([], Return [ ("image_paths", PyList (map PyStr files));
                ("metadata", PyDict [ ("platform", platform);
                                      ("style", style);
                                      ("aspect_ratio", aspect_ratio);
                                      ("provider", provider self) ]) ])
  /\ NoDup files.
Proof.
  intros Hscript Hplatform Hstyle Hratio Hsize Hsave files.
  split; [| apply image_files_distinct].
  unfold process, getitem.
  rewrite Hscript, Hplatform, Hstyle, Hratio. cbn.
  rewrite (images_generated platform aspect_ratio _ 0 Hsize Hsave).
  rewrite image_prompts_count. reflexivity.
Qed.

(** X14.  A script without a sentence (empty, or periods and white space
    only) yields no image: [VisualAgent.run] returns [None], whatever the
    rest of the input. *)
Theorem visual_run_no_sentences (self : t) (input_data : dict)
        (text : string) :
  lookup "script" input_data = Some (PyStr text) ->
  sentences text = [] ->
  result (BaseAgent.run (agent self) input_data) = Return PyNone.
Proof.
  intros Hscript Hnone. rewrite run_result. cbn.
  unfold process, getitem. rewrite Hscript. cbn.
  destruct (lookup "platform" input_data) as [platform|]; cbn;
    [| reflexivity].
  destruct (lookup "style" input_data) as [style|]; cbn; [| reflexivity].
  destruct (lookup "aspect_ratio" input_data) as [aspect_ratio|]; cbn;
    [| reflexivity].
  rewrite image_prompts_map, Hnone. reflexivity.
Qed.

(** An image that is there and can be opened. *)
Definition usable (image_path : value) : Prop :=
  os_path_exists image_path = Return true
  /\ Image_open image_path = Return tt.

Lemma check_images_true (image_paths : list value) :
  result (check_images image_paths) = Return true <->
  Forall usable image_paths.
Proof.
  induction image_paths as [|p ps IH]; cbn.
  - split; [constructor | reflexivity].
  - destruct (os_path_exists p) as [[|]|e] eqn:Hexists; cbn.
    + destruct (Image_open p) as [[]|e] eqn:Hopen; cbn.
      * destruct (check_images ps) as [log r]. cbn in *.
        rewrite IH. split.
        -- intros Hps. constructor; [split; assumption | exact Hps].
        -- intros Hall. inversion Hall. assumption.
      * rewrite (@Image_open_fails _ p e Hopen). cbn.
        split; [discriminate |]. intros Hall.
        inversion Hall as [|? ? [_ Ho]]. congruence.
    + split; [discriminate |]. intros Hall.
      inversion Hall as [|? ? [He _]]. congruence.
    + split; [discriminate |]. intros Hall.
      inversion Hall as [|? ? [He _]]. congruence.
Qed.

Arguments check_images : simpl never.

(** X15.  [VisualAgent.validate_output] accepts an output with a list of
    image paths and metadata exactly when the list is not empty and every
    image in it exists and can be opened. *)
Theorem visual_validate_iff (self : t) (output : dict)
        (image_paths : list value) (metadata : value) :
  lookup "image_paths" output = Some (PyList image_paths) ->
  lookup "metadata" output = Some metadata ->
  (result (validate_output self output) = Return true <->
   image_paths <> [] /\ Forall usable image_paths).
Proof.
  intros Hpaths Hmeta.
  unfold validate_output, has_keys, contains, getitem.
  cbn [forallb]. rewrite Hpaths, Hmeta. cbn.
  destruct image_paths as [|p ps]; cbn.
  - split; [discriminate | intros [Hne _]; congruence].
  - rewrite <- (check_images_true (p :: ps)).
    destruct (check_images (p :: ps)) as [log r]. cbn.
    split; [intros Hr; split; [discriminate | exact Hr] | intros [_ Hr]; exact Hr].
Qed.

Arguments _generate_image_prompts : simpl never.

(** X16.  [process] stops at the first image the provider fails on: with
    a provider that is down and a script of at least one sentence,
    [VisualAgent.run] returns [None] after a single attempt, logged by
    [_generate_image] and by [run]. *)
Theorem visual_run_provider_down (self : t) (input_data : dict)
        (text size : string) (platform style aspect_ratio : value) (e : exn) :
  lookup "script" input_data = Some (PyStr text) ->
  lookup "platform" input_data = Some platform ->
  lookup "style" input_data = Some style ->
  lookup "aspect_ratio" input_data = Some aspect_ratio ->
  _get_image_size aspect_ratio = Return size ->
  sentences text <> [] ->
  (forall prompt file, openai_Image_acreate_save prompt size file = Raise e) ->
  BaseAgent.run (agent self) input_data =
  ([ {| logger := "agent.visual_agent"; levelname := INFO;
        message := "Starting processing with input: "
                     ++ fmt (PyDict input_data) |};
     {| logger := "agent.visual_agent"; levelname := ERROR;
        message := "Error generating image: " ++ exn_str e |};
     {| logger := "agent.visual_agent"; levelname := ERROR;
        message := "Error during processing: " ++ exn_str e |} ],
   Return PyNone).
Proof.
  intros Hscript Hplatform Hstyle Hratio Hsize Hsome Hdown.
  pose proof (@openai_Image_acreate_save_fails _ _ _ _ e (Hdown "" ""))
    as Hcaught.
  unfold BaseAgent.run, agent, process, getitem. cbn.
  rewrite Hscript, Hplatform, Hstyle, Hratio. cbn.
  pose proof (image_prompts_count self text style) as Hcount.
  destruct (_generate_image_prompts self text style) as [|prompt prompts].
  - destruct (sentences text); [congruence | discriminate Hcount].
  - cbn [List.length seq combine for_each]. unfold _generate_image.
    rewrite Hsize. cbn. rewrite Hdown. cbn. rewrite Hcaught. cbn.
    rewrite Hcaught. reflexivity.
Qed.

End VisualRuns.

Lemma visual_process_paths_witness :
  @VisualAgent.process Sample.env
    {| VisualAgent.provider := PyStr "dall-e-3";
       VisualAgent.style := PyStr "realistic";
       VisualAgent.image_quality := PyStr "high" |}
    [ ("script", PyStr "The pyramids are old. They are in Egypt.");
      ("platform", PyStr "tiktok"); ("style", PyStr "vivid");
      ("aspect_ratio", PyStr "9:16") ]
  = ([], Return [ ("image_paths",
                   PyList [ PyStr "output/images/tiktok_image_0.png";
                            PyStr "output/images/tiktok_image_1.png" ]);
                  ("metadata", PyDict [ ("platform", PyStr "tiktok");
                                        ("style", PyStr "vivid");
                                        ("aspect_ratio", PyStr "9:16");
                                        ("provider", PyStr "dall-e-3") ]) ]).
Proof.
  exact (proj1 (@visual_process_paths Sample.env
                  {| VisualAgent.provider := PyStr "dall-e-3";
                     VisualAgent.style := PyStr "realistic";
                     VisualAgent.image_quality := PyStr "high" |}
                  [ ("script",
                     PyStr "The pyramids are old. They are in Egypt.");
                    ("platform", PyStr "tiktok"); ("style", PyStr "vivid");
                    ("aspect_ratio", PyStr "9:16") ]
                  "The pyramids are old. They are in Egypt." "576x1024"
                  (PyStr "tiktok") (PyStr "vivid") (PyStr "9:16")
                  eq_refl eq_refl eq_refl eq_refl eq_refl
                  (fun _ _ => eq_refl))).
Defined.

Lemma visual_run_no_sentences_witness :
  result (@BaseAgent.run Sample.env
            (@VisualAgent.agent Sample.env
               {| VisualAgent.provider := PyStr "dall-e-3";
                  VisualAgent.style := PyStr "realistic";
                  VisualAgent.image_quality := PyStr "high" |})
            [ ("script", PyStr " ... "); ("platform", PyStr "tiktok");
              ("style", PyStr "vivid"); ("aspect_ratio", PyStr "9:16") ])
  = Return PyNone.
Proof.
  apply (@visual_run_no_sentences Sample.env _ _ " ... "); reflexivity.
Defined.

Lemma visual_validate_iff_witness :
  result (@VisualAgent.validate_output Sample.env
            {| VisualAgent.provider := PyStr "dall-e-3";
               VisualAgent.style := PyStr "realistic";
               VisualAgent.image_quality := PyStr "high" |}
            [ ("image_paths", PyList [PyStr "output/images/a.png"]);
              ("metadata", PyDict []) ])
  = Return true.
Proof.
  apply (@visual_validate_iff Sample.env
           {| VisualAgent.provider := PyStr "dall-e-3";
              VisualAgent.style := PyStr "realistic";
              VisualAgent.image_quality := PyStr "high" |}
           [ ("image_paths", PyList [PyStr "output/images/a.png"]);
             ("metadata", PyDict []) ]
           [PyStr "output/images/a.png"] (PyDict []) eq_refl eq_refl).
  split; [discriminate | repeat constructor].
Defined.

(** A world without an image provider. *)
Definition imageless_env : Environment :=
  {| repr := fun _ => "<object>";
     ollama_generate := fun _ _ => Raise (OSError "connection refused");
     openai_ChatCompletion_acreate := fun _ _ _ _ _ =>
       Raise (OSError "connection refused");
     openai_Image_acreate_save := fun _ _ _ =>
       Raise (OSError "connection refused");
     os_path_exists := fun _ => Return false;
     Image_open := fun _ => Raise (OSError "no such file");
     ImageClip_read := fun _ => Raise (OSError "no such file");
     VideoFileClip_duration := fun _ => Raise (OSError "no such file");
     VideoFileClip_close := fun _ => Return tt;
     write_videofile := fun _ _ _ => Raise (OSError "no such file");
     ollama_generate_fails := fun _ _ => OSError_fails _;
     openai_ChatCompletion_acreate_fails :=
       fun _ _ _ _ _ => OSError_fails _;
     openai_Image_acreate_save_fails := fun _ _ _ => OSError_fails _;
     os_path_exists_fails := fun _ => Return_fails _;
     Image_open_fails := fun _ => OSError_fails _;
     ImageClip_read_fails := fun _ => OSError_fails _;
     VideoFileClip_duration_fails := fun _ => OSError_fails _;
     VideoFileClip_close_fails := fun _ => Return_fails _;
     write_videofile_fails := fun _ _ _ => OSError_fails _ |}.

Lemma visual_run_provider_down_witness :
  result (@BaseAgent.run imageless_env
            (@VisualAgent.agent imageless_env
               {| VisualAgent.provider := PyStr "dall-e-3";
                  VisualAgent.style := PyStr "realistic";
                  VisualAgent.image_quality := PyStr "high" |})
            [ ("script", PyStr "The pyramids are old. They are in Egypt.");
              ("platform", PyStr "tiktok"); ("style", PyStr "vivid");
              ("aspect_ratio", PyStr "9:16") ])
  = Return PyNone.
Proof.
  rewrite (@visual_run_provider_down imageless_env _ _
             "The pyramids are old. They are in Egypt." "576x1024"
             (PyStr "tiktok") (PyStr "vivid") (PyStr "9:16")
             (OSError "connection refused"));
    try reflexivity.
  discriminate.
Defined.


(** ** More on [EditorAgent] *)

Section EditorRuns.
Context `{Environment}.
Import EditorAgent.

Lemma nth_error_update (f : Clip -> Clip) (clips : list Clip) (i j : nat) :
  nth_error (update i f clips) j =
  if Nat.eqb j i then option_map f (nth_error clips j)
  else nth_error clips j.
Proof.
  revert i j. induction clips as [|c clips IH]; intros i j.
  - destruct i, j; simpl; try reflexivity; destruct (Nat.eqb j i); reflexivity.
  - destruct i as [|i], j as [|j]; simpl; try reflexivity. apply IH.
Qed.

Lemma length_update (f : Clip -> Clip) (clips : list Clip) (i : nat) :
  List.length (update i f clips) = List.length clips.
Proof.
  revert i. induction clips as [|c clips IH]; intros [|i]; simpl; auto.
Qed.

(** The clip [c] with the effects [es] added. *)
Definition with_effects (es : list effect) (c : Clip) : Clip :=
  {| source := source c; duration := duration c;
     effects := (effects c ++ es)%list |}.

Lemma with_effect_more (e : effect) (es : list effect) (c : Clip) :
  with_effect e (with_effects es c) = with_effects (es ++ [e])%list c.
Proof.
  unfold with_effect, with_effects. simpl. rewrite app_assoc. reflexivity.
Qed.

Lemma repeat_snoc (A : Type) (a : A) (k : nat) :
  (repeat a k ++ [a])%list = repeat a (S k).
Proof.
  induction k as [|k IH]; simpl; [reflexivity |]. rewrite IH. reflexivity.
Qed.

(** One iteration of the loop for the style "smooth". *)
Definition smooth_step (clips : list Clip) (i : nat) : list Clip :=
  update (i + 1) (with_effect (crossfadein 0.5))
         (update i (with_effect (crossfadein 0.5)) clips).

(** The cross-fades the clip at [i] has after the iterations below [m]. *)
Definition faded (m i : nat) : nat :=
  (if ((0 <? i) && (i <=? m))%nat then 1 else 0)
  + (if (i <? m)%nat then 1 else 0).

Lemma faded_next (m i : nat) :
  faded (S m) i =
  faded m i + (if Nat.eqb i m then 1 else 0)
  + (if Nat.eqb i (m + 1) then 1 else 0).
Proof.
  unfold faded.
  destruct (Nat.ltb_spec 0 i), (Nat.leb_spec i m), (Nat.leb_spec i (S m)),
    (Nat.ltb_spec i m), (Nat.ltb_spec i (S m)), (Nat.eqb_spec i m),
    (Nat.eqb_spec i (m + 1)); simpl; lia.
Qed.

Lemma smooth_fold (clips : list Clip) (m i : nat) (c : Clip) :
  nth_error clips i = Some c ->
  nth_error (fold_left smooth_step (seq 0 m) clips) i =
  Some (with_effects (repeat (crossfadein 0.5) (faded m i)) c).
Proof.
  intros Hc. induction m as [|m IH].
  - simpl. rewrite Hc. unfold faded.
    replace (i <? 0)%nat with false by (symmetry; apply Nat.ltb_ge; lia).
    destruct ((0 <? i) && (i <=? 0))%nat eqn:Hz.
    + apply andb_true_iff in Hz. destruct Hz as [Hz1 Hz2].
      apply Nat.ltb_lt in Hz1. apply Nat.leb_le in Hz2. lia.
    + unfold with_effects. simpl. rewrite app_nil_r. destruct c; reflexivity.
  - rewrite seq_S, fold_left_app. simpl fold_left. unfold smooth_step at 1.
    rewrite !nth_error_update, IH, faded_next. simpl option_map.
    destruct (Nat.eqb_spec i m), (Nat.eqb_spec i (m + 1)); try lia;
      cbn [option_map]; rewrite ?with_effect_more, ?repeat_snoc;
      do 3 f_equal; lia.
Qed.

(** X17.  [_add_transitions] changes the effects of the clips only: their
    number, their sources and their durations stay as they are, whatever
    the transition style. *)
Theorem add_transitions_keeps (self : t) (clips : list Clip) :
  List.length (_add_transitions self clips) = List.length clips
  /\ map source (_add_transitions self clips) = map source clips
  /\ map duration (_add_transitions self clips) = map duration clips.
Proof.
  assert (forall (f g : Clip -> Clip) (steps : list nat) (l : list Clip),
             List.length (fold_left (fun l i => update (i + 1) g (update i f l))
                                    steps l) = List.length l) as Hsmooth_len.
  { intros f g steps. induction steps as [|i steps IH]; intros l; simpl;
      [reflexivity |]. rewrite IH, !length_update. reflexivity. }
  assert (forall (A : Type) (p : Clip -> A) (f : Clip -> Clip) i l,
             (forall c, p (f c) = p c) ->
             map p (update i f l) = map p l) as Hupdate.
  { intros A p f i l Hp. revert i.
    induction l as [|c l IH]; intros [|i]; simpl; try reflexivity.
    - rewrite Hp. reflexivity.
    - rewrite IH. reflexivity. }
  assert (forall (A : Type) (p : Clip -> A) (step : list Clip -> nat -> list Clip)
                 (steps : list nat) (l : list Clip),
             (forall l i, map p (step l i) = map p l) ->
             map p (fold_left step steps l) = map p l) as Hfold.
  { intros A p step steps l Hstep. revert l.
    induction steps as [|i steps IH]; intros l; simpl; [reflexivity |].
    rewrite IH, Hstep. reflexivity. }
  unfold _add_transitions.
  destruct (eq_str (transition_style self) "smooth");
    [| destruct (eq_str (transition_style self) "fade")].
  - split; [| split].
    + rewrite <- (length_map source), Hfold, length_map; [reflexivity |].
      intros l i. rewrite !Hupdate; reflexivity.
    + apply Hfold. intros l i. rewrite !Hupdate; reflexivity.
    + apply Hfold. intros l i. rewrite !Hupdate; reflexivity.
  - split; [| split].
    + rewrite <- (length_map source), Hfold, length_map; [reflexivity |].
      intros l i. rewrite !Hupdate; reflexivity.
    + apply Hfold. intros l i. rewrite !Hupdate; reflexivity.
    + apply Hfold. intros l i. rewrite !Hupdate; reflexivity.
  - repeat split.
Qed.

Lemma fade_fold (f : Clip -> Clip) (clips : list Clip) (m j : nat) :
  nth_error (fold_left (fun l i => update i f l) (seq 0 m) clips) j =
  if (j <? m)%nat then option_map f (nth_error clips j)
  else nth_error clips j.
Proof.
  induction m as [|m IH]; [reflexivity |].
  rewrite seq_S, fold_left_app. simpl fold_left.
  rewrite nth_error_update, IH.
  destruct (Nat.eqb_spec j m), (Nat.ltb_spec j m), (Nat.ltb_spec j (S m));
    try lia; reflexivity.
Qed.

(** X18.  What [_add_transitions] adds.  For the style "smooth" every clip
    gets one cross-fade for each neighbour it has: the first and the last
    clip one, the clips between them two, a single clip none.  For the
    style "fade" every clip gets a fade-in and a fade-out.  For any other
    style the clips are returned as they are. *)
Theorem add_transitions_effects (self : t) (clips : list Clip) :
  (transition_style self = PyStr "smooth" ->
   forall i c,
     nth_error clips i = Some c ->
     nth_error (_add_transitions self clips) i =
     Some (with_effects
             (repeat (crossfadein 0.5)
                     ((if (0 <? i)%nat then 1 else 0)
                      + (if (i + 1 <? List.length clips)%nat then 1 else 0)))
             c))
  /\ (transition_style self = PyStr "fade" ->
      _add_transitions self clips =
      map (with_effects [fadein 0.5; fadeout 0.5]) clips)
  /\ (eq_str (transition_style self) "smooth" = false ->
      eq_str (transition_style self) "fade" = false ->
      _add_transitions self clips = clips).
Proof.
  unfold _add_transitions. split; [| split].
  - intros -> i c Hc. cbn [eq_str String.eqb Ascii.eqb Bool.eqb].
    change (fold_left _ ?steps clips) with (fold_left smooth_step steps clips).
    rewrite (@smooth_fold clips (List.length clips - 1) i c Hc).
    assert (i < List.length clips) as Hi
        by (apply nth_error_Some; congruence).
    unfold faded. do 3 f_equal.
    destruct (Nat.ltb_spec 0 i), (Nat.leb_spec i (List.length clips - 1)),
      (Nat.ltb_spec i (List.length clips - 1)),
      (Nat.ltb_spec (i + 1) (List.length clips)); simpl; lia.
  - intros ->. cbn [eq_str String.eqb Ascii.eqb Bool.eqb].
    apply nth_error_ext. intros j.
    rewrite (fade_fold (fun c => with_effect (fadeout 0.5)
                                   (with_effect (fadein 0.5) c))).
    rewrite nth_error_map.
    destruct (Nat.ltb_spec j (List.length clips)) as [Hj|Hj].
    + destruct (nth_error clips j) as [c|]; [| reflexivity].
      unfold with_effect, with_effects. simpl. rewrite <- app_assoc.
      reflexivity.
    + apply nth_error_None in Hj. rewrite Hj. reflexivity.
  - intros -> ->. reflexivity.
Qed.

(** X19.  [EditorAgent.validate_output] never lets an exception of the
    video reader out: for an output with a video path and metadata whose
    path [os.path.exists] can test, it returns [True] exactly when the
    file exists, the video opens with a duration above zero and closes,
    and [False] otherwise. *)
Theorem editor_validate_iff (self : t) (output : dict)
        (video_path metadata : value) (found : bool) :
  lookup "video_path" output = Some video_path ->
  lookup "metadata" output = Some metadata ->
  os_path_exists video_path = Return found ->
  (exists valid, result (validate_output self output) = Return valid)
  /\ (result (validate_output self output) = Return true <->
      found = true
      /\ exists d,
          VideoFileClip_duration video_path = Return d
          /\ le_zero d = Return false
          /\ VideoFileClip_close video_path = Return tt).
Proof.
  intros Hpath Hmeta Hfound.
  unfold validate_output, has_keys, contains, getitem.
  cbn [forallb]. rewrite Hpath, Hmeta. cbn. rewrite Hfound. cbn.
  destruct found; cbn.
  - destruct (VideoFileClip_duration video_path) as [d|e] eqn:Hd; cbn.
    + destruct (le_zero d) as [[|]|e] eqn:Hle; cbn.
      * split; [eauto |]. split; [discriminate |].
        intros (_ & d' & Hd' & Hle' & _). congruence.
      * destruct (VideoFileClip_close video_path) as [[]|e] eqn:Hclose; cbn.
        -- split; [eauto |]. split; [| reflexivity].
           intros _. split; [reflexivity |]. exists d. auto.
        -- rewrite (@VideoFileClip_close_fails _ video_path e Hclose). cbn.
           split; [eauto |]. split; [discriminate |].
           intros (_ & d' & _ & _ & Hclose'). discriminate Hclose'.
      * rewrite (@le_zero_fails d e Hle). cbn.
        split; [eauto |]. split; [discriminate |].
        intros (_ & d' & Hd' & Hle' & _). congruence.
    + rewrite (@VideoFileClip_duration_fails _ video_path e Hd). cbn.
      split; [eauto |]. split; [discriminate |].
      intros (_ & d' & Hd' & _). discriminate Hd'.
  - split; [eauto |]. split; [discriminate |]. intros [Hf _]. discriminate Hf.
Qed.

End EditorRuns.

Lemma add_transitions_effects_witness :
  let self := {| EditorAgent.video_quality := PyStr "high";
                 EditorAgent.audio_quality := PyStr "high";
                 EditorAgent.transition_style := PyStr "smooth" |} in
  let clip p := {| source := PyStr p; duration := Some (PyFloat 20);
                   effects := [] |} in
  nth_error (EditorAgent._add_transitions self
               [clip "a.png"; clip "b.png"; clip "c.png"]) 1
  = Some {| source := PyStr "b.png"; duration := Some (PyFloat 20);
            effects := [crossfadein 0.5; crossfadein 0.5] |}.
Proof.
  intros self clip.
  exact (proj1 (add_transitions_effects self
                  [clip "a.png"; clip "b.png"; clip "c.png"])
               eq_refl 1 (clip "b.png") eq_refl).
Defined.

Lemma editor_validate_iff_witness :
  result (@EditorAgent.validate_output Sample.env
            {| EditorAgent.video_quality := PyStr "high";
               EditorAgent.audio_quality := PyStr "high";
               EditorAgent.transition_style := PyStr "smooth" |}
            [ ("video_path", PyStr "output/videos/tiktok_final.mp4");
              ("metadata", PyDict []) ])
  = Return true.
Proof.
  apply (proj2 (@editor_validate_iff Sample.env
                  {| EditorAgent.video_quality := PyStr "high";
                     EditorAgent.audio_quality := PyStr "high";
                     EditorAgent.transition_style := PyStr "smooth" |}
                  [ ("video_path", PyStr "output/videos/tiktok_final.mp4");
                    ("metadata", PyDict []) ]
                  (PyStr "output/videos/tiktok_final.mp4") (PyDict []) true
                  eq_refl eq_refl eq_refl)).
  split; [reflexivity |]. exists (PyFloat 60). repeat split.
Defined.


(** ** [VoiceAgent] *)

Section VoiceRuns.
Context `{Environment} `{VoiceAgent.Speech}.
Import VoiceAgent.

(** X20.  [VoiceAgent.validate_output] accepts an output with an audio
    path, a duration and metadata exactly when the audio file exists and
    the duration is above zero; a duration that cannot be compared with
    zero makes it raise once the file is found. *)
Theorem voice_validate_iff (self : t) (output : dict)
        (audio_path duration metadata : value) (found : bool) :
  lookup "audio_path" output = Some audio_path ->
  lookup "duration" output = Some duration ->
  lookup "metadata" output = Some metadata ->
  os_path_exists audio_path = Return found ->
  (result (validate_output self output) = Return true <->
   found = true /\ le_zero duration = Return false)
  /\ (forall e,
         found = true -> le_zero duration = Raise e ->
         result (validate_output self output) = Raise e).
Proof.
  intros Hpath Hduration Hmeta Hfound.
  unfold validate_output, has_keys, contains, getitem.
  cbn [forallb]. rewrite Hpath, Hduration, Hmeta. cbn. rewrite Hfound. cbn.
  destruct found; cbn.
  - destruct (le_zero duration) as [[|]|e']; cbn.
    + split; [split; [discriminate | intros [_ Hle]; discriminate Hle] |].
      intros e _ He. discriminate He.
    + split; [split; [auto | reflexivity] |].
      intros e _ He. discriminate He.
    + split; [split; [discriminate | intros [_ Hle]; discriminate Hle] |].
      intros e _ He. injection He as ->. reflexivity.
  - split; [split; [discriminate | intros [Hf _]; discriminate Hf] |].
    intros e Hf. discriminate Hf.
Qed.

Arguments truediv : simpl never.
Arguments _generate_ssml : simpl never.

(** The file [process] writes the audio of the script [text] to. *)
Definition audio_file (platform : value) (text : string) : string :=
  "output/audio" ++ "/voiceover_" ++ fmt platform ++ "_"
    ++ fmt (PyInt (hash text)) ++ ".mp3".

(** The output [process] builds when the audio has no byte. *)
Definition silent_output (self : t) (platform style : value)
           (text : string) : dict :=
  [ ("audio_path", PyStr (audio_file platform text));
    ("duration", PyFloat 0);
    ("metadata", PyDict [ ("platform", platform);
                          ("style", style);
                          ("voice_id", voice_id self);
                          ("speaking_rate", speaking_rate self) ]) ].

Lemma no_audio_duration :
  truediv (PyInt (Z.of_nat (String.length ""))) 16000 = Return (PyFloat 0).
Proof. vm_compute. reflexivity. Qed.

(** [process] on a script whose synthesis has no byte. *)
Lemma voice_process_silent (self : t) (input_data : dict) (text : string)
      (platform style : value) :
  lookup "script" input_data = Some (PyStr text) ->
  lookup "platform" input_data = Some platform ->
  lookup "style" input_data = Some style ->
  synthesize_speech (_generate_ssml text style) (voice_id self)
    (speaking_rate self) = Return "" ->
  result (process self input_data) =
  match write_audio (audio_file platform text) "" with
  | Return _ => Return (silent_output self platform style text)
  | Raise e => Raise e
  end.
Proof.
  intros Hscript Hplatform Hstyle Hsilent.
  unfold process, getitem. rewrite Hscript, Hplatform, Hstyle.
  cbn [lift bind ret Monad_writer Monad_outcome as_str result snd].
  rewrite Hsilent.
  cbn [lift bind ret Monad_writer Monad_outcome as_str result snd].
  fold (audio_file platform text).
  destruct (write_audio (audio_file platform text) "") as [[]|e];
    cbn [lift bind ret Monad_writer Monad_outcome as_str result snd];
    [| reflexivity].
  rewrite no_audio_duration. reflexivity.
Qed.

(** [validate_output] on the output of a silent synthesis. *)
Lemma voice_validate_silent (self : t) (platform style : value)
      (text : string) :
  result (validate_output self (silent_output self platform style text)) =
  match os_path_exists (PyStr (audio_file platform text)) with
  | Return _ => Return false
  | Raise e => Raise e
  end.
Proof.
  unfold validate_output, has_keys, contains, getitem, silent_output. cbn.
  destruct (os_path_exists _) as [[|]|e]; reflexivity.
Qed.

(** X21.  When the speech service returns no audio at all, the output
    [process] builds, once the empty file is written, has the duration
    [len(audio_content) / 16000 = 0.0]; [validate_output] answers [False]
    for it, whether the file is found or not; and [VoiceAgent.run]
    returns [None]. *)
Theorem voice_run_empty_audio (self : t) (input_data : dict) (text : string)
        (platform style : value) :
  lookup "script" input_data = Some (PyStr text) ->
  lookup "platform" input_data = Some platform ->
  lookup "style" input_data = Some style ->
  synthesize_speech (_generate_ssml text style) (voice_id self)
    (speaking_rate self) = Return "" ->
  let output :=
    [ ("audio_path", PyStr (audio_file platform text));
      ("duration", PyFloat 0);
      ("metadata", PyDict [ ("platform", platform);
                            ("style", style);
                            ("voice_id", voice_id self);
                            ("speaking_rate", speaking_rate self) ]) ] in
  (write_audio (audio_file platform text) "" = Return tt ->
   result (process self input_data) = Return output)
  /\ (forall other,
         result (process self input_data) = Return other -> other = output)
  /\ (forall found,
         os_path_exists (PyStr (audio_file platform text)) = Return found ->
         result (validate_output self output) = Return false)
  /\ (forall valid,
         result (validate_output self output) = Return valid ->
         valid = false)
  /\ result (BaseAgent.run (agent self) input_data) = Return PyNone.
Proof.
  intros Hscript Hplatform Hstyle Hsilent output.
  change output with (silent_output self platform style text).
  pose proof (@voice_process_silent self input_data text platform style
                Hscript Hplatform Hstyle Hsilent) as Hprocess.
  pose proof (@voice_validate_silent self platform style text) as Hvalidate.
  repeat split.
  - intros Hwritten. rewrite Hprocess, Hwritten. reflexivity.
  - intros other. rewrite Hprocess.
    destruct (write_audio _ _); [| discriminate].
    intros Hother. injection Hother as <-. reflexivity.
  - intros found Hfound. rewrite Hvalidate, Hfound. reflexivity.
  - intros valid. rewrite Hvalidate.
    destruct (os_path_exists _); [| discriminate].
    intros Hvalid. injection Hvalid as <-. reflexivity.
  - rewrite run_caught;
      [| apply voice_process_fails | apply voice_validate_fails].
    cbn [BaseAgent.process BaseAgent.validate_output agent].
    rewrite Hprocess.
    destruct (write_audio _ _); [| reflexivity].
    rewrite Hvalidate.
    destruct (os_path_exists _); reflexivity.
Qed.

Lemma set_last_snoc (f : string -> string) (words : list string)
      (w : string) :
  set_last f (words ++ [w]) = (words ++ [f w])%list.
Proof.
  induction words as [|x words IH]; [reflexivity |].
  cbn [app set_last]. rewrite IH.
  destruct words; reflexivity.
Qed.

(** X22.  The emphasis [_generate_ssml] puts on a sentence: none when the
    sentence has at most five words, which are then separated by single
    blanks; otherwise on the first and on the last word, the words between
    them being left as they are. *)
Theorem ssml_part_emphasis (sentence : string) :
  (List.length (split_whitespace sentence) <= 5 ->
   ssml_part sentence = join " " (split_whitespace sentence))
  /\ (forall first middle last,
         split_whitespace sentence = (first :: middle ++ [last])%list ->
         4 <= List.length middle ->
         ssml_part sentence =
         join " " (emphasis first :: middle ++ [emphasis last])%list).
Proof.
  unfold ssml_part. split.
  - intros Hfew.
    destruct (Nat.ltb_spec 5 (List.length (split_whitespace sentence)));
      [lia | reflexivity].
  - intros first middle last -> Hmany.
    destruct (Nat.ltb_spec 5 (List.length (first :: middle ++ [last])))
      as [_|Hfew].
    + cbn [set_first].
      change (emphasis first :: middle ++ [last])%list
        with ((emphasis first :: middle) ++ [last])%list.
      rewrite set_last_snoc. reflexivity.
    + cbn [List.length] in Hfew. rewrite length_app in Hfew.
      cbn [List.length] in Hfew. lia.
Qed.

End VoiceRuns.

(** A speech service that answers with [audio]. *)
Definition speech_of (audio : string) : VoiceAgent.Speech :=
  {| VoiceAgent.TextToSpeechClient := Return tt;
     VoiceAgent.synthesize_speech := fun _ _ _ => Return audio;
     VoiceAgent.hash := fun _ => 42%Z;
     VoiceAgent.write_audio := fun _ _ => Return tt;
     VoiceAgent.synthesize_speech_fails := fun _ _ _ => Return_fails _;
     VoiceAgent.write_audio_fails := fun _ _ => Return_fails _ |}.

Lemma voice_validate_iff_witness :
  result (@VoiceAgent.validate_output Sample.env
            {| VoiceAgent.provider := PyStr "google";
               VoiceAgent.voice_id := PyStr "en-US-Neural2-F";
               VoiceAgent.speaking_rate := PyFloat 1 |}
            [ ("audio_path", PyStr "output/audio/voiceover_tiktok_42.mp3");
              ("duration", PyFloat 12);
              ("metadata", PyDict []) ])
  = Return true.
Proof.
  apply (proj1 (@voice_validate_iff Sample.env
                  {| VoiceAgent.provider := PyStr "google";
                     VoiceAgent.voice_id := PyStr "en-US-Neural2-F";
                     VoiceAgent.speaking_rate := PyFloat 1 |}
                  [ ("audio_path",
                     PyStr "output/audio/voiceover_tiktok_42.mp3");
                    ("duration", PyFloat 12);
                    ("metadata", PyDict []) ]
                  (PyStr "output/audio/voiceover_tiktok_42.mp3")
                  (PyFloat 12) (PyDict []) true
                  eq_refl eq_refl eq_refl eq_refl)).
  split; reflexivity.
Defined.

Lemma voice_run_empty_audio_witness :
  let self := {| VoiceAgent.provider := PyStr "google";
                 VoiceAgent.voice_id := PyStr "en-US-Neural2-F";
                 VoiceAgent.speaking_rate := PyFloat 1 |} in
  let input_data := [ ("script", PyStr "The pyramids are old.");
                      ("platform", PyStr "tiktok");
                      ("style", PyStr "engaging") ] in
  let output :=
    [ ("audio_path", PyStr "output/audio/voiceover_tiktok_<object>.mp3");
      ("duration", PyFloat 0);
      ("metadata", PyDict [ ("platform", PyStr "tiktok");
                            ("style", PyStr "engaging");
                            ("voice_id", PyStr "en-US-Neural2-F");
                            ("speaking_rate", PyFloat 1) ]) ] in
  result (@VoiceAgent.process Sample.env (speech_of "") self input_data)
  = Return output
  /\ result (@VoiceAgent.validate_output Sample.env self output)
     = Return false
  /\ result (@BaseAgent.run Sample.env
               (@VoiceAgent.agent Sample.env (speech_of "") self) input_data)
     = Return PyNone.
Proof.
  intros self input_data output.
  destruct (@voice_run_empty_audio Sample.env (speech_of "") self input_data
              "The pyramids are old." (PyStr "tiktok") (PyStr "engaging")
              eq_refl eq_refl eq_refl eq_refl)
    as (Hprocess & _ & Hvalidate & _ & Hrun).
  split; [| split].
  - apply Hprocess. reflexivity.
  - apply (Hvalidate true). reflexivity.
  - exact Hrun.
Defined.

Lemma ssml_part_emphasis_witness :
  VoiceAgent.ssml_part "The  Great Pyramid was built  around 2560 BC"
  = "<emphasis level='moderate'>The</emphasis> Great Pyramid was built"
      ++ " around 2560 <emphasis level='moderate'>BC</emphasis>".
Proof.
  apply (proj2 (ssml_part_emphasis
                  "The  Great Pyramid was built  around 2560 BC")
               "The" ["Great"; "Pyramid"; "was"; "built"; "around"; "2560"]
               "BC");
    [reflexivity | simpl; lia].
Defined.


(** ** [main] *)

Section MainRuns.
Context `{Environment} `{VoiceAgent.Speech} `{Startup}.
Import ContentGenerator.

Arguments subscript : simpl never.
Arguments truthy : simpl never.
Arguments BaseAgent.run : simpl never.

Ltac main_step Hquiet :=
  match goal with
  | |- context [BaseAgent.run (agents ?g ?s) ?i] =>
      let log := fresh "log" in
      let back := fresh "back" in
      let e := fresh "e" in
      let Hrun := fresh "Hrun" in
      destruct (BaseAgent.run (agents g s) i) as [log [back|e]] eqn:Hrun;
      [| exfalso; apply (Hquiet s i e); rewrite Hrun; reflexivity]
  | |- context [subscript ?v ?k] =>
      let x := fresh "x" in
      let e := fresh "e" in
      let Hsub := fresh "Hsub" in
      destruct (subscript v k) as [x|e] eqn:Hsub;
      [| cbn; rewrite (@subscript_caught _ _ _ Hsub)]
  | |- context [truthy ?v] =>
      let Htruthy := fresh "Htruthy" in
      destruct (truthy v) eqn:Htruthy
  end; cbn.

(** What [generate_content] returns when the [run] of its agents never
    raises: [None], or a dictionary that starts with the video path. *)
Lemma generate_content_returns (self : t) (topic platform : string) :
  (forall s input e,
      result (BaseAgent.run (agents self s) input) <> Raise e) ->
  result (generate_content self topic platform) = Return PyNone
  \/ exists video_path rest,
      result (generate_content self topic platform) =
      Return (PyDict (("video_path", video_path) :: rest)).
Proof.
  intros Hquiet.
  unfold generate_content, call; cbn; repeat main_step Hquiet; eauto.
Qed.

Lemma bind_returns (A B : Type) (m : outcome A) (k : A -> outcome B)
      (b : B) :
  bind m k = Return b -> exists a, m = Return a /\ k a = Return b.
Proof.
  destruct m as [a|e]; [| discriminate]. intros Hk. exists a. auto.
Qed.

(** The generator [ContentGenerator(config_path)] builds has the
    configuration loaded from the file and the five agents of the
    pipeline. *)
Lemma generator_built (config_path : string) (generator : t) :
  ContentGenerator.__init__ config_path = Return generator ->
  load_config config_path = Return (config generator)
  /\ exists r s v i e,
      agents generator research = ResearchAgent.agent r
      /\ agents generator script = ScriptAgent.agent s
      /\ agents generator voice = VoiceAgent.agent v
      /\ agents generator visual = VisualAgent.agent i
      /\ agents generator editor = EditorAgent.agent e.
Proof.
  unfold ContentGenerator.__init__, _load_config, _initialize_agents.
  intros Hinit.
  repeat match goal with
         | Hb : bind _ _ = Return _ |- _ =>
             let x := fresh "x" in
             let Hx := fresh "Hx" in
             apply bind_returns in Hb; destruct Hb as (x & Hx & Hb)
         end.
  repeat match goal with
         | Hb : ret _ = Return _ |- _ => cbn in Hb; injection Hb as <-
         end.
  cbn. split; [assumption |]. eexists _, _, _, _, _. repeat split.
Qed.

(** The [run] of the agents of a generator that has been built never
    raises. *)
Lemma generator_quiet (config_path : string) (generator : t) :
  ContentGenerator.__init__ config_path = Return generator ->
  forall s input e,
    result (BaseAgent.run (agents generator s) input) <> Raise e.
Proof.
  intros Hinit s input e.
  destruct (generator_built _ Hinit)
    as (_ & r & sc & v & i & ed & Hr & Hs & Hv & Hi & He).
  destruct s; [rewrite Hr | rewrite Hs | rewrite Hv | rewrite Hi | rewrite He];
    apply run_never_raises.
  - exact (research_process_fails r input).
  - exact (research_validate_fails r).
  - exact (script_process_fails sc input).
  - exact (script_validate_fails sc).
  - exact (voice_process_fails v input).
  - exact (voice_validate_fails v).
  - exact (visual_process_fails i input).
  - exact (visual_validate_fails i).
  - exact (editor_process_fails ed input).
  - exact (editor_validate_fails ed).
Qed.

(** The lines [main] prints after a run for [platform] gave [back]. *)
Definition report (platform : string) (back : outcome value) : list event :=
  match back with
  | Return (PyDict (("video_path", video_path) :: _)) =>
      [ Printed ("Successfully generated content for " ++ platform);
        Printed ("Video saved at: " ++ fmt video_path) ]
  | _ => [ Printed ("Failed to generate content for " ++ platform) ]
  end.

(** What [main] does for one platform. *)
Definition attempted (generator : t) (platform : string) : list event :=
  (Printed (nl ++ "Generating content for " ++ platform ++ "...")
   :: trace (generate_content generator Main.topic platform)
   ++ report platform
        (result (generate_content generator Main.topic platform)))%list.

Arguments generate_content : simpl never.

Lemma attempt_does (generator : t) (platform : string) :
  (forall s input e,
      result (BaseAgent.run (agents generator s) input) <> Raise e) ->
  Main.attempt generator platform =
  (attempted generator platform, Return tt).
Proof.
  intros Hquiet. unfold Main.attempt, attempted, report.
  destruct (generate_content_returns generator Main.topic platform Hquiet)
    as [Hnone | (video_path & rest & Hsome)].
  - destruct (generate_content generator Main.topic platform) as [events back].
    cbn in Hnone. subst back. cbn. rewrite ?app_nil_r, <- ?app_assoc. reflexivity.
  - destruct (generate_content generator Main.topic platform) as [events back].
    cbn in Hsome. subst back. cbn. rewrite ?app_nil_r, <- ?app_assoc. reflexivity.
Qed.

(** X23.  [main] first builds the generator.  When that fails, as it
    does when the configuration file cannot be read, [main] raises the
    exception at once: nothing is printed and no platform is tried.
    Otherwise [main] tries the four platforms in order, tiktok,
    youtube_shorts, instagram, facebook, whatever becomes of each: a
    platform that fails is reported and the next one is tried, and
    [main] returns. *)
Theorem main_tries_every_platform :
  (forall e,
      load_config Main.config_path = Raise e -> Main.main = ([], Raise e))
  /\ (forall e,
         ContentGenerator.__init__ Main.config_path = Raise e ->
         Main.main = ([], Raise e))
  /\ (forall generator,
         ContentGenerator.__init__ Main.config_path = Return generator ->
         Main.main =
         ((attempted generator "tiktok"
             ++ attempted generator "youtube_shorts"
             ++ attempted generator "instagram"
             ++ attempted generator "facebook")%list,
          Return tt)).
Proof.
  split; [| split].
  - intros e He. unfold Main.main, ContentGenerator.__init__, _load_config.
    rewrite He. reflexivity.
  - intros e He. unfold Main.main. rewrite He. reflexivity.
  - intros generator Hinit.
    pose proof (generator_quiet _ Hinit) as Hquiet.
    unfold Main.main, Main.platforms. rewrite Hinit.
    cbn [for_each lift bind ret Monad_writer].
    rewrite !(attempt_does _ _ Hquiet).
    cbn. rewrite ?app_nil_r, <- ?app_assoc. reflexivity.
Qed.

End MainRuns.

(** A start without a configuration file. *)
Definition missing_config : Startup :=
  {| load_config := fun path =>
       Raise (OSError ("[Errno 2] No such file or directory: '" ++ path
                         ++ "'"));
     setup_logging := fun _ => Return tt |}.

(** A start with a configuration for the five agents and one platform. *)
Definition sample_config : Startup :=
  {| load_config := fun _ =>
       Return
         (PyDict
            [ ("agents",
               PyDict
                 [ ("research", PyDict [ ("model", PyStr "llama2");
                                         ("max_tokens", PyInt 2000);
                                         ("temperature", PyFloat 0.5) ]);
                   ("script", PyDict [ ("model", PyStr "gpt-4");
                                       ("max_tokens", PyInt 1000);
                                       ("temperature", PyFloat 0.5) ]);
                   ("voice", PyDict [ ("provider", PyStr "google");
                                      ("voice_id", PyStr "en-US-Neural2-F");
                                      ("speaking_rate", PyFloat 1) ]);
                   ("visual", PyDict [ ("provider", PyStr "dall-e-3");
                                       ("style", PyStr "realistic");
                                       ("image_quality", PyStr "high") ]);
                   ("editor", PyDict [ ("video_quality", PyStr "high");
                                       ("audio_quality", PyStr "high");
                                       ("transition_style",
                                        PyStr "smooth") ]) ]);
              ("platforms",
               PyDict [ ("youtube_shorts",
                         PyDict [ ("style", PyStr "educational, engaging");
                                  ("max_duration", PyInt 60);
                                  ("aspect_ratio", PyStr "9:16") ]) ]) ]);
     setup_logging := fun _ => Return tt |}.

Lemma main_tries_every_platform_witness :
  @Main.main Sample.env missing_config (speech_of "")
  = ([], Raise (OSError ("[Errno 2] No such file or directory: "
                           ++ "'src/config/content_config.yaml'")))
  /\ result (@Main.main Sample.env sample_config (speech_of "")) = Return tt
  /\ lines_printed (trace (@Main.main Sample.env sample_config (speech_of "")))
     = [ nl ++ "Generating content for tiktok...";
         "Error generating content: 'tiktok'";
         "Failed to generate content for tiktok";
         nl ++ "Generating content for youtube_shorts...";
         "Error generating content: Script generation failed";
         "Failed to generate content for youtube_shorts";
         nl ++ "Generating content for instagram...";
         "Error generating content: 'instagram'";
         "Failed to generate content for instagram";
         nl ++ "Generating content for facebook...";
         "Error generating content: 'facebook'";
         "Failed to generate content for facebook" ].
Proof.
  destruct (@main_tries_every_platform Sample.env (speech_of "") missing_config)
    as (Hmissing & _ & _).
  destruct (@main_tries_every_platform Sample.env (speech_of "") sample_config)
    as (_ & _ & Hloaded).
  split; [| split].
  - apply Hmissing. reflexivity.
  - rewrite (Hloaded _ eq_refl). reflexivity.
  - rewrite (Hloaded _ eq_refl). vm_compute. reflexivity.
Defined.
